(** * fmapi: the CXL Fabric Management API object codec

    A shallow embedding of [fmapi.c] / [fmapi.h]: the objects of the
    CXL 2.0 Fabric Management API, [fmapi_serialize] and
    [fmapi_deserialize] (object <-> little-endian byte stream), the
    opcode -> object tables [fmapi_fmob_req] / [fmapi_fmob_rsp] and the
    message builders [fmapi_fill_*].

    Conventions of the embedding.
    - A C integer of width w is a [Z]; every conversion to a narrower
      type that the C code performs (a store to a [__u8], an assignment
      to a bit-field) is written out with [wrap].
    - A [__u8 *] into a byte array is a [buffer]: the bytes seen from
      the pointer, [b i] being [b[i]].  [shift b k] is [&b[k]] and
      [unshift] views an array written through such a pointer from its
      start again.  No array has a bound in the C code, so none has one
      here.
    - A pointer argument that the code may receive as NULL is an
      [option]; dereferencing [None] is [Fault].
    - An array member of a struct together with its count member is a
      [list] holding the entries in use.                                *)

From Stdlib Require Import String.
From Stdlib Require Import ZArith List Lia Bool.
From coqutil Require Import Z.bitblast.
Import ListNotations.
Local Open Scope Z_scope.

(** ** Machine integers *)

(** Conversion to an unsigned type (or bit-field) of [w] bits. *)
Definition wrap (w v : Z) : Z := v mod 2 ^ w.

Definition u8 : Z -> Z := wrap 8.
Definition u16 : Z -> Z := wrap 16.
Definition u32 : Z -> Z := wrap 32.
Definition u64 : Z -> Z := wrap 64.

(** [v] is a value of an unsigned field of [w] bits. *)
Definition in_bits (w v : Z) : bool := (0 <=? v) && (v <? 2 ^ w).

(** Every entry of a byte array is a byte. *)
Definition is_bytes (l : list Z) : bool := forallb (in_bits 8) l.

(** The array [l] holds exactly [n] entries. *)
Definition has_len {T : Type} (l : list T) (n : Z) : bool :=
  Z.of_nat (length l) =? n.

(** ** Pointers, buffers and results *)

(** A pointer that may be NULL, with its pointee. *)
Definition ptr (T : Type) : Type := option T.

(** The bytes reachable from a [__u8 *]. *)
Definition buffer : Type := Z -> Z.

(** [dst[i] = v] for a [__u8 *dst]. *)
Definition store (dst : buffer) (i v : Z) : buffer :=
  fun j => if j =? i then u8 v else dst j.

(** [&b[k]]. *)
Definition shift (b : buffer) (k : Z) : buffer := fun i => b (k + i).

(** The array of which [sub] is the part seen from [&b[k]]. *)
Definition unshift (sub : buffer) (k : Z) : buffer := fun i => sub (i - k).

(** [memcpy(&dst[off], src, n)] from an array member [src]. *)
Definition memcpy_to (dst : buffer) (off : Z) (src : list Z) (n : Z) : buffer :=
  fun j => if (off <=? j) && (j <? off + n)
           then nth (Z.to_nat (j - off)) src 0
           else dst j.

(** The array member after [memcpy(member, &src[off], n)]. *)
Definition memcpy_from (src : buffer) (off n : Z) : list Z :=
  map (fun i => src (off + Z.of_nat i)) (seq 0 (Z.to_nat n)).

(** [l[i]], with [d] standing for storage past the entries in use. *)
Definition elem {T : Type} (d : T) (l : list T) (i : Z) : T :=
  nth (Z.to_nat i) l d.

(** [for (int i = from; ...; i++) s = body i s], run [trips] times. *)
Fixpoint for_loop {S : Type} (trips : nat) (from : Z)
                  (body : Z -> S -> S) (s : S) : S :=
  match trips with
  | O => s
  | Datatypes.S k => for_loop k (from + 1) body (body from s)
  end.

(** [for (int i = 0; i < n; i++) s = body i s]. *)
Definition for_upto {S : Type} (n : Z) (body : Z -> S -> S) (s : S) : S :=
  for_loop (Z.to_nat n) 0 body s.

(** The outcome of a call: the returned [int] and the storage written
    through the output pointer, or a fault (a NULL pointer was
    dereferenced, or a struct was read through a pointer to a struct of
    another kind). *)
Inductive result (T : Type) : Type :=
| Ret (rv : Z) (out : T)
| Fault.
Arguments Ret {T} rv out.
Arguments Fault {T}.

Definition returned {T : Type} (r : result T) : option Z :=
  match r with Ret rv _ => Some rv | Fault => None end.

(** [rv += f(&dst[rv], &list[i], ...)] for one array entry. *)
Definition ser_entry {T : Type} (ser : buffer -> T -> Z * buffer) (e : T)
                     (st : Z * buffer) : Z * buffer :=
  let '(rv, dst) := st in
  let '(k, sub) := ser (shift dst rv) e in
  (rv + k, unshift sub rv).

(** [for (i = 0; i < n; i++) rv += fmapi_serialize(&dst[rv], &list[i], KIND)]. *)
Definition ser_each {T : Type} (ser : buffer -> T -> Z * buffer) (d : T)
                    (l : list T) (n : Z) (st : Z * buffer) : Z * buffer :=
  for_upto n (fun i st => ser_entry ser (elem d l i) st) st.

(** [rv += f(&list[i], &src[rv], KIND, param)] for one array entry; the
    decoded entry becomes entry [i] of the array. *)
Definition deser_entry {T : Type} (deser : buffer -> Z * T) (src : buffer)
                       (st : Z * list T) : Z * list T :=
  let '(rv, acc) := st in
  let '(k, e) := deser (shift src rv) in
  (rv + k, acc ++ [e]).

(** [for (i = 0; i < n; i++) rv += fmapi_deserialize(&list[i], &src[rv], KIND, param)],
    [deser i] being the call on entry [i]. *)
Definition deser_each {T : Type} (deser : Z -> buffer -> Z * T) (src : buffer)
                      (n : Z) (rv : Z) : Z * list T :=
  for_upto n (fun i st => deser_entry (deser i) src st) (rv, []).

(** ** Macros of fmapi.h *)

Definition FM_MAX_PORTS : Z := 256.
Definition FM_MAX_VCS : Z := 256.
Definition FM_MAX_VPPBS : Z := FM_MAX_PORTS.
Definition FM_MAX_VCS_PER_RSP : Z := 7.
Definition FM_LD_MEM_REQ_LEN : Z := 4096.
Definition FM_MAX_NUM_LD : Z := 16.
Definition FM_TLP_HEADER : Z := 32.

Definition FMLN_HDR : Z := 12.
Definition FMLN_MSG : Z := 8192.
Definition FMLN_PAYLOAD : Z := FMLN_MSG - FMLN_HDR.
Definition FMLN_PSC_IDENTIFY_SWITCH : Z := 93.
Definition FMLN_PSC_GET_PHY_PORT_REQ : Z := 1.
Definition FMLN_PSC_GET_PHY_PORT_INFO : Z := 16.
Definition FMLN_PSC_GET_PHY_PORT_RESP : Z := 4.
Definition FMLN_PSC_PHY_PORT_CTRL : Z := 2.
Definition FMLN_PSC_PPB_IO_CFG_REQ : Z := 8.
Definition FMLN_PSC_PPB_IO_CFG_RESP : Z := 4.
Definition FMLN_VSC_GET_INFO_REQ : Z := 3.
Definition FMLN_VSC_PPB_STATUS : Z := 4.
Definition FMLN_VSC_INFO : Z := 4.
Definition FMLN_VSC_GET_INFO_RESP : Z := 4.
Definition FMLN_VSC_BIND : Z := 6.
Definition FMLN_VSC_UNBIND : Z := 3.
Definition FMLN_VSC_GEN_AER : Z := 40.
Definition FMLN_MPC_TUNNEL_CMD_REQ : Z := 5.
Definition FMLN_MPC_TUNNEL_CMD_RESP : Z := 5.
Definition FMLN_MPC_TUNNEL_PAYLOAD : Z := FMLN_PAYLOAD - FMLN_MPC_TUNNEL_CMD_REQ.
Definition FMLN_MPC_LD_IO_CFG_REQ : Z := 12.
Definition FMLN_MPC_LD_IO_CFG_RESP : Z := 4.
Definition FMLN_MPC_LD_MEM_REQ : Z := 16.
Definition FMLN_MPC_LD_MEM_RESP : Z := 4.
Definition FMLN_MCC_GET_LD_INFO : Z := 11.
Definition FMLN_MCC_LD_ALLOC_ENTRY : Z := 16.
Definition FMLN_MCC_GET_LD_ALLOC_REQ : Z := 2.
Definition FMLN_MCC_GET_LD_ALLOC_RSP : Z := 4.
Definition FMLN_MCC_SET_LD_ALLOC_REQ : Z := 4.
Definition FMLN_MCC_SET_LD_ALLOC_RSP : Z := 4.
Definition FMLN_MCC_QOS_CTRL : Z := 7.
Definition FMLN_MCC_QOS_STATUS : Z := 1.
Definition FMLN_MCC_GET_QOS_BW_REQ : Z := 2.
Definition FMLN_MCC_QOS_BW_ALLOC : Z := 2.
Definition FMLN_MCC_GET_QOS_BW_LIMIT_REQ : Z := 2.
Definition FMLN_MCC_QOS_BW_LIMIT : Z := 2.
Definition FMLN_ISC_ID_RSP : Z := 17.
Definition FMLN_ISC_MSG_LIMIT : Z := 1.
Definition FMLN_ISC_BOS : Z := 8.

(** ** Enumerations of fmapi.h *)

(** [enum _FMOB]: the kinds of object. *)
Definition FMOB_NULL : Z := 0.
Definition FMOB_HDR : Z := 1.
Definition FMOB_PSC_ID_RSP : Z := 2.
Definition FMOB_PSC_PORT_REQ : Z := 3.
Definition FMOB_PSC_PORT_INFO : Z := 4.
Definition FMOB_PSC_PORT_RSP : Z := 5.
Definition FMOB_PSC_PORT_CTRL_REQ : Z := 6.
Definition FMOB_PSC_CFG_REQ : Z := 7.
Definition FMOB_PSC_CFG_RSP : Z := 8.
Definition FMOB_VSC_INFO_REQ : Z := 9.
Definition FMOB_VSC_PPB_STAT_BLK : Z := 10.
Definition FMOB_VSC_INFO_BLK : Z := 11.
Definition FMOB_VSC_INFO_RSP : Z := 12.
Definition FMOB_VSC_BIND_REQ : Z := 13.
Definition FMOB_VSC_UNBIND_REQ : Z := 14.
Definition FMOB_VSC_AER_REQ : Z := 15.
Definition FMOB_MPC_TMC_REQ : Z := 16.
Definition FMOB_MPC_TMC_RSP : Z := 17.
Definition FMOB_MPC_CFG_REQ : Z := 18.
Definition FMOB_MPC_CFG_RSP : Z := 19.
Definition FMOB_MPC_MEM_REQ : Z := 20.
Definition FMOB_MPC_MEM_RSP : Z := 21.
Definition FMOB_MCC_INFO_RSP : Z := 22.
Definition FMOB_MCC_ALLOC_BLK : Z := 23.
Definition FMOB_MCC_ALLOC_GET_REQ : Z := 24.
Definition FMOB_MCC_ALLOC_GET_RSP : Z := 25.
Definition FMOB_MCC_ALLOC_SET_REQ : Z := 26.
Definition FMOB_MCC_ALLOC_SET_RSP : Z := 27.
Definition FMOB_MCC_QOS_CTRL : Z := 28.
Definition FMOB_MCC_QOS_STAT_RSP : Z := 29.
Definition FMOB_MCC_QOS_BW_GET_REQ : Z := 30.
Definition FMOB_MCC_QOS_BW_ALLOC : Z := 31.
Definition FMOB_MCC_QOS_BW_LIMIT_GET_REQ : Z := 32.
Definition FMOB_MCC_QOS_BW_LIMIT : Z := 33.
Definition FMOB_ISC_ID_RSP : Z := 34.
Definition FMOB_ISC_MSG_LIMIT : Z := 35.
Definition FMOB_ISC_BOS : Z := 36.
Definition FMOB_MAX : Z := 37.

(** [enum _FMMT]. *)
Definition FMMT_REQ : Z := 0.
Definition FMMT_RESP : Z := 1.

(** [enum _FMOP]: the command opcodes. *)
Definition FMOP_PSC_ID : Z := 0x5100.
Definition FMOP_PSC_PORT : Z := 0x5101.
Definition FMOP_PSC_PORT_CTRL : Z := 0x5102.
Definition FMOP_PSC_CFG : Z := 0x5103.
Definition FMOP_VSC_INFO : Z := 0x5200.
Definition FMOP_VSC_BIND : Z := 0x5201.
Definition FMOP_VSC_UNBIND : Z := 0x5202.
Definition FMOP_VSC_AER : Z := 0x5203.
Definition FMOP_MPC_TMC : Z := 0x5300.
Definition FMOP_MPC_CFG : Z := 0x5301.
Definition FMOP_MPC_MEM : Z := 0x5302.
Definition FMOP_MCC_INFO : Z := 0x5400.
Definition FMOP_MCC_ALLOC_GET : Z := 0x5401.
Definition FMOP_MCC_ALLOC_SET : Z := 0x5402.
Definition FMOP_MCC_QOS_CTRL_GET : Z := 0x5403.
Definition FMOP_MCC_QOS_CTRL_SET : Z := 0x5404.
Definition FMOP_MCC_QOS_STAT : Z := 0x5405.
Definition FMOP_MCC_QOS_BW_ALLOC_GET : Z := 0x5406.
Definition FMOP_MCC_QOS_BW_ALLOC_SET : Z := 0x5407.
Definition FMOP_MCC_QOS_BW_LIMIT_GET : Z := 0x5408.
Definition FMOP_MCC_QOS_BW_LIMIT_SET : Z := 0x5409.
Definition FMOP_ISC_ID : Z := 0x0001.
Definition FMOP_ISC_BOS : Z := 0x0002.
Definition FMOP_ISC_MSG_LIMIT_GET : Z := 0x0003.
Definition FMOP_ISC_MSG_LIMIT_SET : Z := 0x0004.

(** [enum _FMLF]: shifts of the link state flags. *)
Definition FMLF_LANE_REVERSAL_BIT : Z := 0.
Definition FMLF_PERST_STATE_BIT : Z := 1.
Definition FMLF_PRSNT_STATE_BIT : Z := 2.
Definition FMLF_PWRCTL_STATE_BIT : Z := 3.

(** [enum _FMQT]: shifts of the QoS telemetry flags. *)
Definition FMQT_EGRESS_PORT_CONGESTION_BIT : Z := 0.
Definition FMQT_TEMP_THROUGHPUT_REDUCTION_BIT : Z := 1.

(** ** The objects, with their cases of [fmapi_serialize] and [fmapi_deserialize]

    Each module holds one struct of fmapi.h, the case of the [switch] of
    [fmapi_serialize] that encodes it ([serialize], returning [rv] and
    the destination after the writes), the case of [fmapi_deserialize]
    that decodes it ([deserialize], returning [rv] and the struct
    written) and [wf]: every member within its width on the wire, every
    count within the capacity of its array and equal to the number of
    entries held.  [zero] is the struct after [memset(&o, 0, sizeof o)]. *)

(** FM API protocol header, [struct fmapi_hdr]. *)
Module fmapi_hdr.
Record t : Type := mk {
  category : Z;     (* __u8 : 4 *)
  tag : Z;          (* __u8 *)
  opcode : Z;       (* __u16 *)
  background : Z;   (* __u8 : 1 *)
  len : Z;          (* __u32 : 21 *)
  return_code : Z;  (* __u16 *)
  ext_status : Z    (* __u16 *)
}.

Definition zero : t := mk 0 0 0 0 0 0 0.

Definition wf (o : t) : bool :=
  in_bits 4 (category o) && in_bits 8 (tag o) && in_bits 16 (opcode o)
  && in_bits 1 (background o) && in_bits 21 (len o)
  && in_bits 16 (return_code o) && in_bits 16 (ext_status o).

(* case FMOB_HDR; dst[2] is not written *)
Definition serialize (dst : buffer) (o : t) : Z * buffer :=
  let dst := store dst 0 (Z.land (Z.shiftl (category o) 4) 0xF0) in
  let dst := store dst 1 (tag o) in
  let dst := store dst 3 (Z.land (opcode o) 0x00FF) in
  let dst := store dst 4 (Z.land (Z.shiftr (opcode o) 8) 0x00FF) in
  let dst := store dst 5 (Z.land (len o) 0x00FF) in
  let dst := store dst 6 (Z.land (Z.shiftr (len o) 8) 0x00FF) in
  let dst := store dst 7 (Z.lor (Z.land (Z.shiftr (len o) 13) 0x00F8)
                                (Z.land (background o) 0x01)) in
  let dst := store dst 8 (Z.land (return_code o) 0x00FF) in
  let dst := store dst 9 (Z.land (Z.shiftr (return_code o) 8) 0x00FF) in
  let dst := store dst 10 (Z.land (ext_status o) 0x00FF) in
  let dst := store dst 11 (Z.land (Z.shiftr (ext_status o) 8) 0x00FF) in
  (FMLN_HDR, dst).

Definition deserialize (src : buffer) : Z * t :=
  (FMLN_HDR,
   {| category := wrap 4 (Z.land (Z.shiftr (src 0) 4) 0x0F);
      tag := src 1;
      opcode := u16 (Z.lor (Z.shiftl (src 4) 8) (src 3));
      len := wrap 21 (Z.lor (Z.lor (Z.shiftl (Z.land (src 7) 0x00F8) 13)
                                   (Z.shiftl (src 6) 8))
                            (src 5));
      background := wrap 1 (Z.land (src 7) 0x01);
      return_code := u16 (Z.lor (Z.shiftl (src 9) 8) (src 8));
      ext_status := u16 (Z.lor (Z.shiftl (src 11) 8) (src 10)) |}).
End fmapi_hdr.

(** Background Operation Status, [struct fmapi_isc_bos]. *)
Module fmapi_isc_bos.
Record t : Type := mk {
  running : Z;  (* __u8, one bit on the wire *)
  pcnt : Z;     (* __u8, seven bits on the wire *)
  opcode : Z;   (* __u16 *)
  rc : Z;       (* __u16 *)
  ext : Z       (* __u16 *)
}.

Definition zero : t := mk 0 0 0 0 0.

Definition wf (o : t) : bool :=
  in_bits 1 (running o) && in_bits 7 (pcnt o) && in_bits 16 (opcode o)
  && in_bits 16 (rc o) && in_bits 16 (ext o).

Definition serialize (dst : buffer) (o : t) : Z * buffer :=
  let dst := store dst 0 (Z.lor (Z.shiftl (pcnt o) 1) (Z.land (running o) 0x01)) in
  let dst := store dst 1 0 in
  let dst := store dst 2 (Z.land (opcode o) 0x00FF) in
  let dst := store dst 3 (Z.land (Z.shiftr (opcode o) 8) 0x00FF) in
  let dst := store dst 4 (Z.land (rc o) 0x00FF) in
  let dst := store dst 5 (Z.land (Z.shiftr (rc o) 8) 0x00FF) in
  let dst := store dst 6 (Z.land (ext o) 0x00FF) in
  let dst := store dst 7 (Z.land (Z.shiftr (ext o) 8) 0x00FF) in
  (FMLN_ISC_BOS, dst).

Definition deserialize (src : buffer) : Z * t :=
  (FMLN_ISC_BOS,
   {| running := u8 (Z.land (src 0) 0x01);
      pcnt := u8 (Z.land (Z.shiftr (src 0) 1) 0x7F);
      opcode := u16 (Z.lor (Z.shiftl (src 3) 8) (Z.land (src 2) 0x00FF));
      rc := u16 (Z.lor (Z.shiftl (src 5) 8) (Z.land (src 4) 0x00FF));
      ext := u16 (Z.lor (Z.shiftl (src 7) 8) (Z.land (src 6) 0x00FF)) |}).
End fmapi_isc_bos.

(** Identify, [struct fmapi_isc_id_rsp]. *)
Module fmapi_isc_id_rsp.
Record t : Type := mk {
  vid : Z;   (* __u16 *)
  did : Z;   (* __u16 *)
  svid : Z;  (* __u16 *)
  ssid : Z;  (* __u16 *)
  sn : Z;    (* __u64 *)
  size : Z   (* __u8 *)
}.

Definition zero : t := mk 0 0 0 0 0 0.

Definition wf (o : t) : bool :=
  in_bits 16 (vid o) && in_bits 16 (did o) && in_bits 16 (svid o)
  && in_bits 16 (ssid o) && in_bits 64 (sn o) && in_bits 8 (size o).

Definition serialize (dst : buffer) (o : t) : Z * buffer :=
  let dst := store dst 0 (Z.land (vid o) 0x00FF) in
  let dst := store dst 1 (Z.land (Z.shiftr (vid o) 8) 0x00FF) in
  let dst := store dst 2 (Z.land (did o) 0x00FF) in
  let dst := store dst 3 (Z.land (Z.shiftr (did o) 8) 0x00FF) in
  let dst := store dst 4 (Z.land (svid o) 0x00FF) in
  let dst := store dst 5 (Z.land (Z.shiftr (svid o) 8) 0x00FF) in
  let dst := store dst 6 (Z.land (ssid o) 0x00FF) in
  let dst := store dst 7 (Z.land (Z.shiftr (ssid o) 8) 0x00FF) in
  let dst := store dst 8 (Z.land (sn o) 0x00FF) in
  let dst := store dst 9 (Z.land (Z.shiftr (sn o) 8) 0x00FF) in
  let dst := store dst 10 (Z.land (Z.shiftr (sn o) 16) 0x00FF) in
  let dst := store dst 11 (Z.land (Z.shiftr (sn o) 24) 0x00FF) in
  let dst := store dst 12 (Z.land (Z.shiftr (sn o) 32) 0x00FF) in
  let dst := store dst 13 (Z.land (Z.shiftr (sn o) 40) 0x00FF) in
  let dst := store dst 14 (Z.land (Z.shiftr (sn o) 48) 0x00FF) in
  let dst := store dst 15 (Z.land (Z.shiftr (sn o) 56) 0x00FF) in
  let dst := store dst 16 (size o) in
  (FMLN_ISC_ID_RSP, dst).

Definition deserialize (src : buffer) : Z * t :=
  (FMLN_ISC_ID_RSP,
   {| vid := u16 (Z.lor (Z.shiftl (src 1) 8) (src 0));
      did := u16 (Z.lor (Z.shiftl (src 3) 8) (src 2));
      svid := u16 (Z.lor (Z.shiftl (src 5) 8) (src 4));
      ssid := u16 (Z.lor (Z.shiftl (src 7) 8) (src 6));
      sn := u64 (Z.lor (Z.lor (Z.lor (Z.lor (Z.lor (Z.lor (Z.lor
              (Z.shiftl (src 15) 56)
              (Z.shiftl (src 14) 48))
              (Z.shiftl (src 13) 40))
              (Z.shiftl (src 12) 32))
              (Z.shiftl (src 11) 24))
              (Z.shiftl (src 10) 16))
              (Z.shiftl (src 9) 8))
              (src 8));
      size := src 16 |}).
End fmapi_isc_id_rsp.

(** Response Message Limit, [struct fmapi_isc_msg_limit]. *)
Module fmapi_isc_msg_limit.
Record t : Type := mk {
  limit : Z  (* __u8 *)
}.

Definition zero : t := mk 0.

Definition wf (o : t) : bool := in_bits 8 (limit o).

Definition serialize (dst : buffer) (o : t) : Z * buffer :=
  let dst := store dst 0 (limit o) in
  (FMLN_ISC_MSG_LIMIT, dst).

Definition deserialize (src : buffer) : Z * t :=
  (FMLN_ISC_MSG_LIMIT, {| limit := src 0 |}).
End fmapi_isc_msg_limit.

(** Identify Switch Device, [struct fmapi_psc_id_rsp]. *)
Module fmapi_psc_id_rsp.
Record t : Type := mk {
  ingress_port : Z;       (* __u8 *)
  num_ports : Z;          (* __u8 *)
  num_vcss : Z;           (* __u8 *)
  active_ports : list Z;  (* __u8 [FM_MAX_PORTS/8] *)
  active_vcss : list Z;   (* __u8 [FM_MAX_VCS/8] *)
  num_vppbs : Z;          (* __u16 *)
  active_vppbs : Z;       (* __u16 *)
  num_decoders : Z        (* __u8 *)
}.

Definition zero : t := mk 0 0 0 (repeat 0 32) (repeat 0 32) 0 0 0.

Definition wf (o : t) : bool :=
  in_bits 8 (ingress_port o) && in_bits 8 (num_ports o) && in_bits 8 (num_vcss o)
  && has_len (active_ports o) (FM_MAX_PORTS / 8) && is_bytes (active_ports o)
  && has_len (active_vcss o) (FM_MAX_VCS / 8) && is_bytes (active_vcss o)
  && in_bits 16 (num_vppbs o) && in_bits 16 (active_vppbs o)
  && in_bits 8 (num_decoders o).

(* bytes 73..92 of the 93 returned are not written *)
Definition serialize (dst : buffer) (o : t) : Z * buffer :=
  let dst := store dst 0 (ingress_port o) in
  let dst := store dst 1 0 in
  let dst := store dst 2 (num_ports o) in
  let dst := store dst 3 (num_vcss o) in
  let dst := memcpy_to dst 4 (active_ports o) 32 in
  let dst := memcpy_to dst 36 (active_vcss o) 32 in
  let dst := store dst 68 (Z.land (num_vppbs o) 0x00FF) in
  let dst := store dst 69 (Z.land (Z.shiftr (num_vppbs o) 8) 0x00FF) in
  let dst := store dst 70 (Z.land (active_vppbs o) 0x00FF) in
  let dst := store dst 71 (Z.land (Z.shiftr (active_vppbs o) 8) 0x00FF) in
  let dst := store dst 72 (num_decoders o) in
  (FMLN_PSC_IDENTIFY_SWITCH, dst).

Definition deserialize (src : buffer) : Z * t :=
  (FMLN_PSC_IDENTIFY_SWITCH,
   {| ingress_port := src 0;
      num_ports := src 2;
      num_vcss := src 3;
      active_ports := memcpy_from src 4 32;
      active_vcss := memcpy_from src 36 32;
      num_vppbs := u16 (Z.lor (Z.shiftl (src 69) 8) (src 68));
      active_vppbs := u16 (Z.lor (Z.shiftl (src 71) 8) (src 70));
      num_decoders := src 72 |}).
End fmapi_psc_id_rsp.

(** Get Physical Port State request, [struct fmapi_psc_port_req]. *)
Module fmapi_psc_port_req.
Record t : Type := mk {
  num : Z;        (* __u8 *)
  ports : list Z  (* __u8 [FM_MAX_PORTS], [num] in use *)
}.

Definition zero : t := mk 0 [].

Definition wf (o : t) : bool :=
  in_bits 8 (num o) && (num o <=? FM_MAX_PORTS)
  && has_len (ports o) (num o) && is_bytes (ports o).

Definition serialize (dst : buffer) (o : t) : Z * buffer :=
  let dst := store dst 0 (num o) in
  let dst := memcpy_to dst 1 (ports o) (num o) in
  (FMLN_PSC_GET_PHY_PORT_REQ + num o, dst).

Definition deserialize (src : buffer) : Z * t :=
  let num := src 0 in
  let ports := memcpy_from src 1 num in
  (FMLN_PSC_GET_PHY_PORT_REQ + num, {| num := num; ports := ports |}).
End fmapi_psc_port_req.

(** Get Physical Port State port information block,
    [struct fmapi_psc_port_info]. *)
Module fmapi_psc_port_info.
Record t : Type := mk {
  ppid : Z;      (* __u8 *)
  state : Z;     (* __u8 *)
  dv : Z;        (* __u8 *)
  dt : Z;        (* __u8 *)
  cv : Z;        (* __u8 *)
  mlw : Z;       (* __u8 *)
  nlw : Z;       (* __u8 *)
  speeds : Z;    (* __u8 *)
  mls : Z;       (* __u8 *)
  cls : Z;       (* __u8 *)
  ltssm : Z;     (* __u8 *)
  lane : Z;      (* __u8 *)
  lane_rev : Z;  (* __u8, one bit on the wire *)
  perst : Z;     (* __u8, one bit on the wire *)
  prsnt : Z;     (* __u8, one bit on the wire *)
  pwrctrl : Z;   (* __u8, one bit on the wire *)
  num_ld : Z     (* __u8 *)
}.

Definition zero : t := mk 0 0 0 0 0 0 0 0 0 0 0 0 0 0 0 0 0.

Definition wf (o : t) : bool :=
  in_bits 8 (ppid o) && in_bits 8 (state o) && in_bits 8 (dv o)
  && in_bits 8 (dt o) && in_bits 8 (cv o) && in_bits 8 (mlw o)
  && in_bits 8 (nlw o) && in_bits 8 (speeds o) && in_bits 8 (mls o)
  && in_bits 8 (cls o) && in_bits 8 (ltssm o) && in_bits 8 (lane o)
  && in_bits 1 (lane_rev o) && in_bits 1 (perst o) && in_bits 1 (prsnt o)
  && in_bits 1 (pwrctrl o) && in_bits 8 (num_ld o).

(* case FMOB_PSC_PORT_INFO; dst[3] is not written *)
Definition serialize (dst : buffer) (o : t) : Z * buffer :=
  let dst := store dst 0 (ppid o) in
  let dst := store dst 1 (state o) in
  let dst := store dst 2 (dv o) in
  let dst := store dst 4 (dt o) in
  let dst := store dst 5 (cv o) in
  let dst := store dst 6 (mlw o) in
  let dst := store dst 7 (nlw o) in
  let dst := store dst 8 (speeds o) in
  let dst := store dst 9 (mls o) in
  let dst := store dst 10 (cls o) in
  let dst := store dst 11 (ltssm o) in
  let dst := store dst 12 (lane o) in
  let dst := store dst 13 0 in
  let dst := store dst 13 (Z.lor (dst 13)
               (Z.shiftl (Z.land (lane_rev o) 0x01) FMLF_LANE_REVERSAL_BIT)) in
  let dst := store dst 13 (Z.lor (dst 13)
               (Z.shiftl (Z.land (perst o) 0x01) FMLF_PERST_STATE_BIT)) in
  let dst := store dst 13 (Z.lor (dst 13)
               (Z.shiftl (Z.land (prsnt o) 0x01) FMLF_PRSNT_STATE_BIT)) in
  let dst := store dst 13 (Z.lor (dst 13)
               (Z.shiftl (Z.land (pwrctrl o) 0x01) FMLF_PWRCTL_STATE_BIT)) in
  let dst := store dst 14 0 in
  let dst := store dst 15 (num_ld o) in
  (FMLN_PSC_GET_PHY_PORT_INFO, dst).

Definition deserialize (src : buffer) : Z * t :=
  (FMLN_PSC_GET_PHY_PORT_INFO,
   {| ppid := src 0;
      state := src 1;
      dv := src 2;
      dt := src 4;
      cv := src 5;
      mlw := src 6;
      nlw := src 7;
      speeds := src 8;
      mls := src 9;
      cls := src 10;
      ltssm := src 11;
      lane := src 12;
      lane_rev := u8 (Z.land (Z.shiftr (src 13) FMLF_LANE_REVERSAL_BIT) 0x01);
      perst := u8 (Z.land (Z.shiftr (src 13) FMLF_PERST_STATE_BIT) 0x01);
      prsnt := u8 (Z.land (Z.shiftr (src 13) FMLF_PRSNT_STATE_BIT) 0x01);
      pwrctrl := u8 (Z.land (Z.shiftr (src 13) FMLF_PWRCTL_STATE_BIT) 0x01);
      num_ld := src 15 |}).
End fmapi_psc_port_info.

(** Get Physical Port State response, [struct fmapi_psc_port_rsp]. *)
Module fmapi_psc_port_rsp.
Record t : Type := mk {
  num : Z;                             (* __u8 *)
  list : list fmapi_psc_port_info.t    (* [FM_MAX_PORTS], [num] in use *)
}.

Definition zero : t := mk 0 [].

Definition wf (o : t) : bool :=
  in_bits 8 (num o) && (num o <=? FM_MAX_PORTS)
  && has_len (list o) (num o) && forallb fmapi_psc_port_info.wf (list o).

(* case FMOB_PSC_PORT_RSP; dst[1..3] are not written *)
Definition serialize (dst : buffer) (o : t) : Z * buffer :=
  let dst := store dst 0 (num o) in
  let rv := FMLN_PSC_GET_PHY_PORT_RESP in
  ser_each fmapi_psc_port_info.serialize fmapi_psc_port_info.zero
           (list o) (num o) (rv, dst).

Definition deserialize (src : buffer) : Z * t :=
  let num := src 0 in
  let rv := FMLN_PSC_GET_PHY_PORT_RESP in
  let '(rv, list) :=
    deser_each (fun _ => fmapi_psc_port_info.deserialize) src num rv in
  (rv, {| num := num; list := list |}).
End fmapi_psc_port_rsp.

(** Physical Port Control, [struct fmapi_psc_port_ctrl_req]. *)
Module fmapi_psc_port_ctrl_req.
Record t : Type := mk {
  ppid : Z;   (* __u8 *)
  opcode : Z  (* __u8 *)
}.

Definition zero : t := mk 0 0.

Definition wf (o : t) : bool := in_bits 8 (ppid o) && in_bits 8 (opcode o).

Definition serialize (dst : buffer) (o : t) : Z * buffer :=
  let dst := store dst 0 (ppid o) in
  let dst := store dst 1 (opcode o) in
  (FMLN_PSC_PHY_PORT_CTRL, dst).

Definition deserialize (src : buffer) : Z * t :=
  (FMLN_PSC_PHY_PORT_CTRL, {| ppid := src 0; opcode := src 1 |}).
End fmapi_psc_port_ctrl_req.

(** Send PPB CXL.io Configuration request, [struct fmapi_psc_cfg_req]. *)
Module fmapi_psc_cfg_req.
Record t : Type := mk {
  ppid : Z;      (* __u8 *)
  reg : Z;       (* __u32 : 8 *)
  ext : Z;       (* __u32 : 4 *)
  fdbe : Z;      (* __u32 : 4 *)
  type : Z;      (* __u32 : 1 *)
  data : list Z  (* __u8 [4] *)
}.

Definition zero : t := mk 0 0 0 0 0 (repeat 0 4).

Definition wf (o : t) : bool :=
  in_bits 8 (ppid o) && in_bits 8 (reg o) && in_bits 4 (ext o)
  && in_bits 4 (fdbe o) && in_bits 1 (type o)
  && has_len (data o) 4 && is_bytes (data o).

Definition serialize (dst : buffer) (o : t) : Z * buffer :=
  let dst := store dst 0 (ppid o) in
  let dst := store dst 1 (reg o) in
  let dst := store dst 2 (Z.lor (Z.land (Z.shiftl (fdbe o) 4) 0xF0)
                                (Z.land (ext o) 0x0F)) in
  let dst := store dst 3 (Z.land (Z.shiftl (type o) 7) 0x80) in
  let dst := store dst 4 (elem 0 (data o) 0) in
  let dst := store dst 5 (elem 0 (data o) 1) in
  let dst := store dst 6 (elem 0 (data o) 2) in
  let dst := store dst 7 (elem 0 (data o) 3) in
  (FMLN_PSC_PPB_IO_CFG_REQ, dst).

Definition deserialize (src : buffer) : Z * t :=
  (FMLN_PSC_PPB_IO_CFG_REQ,
   {| ppid := src 0;
      reg := wrap 8 (src 1);
      ext := wrap 4 (Z.land (src 2) 0x0F);
      fdbe := wrap 4 (Z.land (Z.shiftr (src 2) 4) 0x0F);
      type := wrap 1 (Z.land (Z.shiftr (src 3) 7) 0x01);
      data := [src 4; src 5; src 6; src 7] |}).
End fmapi_psc_cfg_req.

(** Send PPB CXL.io Configuration response, [struct fmapi_psc_cfg_rsp]. *)
Module fmapi_psc_cfg_rsp.
Record t : Type := mk {
  data : list Z  (* __u8 [4] *)
}.

Definition zero : t := mk (repeat 0 4).

Definition wf (o : t) : bool := has_len (data o) 4 && is_bytes (data o).

Definition serialize (dst : buffer) (o : t) : Z * buffer :=
  let dst := store dst 0 (elem 0 (data o) 0) in
  let dst := store dst 1 (elem 0 (data o) 1) in
  let dst := store dst 2 (elem 0 (data o) 2) in
  let dst := store dst 3 (elem 0 (data o) 3) in
  (FMLN_PSC_PPB_IO_CFG_RESP, dst).

Definition deserialize (src : buffer) : Z * t :=
  (FMLN_PSC_PPB_IO_CFG_RESP, {| data := [src 0; src 1; src 2; src 3] |}).
End fmapi_psc_cfg_rsp.

(** Get Virtual CXL Switch Info request, [struct fmapi_vsc_info_req]. *)
Module fmapi_vsc_info_req.
Record t : Type := mk {
  vppbid_start : Z;  (* __u8 *)
  vppbid_limit : Z;  (* __u8 *)
  num : Z;           (* __u8 *)
  vcss : list Z      (* __u8 [FM_MAX_VCS], [num] in use *)
}.

Definition zero : t := mk 0 0 0 [].

Definition wf (o : t) : bool :=
  in_bits 8 (vppbid_start o) && in_bits 8 (vppbid_limit o)
  && in_bits 8 (num o) && (num o <=? FM_MAX_VCS)
  && has_len (vcss o) (num o) && is_bytes (vcss o).

Definition serialize (dst : buffer) (o : t) : Z * buffer :=
  let dst := store dst 0 (vppbid_start o) in
  let dst := store dst 1 (vppbid_limit o) in
  let dst := store dst 2 (num o) in
  let dst := memcpy_to dst 3 (vcss o) (num o) in
  (FMLN_VSC_GET_INFO_REQ + num o, dst).

Definition deserialize (src : buffer) : Z * t :=
  let vppbid_start := src 0 in
  let vppbid_limit := src 1 in
  let num := src 2 in
  let vcss := memcpy_from src 3 num in
  (FMLN_VSC_GET_INFO_REQ + num,
   {| vppbid_start := vppbid_start; vppbid_limit := vppbid_limit;
      num := num; vcss := vcss |}).
End fmapi_vsc_info_req.

(** Virtual CXL Switch PPB status block, [struct fmapi_vsc_ppb_stat_blk]. *)
Module fmapi_vsc_ppb_stat_blk.
Record t : Type := mk {
  status : Z;  (* __u8 *)
  ppid : Z;    (* __u8 *)
  ldid : Z     (* __u8 *)
}.

Definition zero : t := mk 0 0 0.

Definition wf (o : t) : bool :=
  in_bits 8 (status o) && in_bits 8 (ppid o) && in_bits 8 (ldid o).

(* case FMOB_VSC_PPB_STAT_BLK; dst[3] is not written *)
Definition serialize (dst : buffer) (o : t) : Z * buffer :=
  let dst := store dst 0 (status o) in
  let dst := store dst 1 (ppid o) in
  let dst := store dst 2 (ldid o) in
  (FMLN_VSC_PPB_STATUS, dst).

Definition deserialize (src : buffer) : Z * t :=
  (FMLN_VSC_PPB_STATUS,
   {| status := src 0; ppid := src 1; ldid := src 2 |}).
End fmapi_vsc_ppb_stat_blk.

(** Virtual CXL Switch info block, [struct fmapi_vsc_info_blk]. *)
Module fmapi_vsc_info_blk.
Record t : Type := mk {
  vcsid : Z;  (* __u8 *)
  state : Z;  (* __u8 *)
  uspid : Z;  (* __u8 *)
  total : Z;  (* __u8 *)
  num : Z;    (* __u8 *)
  list : list fmapi_vsc_ppb_stat_blk.t  (* [FM_MAX_VPPBS], [num] in use *)
}.

Definition zero : t := mk 0 0 0 0 0 [].

Definition wf (o : t) : bool :=
  in_bits 8 (vcsid o) && in_bits 8 (state o) && in_bits 8 (uspid o)
  && in_bits 8 (total o) && in_bits 8 (num o) && (num o <=? FM_MAX_VPPBS)
  && has_len (list o) (num o) && forallb fmapi_vsc_ppb_stat_blk.wf (list o).

(* case FMOB_VSC_INFO_BLK; num is not on the wire *)
Definition serialize (dst : buffer) (o : t) : Z * buffer :=
  let dst := store dst 0 (vcsid o) in
  let dst := store dst 1 (state o) in
  let dst := store dst 2 (uspid o) in
  let dst := store dst 3 (total o) in
  let rv := FMLN_VSC_INFO in
  ser_each fmapi_vsc_ppb_stat_blk.serialize fmapi_vsc_ppb_stat_blk.zero
           (list o) (num o) (rv, dst).

(* case FMOB_VSC_INFO_BLK past the test of the request pointer, [r]
   being the request the parameter points to *)
Definition deserialize_with (r : fmapi_vsc_info_req.t) (src : buffer) : Z * t :=
  let vcsid := src 0 in
  let state := src 1 in
  let uspid := src 2 in
  let total := src 3 in
  let num := u8 (total - fmapi_vsc_info_req.vppbid_start r) in
  let num := if fmapi_vsc_info_req.vppbid_limit r <? num
             then fmapi_vsc_info_req.vppbid_limit r else num in
  let rv := FMLN_VSC_INFO in
  let '(rv, list) :=
    deser_each (fun _ => fmapi_vsc_ppb_stat_blk.deserialize) src num rv in
  (rv, {| vcsid := vcsid; state := state; uspid := uspid; total := total;
          num := num; list := list |}).

(* case FMOB_VSC_INFO_BLK: without a request nothing is read and [*dst]
   stays as it was *)
Definition deserialize (dst : t) (src : buffer)
                       (param : ptr fmapi_vsc_info_req.t) : Z * t :=
  match param with
  | None => (0, dst)
  | Some r => deserialize_with r src
  end.
End fmapi_vsc_info_blk.

(** Get Virtual CXL Switch Info response, [struct fmapi_vsc_info_rsp]. *)
Module fmapi_vsc_info_rsp.
Record t : Type := mk {
  num : Z;  (* __u8 *)
  list : list fmapi_vsc_info_blk.t  (* [FM_MAX_VCS_PER_RSP], [num] in use *)
}.

Definition zero : t := mk 0 [].

Definition wf (o : t) : bool :=
  in_bits 8 (num o) && (num o <=? FM_MAX_VCS_PER_RSP)
  && has_len (list o) (num o) && forallb fmapi_vsc_info_blk.wf (list o).

(* case FMOB_VSC_INFO_RSP; dst[1..3] are not written *)
Definition serialize (dst : buffer) (o : t) : Z * buffer :=
  let dst := store dst 0 (num o) in
  let rv := FMLN_VSC_GET_INFO_RESP in
  ser_each fmapi_vsc_info_blk.serialize fmapi_vsc_info_blk.zero
           (list o) (num o) (rv, dst).

(* case FMOB_VSC_INFO_RSP: entry i is decoded into list[i] of [*dst];
   the parameter is handed on unchecked *)
Definition deserialize (dst : t) (src : buffer)
                       (param : ptr fmapi_vsc_info_req.t) : Z * t :=
  let num := src 0 in
  let rv := FMLN_VSC_GET_INFO_RESP in
  let '(rv, list) :=
    deser_each (fun i b => fmapi_vsc_info_blk.deserialize
                             (elem fmapi_vsc_info_blk.zero (list dst) i) b param)
               src num rv in
  (rv, {| num := num; list := list |}).
End fmapi_vsc_info_rsp.

(** Bind vPPB, [struct fmapi_vsc_bind_req]. *)
Module fmapi_vsc_bind_req.
Record t : Type := mk {
  vcsid : Z;   (* __u8 *)
  vppbid : Z;  (* __u8 *)
  ppid : Z;    (* __u8 *)
  ldid : Z     (* __u16 *)
}.

Definition zero : t := mk 0 0 0 0.

Definition wf (o : t) : bool :=
  in_bits 8 (vcsid o) && in_bits 8 (vppbid o) && in_bits 8 (ppid o)
  && in_bits 16 (ldid o).

(* case FMOB_VSC_BIND_REQ; dst[3] is not written *)
Definition serialize (dst : buffer) (o : t) : Z * buffer :=
  let dst := store dst 0 (vcsid o) in
  let dst := store dst 1 (vppbid o) in
  let dst := store dst 2 (ppid o) in
  let dst := store dst 4 (Z.land (ldid o) 0x00FF) in
  let dst := store dst 5 (Z.land (Z.shiftr (ldid o) 8) 0x00FF) in
  (FMLN_VSC_BIND, dst).

Definition deserialize (src : buffer) : Z * t :=
  (FMLN_VSC_BIND,
   {| vcsid := src 0;
      vppbid := src 1;
      ppid := src 2;
      ldid := u16 (Z.lor (Z.shiftl (src 5) 8) (src 4)) |}).
End fmapi_vsc_bind_req.

(** Unbind vPPB, [struct fmapi_vsc_unbind_req]. *)
Module fmapi_vsc_unbind_req.
Record t : Type := mk {
  vcsid : Z;   (* __u8 *)
  vppbid : Z;  (* __u8 *)
  option : Z   (* __u8 : 4 *)
}.

Definition zero : t := mk 0 0 0.

Definition wf (o : t) : bool :=
  in_bits 8 (vcsid o) && in_bits 8 (vppbid o) && in_bits 4 (option o).

Definition serialize (dst : buffer) (o : t) : Z * buffer :=
  let dst := store dst 0 (vcsid o) in
  let dst := store dst 1 (vppbid o) in
  let dst := store dst 2 (option o) in
  (FMLN_VSC_UNBIND, dst).

Definition deserialize (src : buffer) : Z * t :=
  (FMLN_VSC_UNBIND,
   {| vcsid := src 0; vppbid := src 1; option := wrap 4 (src 2) |}).
End fmapi_vsc_unbind_req.

(** Generate AER Event, [struct fmapi_vsc_aer_req]. *)
Module fmapi_vsc_aer_req.
Record t : Type := mk {
  vcsid : Z;       (* __u8 *)
  vppbid : Z;      (* __u8 *)
  error_type : Z;  (* __u32 *)
  header : list Z  (* __u8 [FM_TLP_HEADER] *)
}.

Definition zero : t := mk 0 0 0 (repeat 0 32).

Definition wf (o : t) : bool :=
  in_bits 8 (vcsid o) && in_bits 8 (vppbid o) && in_bits 32 (error_type o)
  && has_len (header o) FM_TLP_HEADER && is_bytes (header o).

(* case FMOB_VSC_AER_REQ; dst[2] and dst[3] are not written *)
Definition serialize (dst : buffer) (o : t) : Z * buffer :=
  let dst := store dst 0 (vcsid o) in
  let dst := store dst 1 (vppbid o) in
  let dst := store dst 4 (Z.land (error_type o) 0x00FF) in
  let dst := store dst 5 (Z.land (Z.shiftr (error_type o) 8) 0x00FF) in
  let dst := store dst 6 (Z.land (Z.shiftr (error_type o) 16) 0x00FF) in
  let dst := store dst 7 (Z.land (Z.shiftr (error_type o) 24) 0x00FF) in
  let dst := memcpy_to dst 8 (header o) 32 in
  (FMLN_VSC_GEN_AER, dst).

Definition deserialize (src : buffer) : Z * t :=
  (FMLN_VSC_GEN_AER,
   {| vcsid := src 0;
      vppbid := src 1;
      error_type := u32 (Z.lor (Z.lor (Z.lor (Z.shiftl (src 7) 24)
                                             (Z.shiftl (src 6) 16))
                                      (Z.shiftl (src 5) 8))
                               (src 4));
      header := memcpy_from src 8 32 |}).
End fmapi_vsc_aer_req.

(** Tunnel Management Command request, [struct fmapi_mpc_tmc_req]. *)
Module fmapi_mpc_tmc_req.
Record t : Type := mk {
  ppid : Z;     (* __u8 *)
  len : Z;      (* __u16 *)
  type : Z;     (* __u8 *)
  msg : list Z  (* __u8 [FMLN_MPC_TUNNEL_PAYLOAD], [len] in use *)
}.

Definition zero : t := mk 0 0 0 [].

Definition wf (o : t) : bool :=
  in_bits 8 (ppid o) && in_bits 16 (len o) && (len o <=? FMLN_MPC_TUNNEL_PAYLOAD)
  && in_bits 8 (type o) && has_len (msg o) (len o) && is_bytes (msg o).

(* case FMOB_MPC_TMC_REQ; dst[1] is not written *)
Definition serialize (dst : buffer) (o : t) : Z * buffer :=
  let dst := store dst 0 (ppid o) in
  let dst := store dst 2 (Z.land (len o + 1) 0x00FF) in
  let dst := store dst 3 (Z.land (Z.shiftr (len o + 1) 8) 0x00FF) in
  let dst := store dst 4 (type o) in
  let dst := memcpy_to dst FMLN_MPC_TUNNEL_CMD_REQ (msg o) (len o) in
  (FMLN_MPC_TUNNEL_CMD_REQ + len o, dst).

Definition deserialize (src : buffer) : Z * t :=
  let ppid := src 0 in
  let len := u16 (Z.lor (Z.shiftl (src 3) 8) (src 2) - 1) in
  let type := src 4 in
  let msg := memcpy_from src FMLN_MPC_TUNNEL_CMD_REQ len in
  (FMLN_MPC_TUNNEL_CMD_REQ + len,
   {| ppid := ppid; len := len; type := type; msg := msg |}).
End fmapi_mpc_tmc_req.

(** Tunnel Management Command response, [struct fmapi_mpc_tmc_rsp]. *)
Module fmapi_mpc_tmc_rsp.
Record t : Type := mk {
  type : Z;     (* __u8 *)
  len : Z;      (* __u16 *)
  msg : list Z  (* __u8 [FMLN_MPC_TUNNEL_PAYLOAD], [len] in use *)
}.

Definition zero : t := mk 0 0 [].

Definition wf (o : t) : bool :=
  in_bits 8 (type o) && in_bits 16 (len o) && (len o <=? FMLN_MPC_TUNNEL_PAYLOAD)
  && has_len (msg o) (len o) && is_bytes (msg o).

(* case FMOB_MPC_TMC_RSP; dst[2] and dst[3] are not written *)
Definition serialize (dst : buffer) (o : t) : Z * buffer :=
  let dst := store dst 0 (Z.land (len o + 1) 0x00FF) in
  let dst := store dst 1 (Z.land (Z.shiftr (len o + 1) 8) 0x00FF) in
  let dst := store dst 4 (type o) in
  let dst := memcpy_to dst FMLN_MPC_TUNNEL_CMD_REQ (msg o) (len o) in
  (FMLN_MPC_TUNNEL_CMD_RESP + len o, dst).

Definition deserialize (src : buffer) : Z * t :=
  let len := u16 (Z.lor (Z.shiftl (src 1) 8) (src 0) - 1) in
  let type := src 4 in
  let msg := memcpy_from src FMLN_MPC_TUNNEL_CMD_REQ len in
  (FMLN_MPC_TUNNEL_CMD_RESP + len,
   {| type := type; len := len; msg := msg |}).
End fmapi_mpc_tmc_rsp.

(** Send LD CXL.io Configuration request, [struct fmapi_mpc_cfg_req]. *)
Module fmapi_mpc_cfg_req.
Record t : Type := mk {
  ppid : Z;      (* __u8 *)
  reg : Z;       (* __u8 *)
  ext : Z;       (* __u8 : 4 *)
  fdbe : Z;      (* __u8 : 4 *)
  type : Z;      (* __u8 : 1 *)
  ldid : Z;      (* __u16 *)
  data : list Z  (* __u8 [4] *)
}.

Definition zero : t := mk 0 0 0 0 0 0 (repeat 0 4).

Definition wf (o : t) : bool :=
  in_bits 8 (ppid o) && in_bits 8 (reg o) && in_bits 4 (ext o)
  && in_bits 4 (fdbe o) && in_bits 1 (type o) && in_bits 16 (ldid o)
  && has_len (data o) 4 && is_bytes (data o).

(* case FMOB_MPC_CFG_REQ; dst[6] and dst[7] are not written *)
Definition serialize (dst : buffer) (o : t) : Z * buffer :=
  let dst := store dst 0 (ppid o) in
  let dst := store dst 1 (reg o) in
  let dst := store dst 2 (Z.lor (Z.land (Z.shiftl (fdbe o) 4) 0xF0)
                                (Z.land (ext o) 0x0F)) in
  let dst := store dst 3 (Z.land (Z.shiftl (type o) 7) 0x80) in
  let dst := store dst 4 (Z.land (ldid o) 0x00FF) in
  let dst := store dst 5 (Z.land (Z.shiftr (ldid o) 8) 0x00FF) in
  let dst := store dst 8 (elem 0 (data o) 0) in
  let dst := store dst 9 (elem 0 (data o) 1) in
  let dst := store dst 10 (elem 0 (data o) 2) in
  let dst := store dst 11 (elem 0 (data o) 3) in
  (FMLN_MPC_LD_IO_CFG_REQ, dst).

Definition deserialize (src : buffer) : Z * t :=
  (FMLN_MPC_LD_IO_CFG_REQ,
   {| ppid := src 0;
      reg := src 1;
      ext := wrap 4 (Z.land (src 2) 0x0F);
      fdbe := wrap 4 (Z.land (Z.shiftr (src 2) 4) 0x0F);
      type := wrap 1 (Z.land (Z.shiftr (src 3) 7) 0x01);
      ldid := u16 (Z.lor (Z.shiftl (src 5) 8) (src 4));
      data := [src 8; src 9; src 10; src 11] |}).
End fmapi_mpc_cfg_req.

(** Send LD CXL.io Configuration response, [struct fmapi_mpc_cfg_rsp]. *)
Module fmapi_mpc_cfg_rsp.
Record t : Type := mk {
  data : list Z  (* __u8 [4] *)
}.

Definition zero : t := mk (repeat 0 4).

Definition wf (o : t) : bool := has_len (data o) 4 && is_bytes (data o).

Definition serialize (dst : buffer) (o : t) : Z * buffer :=
  let dst := store dst 0 (elem 0 (data o) 0) in
  let dst := store dst 1 (elem 0 (data o) 1) in
  let dst := store dst 2 (elem 0 (data o) 2) in
  let dst := store dst 3 (elem 0 (data o) 3) in
  (FMLN_MPC_LD_IO_CFG_RESP, dst).

Definition deserialize (src : buffer) : Z * t :=
  (FMLN_MPC_LD_IO_CFG_RESP, {| data := [src 0; src 1; src 2; src 3] |}).
End fmapi_mpc_cfg_rsp.

(** Send LD CXL.io Memory request, [struct fmapi_mpc_mem_req]. *)
Module fmapi_mpc_mem_req.
Record t : Type := mk {
  ppid : Z;      (* __u8 *)
  fdbe : Z;      (* __u32 : 4 *)
  ldbe : Z;      (* __u32 : 4 *)
  type : Z;      (* __u32 : 1 *)
  ldid : Z;      (* __u16 *)
  len : Z;       (* __u16 *)
  offset : Z;    (* __u64 *)
  data : list Z  (* __u8 [FM_LD_MEM_REQ_LEN], [len] in use *)
}.

Definition zero : t := mk 0 0 0 0 0 0 0 [].

Definition wf (o : t) : bool :=
  in_bits 8 (ppid o) && in_bits 4 (fdbe o) && in_bits 4 (ldbe o)
  && in_bits 1 (type o) && in_bits 16 (ldid o)
  && in_bits 16 (len o) && (len o <=? FM_LD_MEM_REQ_LEN)
  && in_bits 64 (offset o) && has_len (data o) (len o) && is_bytes (data o).

(* case FMOB_MPC_MEM_REQ; dst[1] is not written *)
Definition serialize (dst : buffer) (o : t) : Z * buffer :=
  let dst := store dst 0 (ppid o) in
  let dst := store dst 2 (Z.land (Z.shiftl (fdbe o) 4) 0x00F0) in
  let dst := store dst 3 (Z.lor (Z.land (Z.shiftl (type o) 7) 0x0080)
                                (Z.land (ldbe o) 0x000F)) in
  let dst := store dst 4 (Z.land (ldid o) 0x00FF) in
  let dst := store dst 5 (Z.land (Z.shiftr (ldid o) 8) 0x00FF) in
  let dst := store dst 6 (Z.land (len o) 0x00FF) in
  let dst := store dst 7 (Z.land (Z.shiftr (len o) 8) 0x00FF) in
  let dst := store dst 8 (Z.land (offset o) 0x00FF) in
  let dst := store dst 9 (Z.land (Z.shiftr (offset o) 8) 0x00FF) in
  let dst := store dst 10 (Z.land (Z.shiftr (offset o) 16) 0x00FF) in
  let dst := store dst 11 (Z.land (Z.shiftr (offset o) 24) 0x00FF) in
  let dst := store dst 12 (Z.land (Z.shiftr (offset o) 32) 0x00FF) in
  let dst := store dst 13 (Z.land (Z.shiftr (offset o) 40) 0x00FF) in
  let dst := store dst 14 (Z.land (Z.shiftr (offset o) 48) 0x00FF) in
  let dst := store dst 15 (Z.land (Z.shiftr (offset o) 56) 0x00FF) in
  let dst := memcpy_to dst FMLN_MPC_LD_MEM_REQ (data o) (len o) in
  (FMLN_MPC_LD_MEM_REQ + len o, dst).

Definition deserialize (src : buffer) : Z * t :=
  let ppid := src 0 in
  let fdbe := wrap 4 (Z.land (Z.shiftr (src 2) 4) 0x000F) in
  let ldbe := wrap 4 (Z.land (src 3) 0x000F) in
  let type := wrap 1 (Z.land (Z.shiftr (src 3) 7) 0x0001) in
  let ldid := u16 (Z.lor (Z.shiftl (src 5) 8) (src 4)) in
  let len := u16 (Z.lor (Z.shiftl (src 7) 8) (src 6)) in
  let offset := u64 (Z.lor (Z.lor (Z.lor (Z.lor (Z.lor (Z.lor (Z.lor
                  (Z.shiftl (src 15) 56)
                  (Z.shiftl (src 14) 48))
                  (Z.shiftl (src 13) 40))
                  (Z.shiftl (src 12) 32))
                  (Z.shiftl (src 11) 24))
                  (Z.shiftl (src 10) 16))
                  (Z.shiftl (src 9) 8))
                  (src 8)) in
  let data := memcpy_from src FMLN_MPC_LD_MEM_REQ len in
  (FMLN_MPC_LD_MEM_REQ + len,
   {| ppid := ppid; fdbe := fdbe; ldbe := ldbe; type := type; ldid := ldid;
      len := len; offset := offset; data := data |}).
End fmapi_mpc_mem_req.

(** Send LD CXL.io Memory response, [struct fmapi_mpc_mem_rsp]. *)
Module fmapi_mpc_mem_rsp.
Record t : Type := mk {
  len : Z;       (* __u16 *)
  data : list Z  (* __u8 [FM_LD_MEM_REQ_LEN], [len] in use *)
}.

Definition zero : t := mk 0 [].

Definition wf (o : t) : bool :=
  in_bits 16 (len o) && (len o <=? FM_LD_MEM_REQ_LEN)
  && has_len (data o) (len o) && is_bytes (data o).

(* case FMOB_MPC_MEM_RSP; dst[2] and dst[3] are not written *)
Definition serialize (dst : buffer) (o : t) : Z * buffer :=
  let dst := store dst 0 (Z.land (len o) 0x00FF) in
  let dst := store dst 1 (Z.land (Z.shiftr (len o) 8) 0x00FF) in
  let dst := memcpy_to dst FMLN_MPC_LD_MEM_RESP (data o) (len o) in
  (FMLN_MPC_LD_MEM_RESP + len o, dst).

Definition deserialize (src : buffer) : Z * t :=
  let len := u16 (Z.lor (Z.shiftl (src 1) 8) (src 0)) in
  let data := memcpy_from src FMLN_MPC_LD_MEM_RESP len in
  (FMLN_MPC_LD_MEM_RESP + len, {| len := len; data := data |}).
End fmapi_mpc_mem_rsp.

(** Get LD Info, [struct fmapi_mcc_info_rsp]. *)
Module fmapi_mcc_info_rsp.
Record t : Type := mk {
  size : Z;  (* __u64 *)
  num : Z;   (* __u16 *)
  epc : Z;   (* __u8, one bit on the wire *)
  ttr : Z    (* __u8, one bit on the wire *)
}.

Definition zero : t := mk 0 0 0 0.

Definition wf (o : t) : bool :=
  in_bits 64 (size o) && in_bits 16 (num o) && in_bits 1 (epc o)
  && in_bits 1 (ttr o).

Definition serialize (dst : buffer) (o : t) : Z * buffer :=
  let dst := store dst 0 (Z.land (size o) 0x00FF) in
  let dst := store dst 1 (Z.land (Z.shiftr (size o) 8) 0x00FF) in
  let dst := store dst 2 (Z.land (Z.shiftr (size o) 16) 0x00FF) in
  let dst := store dst 3 (Z.land (Z.shiftr (size o) 24) 0x00FF) in
  let dst := store dst 4 (Z.land (Z.shiftr (size o) 32) 0x00FF) in
  let dst := store dst 5 (Z.land (Z.shiftr (size o) 40) 0x00FF) in
  let dst := store dst 6 (Z.land (Z.shiftr (size o) 48) 0x00FF) in
  let dst := store dst 7 (Z.land (Z.shiftr (size o) 56) 0x00FF) in
  let dst := store dst 8 (Z.land (num o) 0x00FF) in
  let dst := store dst 9 (Z.land (Z.shiftr (num o) 8) 0x00FF) in
  let dst := store dst 10 (Z.shiftl (Z.land (epc o) 0x01)
                                    FMQT_EGRESS_PORT_CONGESTION_BIT) in
  let dst := store dst 10 (Z.lor (dst 10)
               (Z.shiftl (Z.land (ttr o) 0x01)
                         FMQT_TEMP_THROUGHPUT_REDUCTION_BIT)) in
  (FMLN_MCC_GET_LD_INFO, dst).

Definition deserialize (src : buffer) : Z * t :=
  (FMLN_MCC_GET_LD_INFO,
   {| size := u64 (Z.lor (Z.lor (Z.lor (Z.lor (Z.lor (Z.lor (Z.lor
                (Z.shiftl (src 7) 56)
                (Z.shiftl (src 6) 48))
                (Z.shiftl (src 5) 40))
                (Z.shiftl (src 4) 32))
                (Z.shiftl (src 3) 24))
                (Z.shiftl (src 2) 16))
                (Z.shiftl (src 1) 8))
                (src 0));
      num := u16 (Z.lor (Z.shiftl (src 9) 8) (src 8));
      epc := u8 (Z.land (Z.shiftr (src 10) FMQT_EGRESS_PORT_CONGESTION_BIT) 0x01);
      ttr := u8 (Z.land (Z.shiftr (src 10) FMQT_TEMP_THROUGHPUT_REDUCTION_BIT) 0x01)
   |}).
End fmapi_mcc_info_rsp.

(** LD allocation list entry, [struct fmapi_mcc_alloc_blk]. *)
Module fmapi_mcc_alloc_blk.
Record t : Type := mk {
  rng1 : Z;  (* __u64 *)
  rng2 : Z   (* __u64 *)
}.

Definition zero : t := mk 0 0.

Definition wf (o : t) : bool := in_bits 64 (rng1 o) && in_bits 64 (rng2 o).

Definition serialize (dst : buffer) (o : t) : Z * buffer :=
  let dst := store dst 0 (Z.land (rng1 o) 0x00FF) in
  let dst := store dst 1 (Z.land (Z.shiftr (rng1 o) 8) 0x00FF) in
  let dst := store dst 2 (Z.land (Z.shiftr (rng1 o) 16) 0x00FF) in
  let dst := store dst 3 (Z.land (Z.shiftr (rng1 o) 24) 0x00FF) in
  let dst := store dst 4 (Z.land (Z.shiftr (rng1 o) 32) 0x00FF) in
  let dst := store dst 5 (Z.land (Z.shiftr (rng1 o) 40) 0x00FF) in
  let dst := store dst 6 (Z.land (Z.shiftr (rng1 o) 48) 0x00FF) in
  let dst := store dst 7 (Z.land (Z.shiftr (rng1 o) 56) 0x00FF) in
  let dst := store dst 8 (Z.land (rng2 o) 0x00FF) in
  let dst := store dst 9 (Z.land (Z.shiftr (rng2 o) 8) 0x00FF) in
  let dst := store dst 10 (Z.land (Z.shiftr (rng2 o) 16) 0x00FF) in
  let dst := store dst 11 (Z.land (Z.shiftr (rng2 o) 24) 0x00FF) in
  let dst := store dst 12 (Z.land (Z.shiftr (rng2 o) 32) 0x00FF) in
  let dst := store dst 13 (Z.land (Z.shiftr (rng2 o) 40) 0x00FF) in
  let dst := store dst 14 (Z.land (Z.shiftr (rng2 o) 48) 0x00FF) in
  let dst := store dst 15 (Z.land (Z.shiftr (rng2 o) 56) 0x00FF) in
  (FMLN_MCC_LD_ALLOC_ENTRY, dst).

Definition deserialize (src : buffer) : Z * t :=
  (FMLN_MCC_LD_ALLOC_ENTRY,
   {| rng1 := u64 (Z.lor (Z.lor (Z.lor (Z.lor (Z.lor (Z.lor (Z.lor
                (Z.shiftl (src 7) 56)
                (Z.shiftl (src 6) 48))
                (Z.shiftl (src 5) 40))
                (Z.shiftl (src 4) 32))
                (Z.shiftl (src 3) 24))
                (Z.shiftl (src 2) 16))
                (Z.shiftl (src 1) 8))
                (src 0));
      rng2 := u64 (Z.lor (Z.lor (Z.lor (Z.lor (Z.lor (Z.lor (Z.lor
                (Z.shiftl (src 15) 56)
                (Z.shiftl (src 14) 48))
                (Z.shiftl (src 13) 40))
                (Z.shiftl (src 12) 32))
                (Z.shiftl (src 11) 24))
                (Z.shiftl (src 10) 16))
                (Z.shiftl (src 9) 8))
                (src 8)) |}).
End fmapi_mcc_alloc_blk.

(** Get LD Allocations request, [struct fmapi_mcc_alloc_get_req]. *)
Module fmapi_mcc_alloc_get_req.
Record t : Type := mk {
  start : Z;  (* __u8 *)
  limit : Z   (* __u8 *)
}.

Definition zero : t := mk 0 0.

Definition wf (o : t) : bool := in_bits 8 (start o) && in_bits 8 (limit o).

Definition serialize (dst : buffer) (o : t) : Z * buffer :=
  let dst := store dst 0 (start o) in
  let dst := store dst 1 (limit o) in
  (FMLN_MCC_GET_LD_ALLOC_REQ, dst).

Definition deserialize (src : buffer) : Z * t :=
  (FMLN_MCC_GET_LD_ALLOC_REQ, {| start := src 0; limit := src 1 |}).
End fmapi_mcc_alloc_get_req.

(** Get LD Allocations response, [struct fmapi_mcc_alloc_get_rsp]. *)
Module fmapi_mcc_alloc_get_rsp.
Record t : Type := mk {
  total : Z;        (* __u8 *)
  granularity : Z;  (* __u8 *)
  start : Z;        (* __u8 *)
  num : Z;          (* __u8 *)
  list : list fmapi_mcc_alloc_blk.t  (* [FM_MAX_NUM_LD], [num] in use *)
}.

Definition zero : t := mk 0 0 0 0 [].

Definition wf (o : t) : bool :=
  in_bits 8 (total o) && in_bits 8 (granularity o) && in_bits 8 (start o)
  && in_bits 8 (num o) && (num o <=? FM_MAX_NUM_LD)
  && has_len (list o) (num o) && forallb fmapi_mcc_alloc_blk.wf (list o).

Definition serialize (dst : buffer) (o : t) : Z * buffer :=
  let dst := store dst 0 (total o) in
  let dst := store dst 1 (granularity o) in
  let dst := store dst 2 (start o) in
  let dst := store dst 3 (num o) in
  let rv := FMLN_MCC_GET_LD_ALLOC_RSP in
  ser_each fmapi_mcc_alloc_blk.serialize fmapi_mcc_alloc_blk.zero
           (list o) (num o) (rv, dst).

Definition deserialize (src : buffer) : Z * t :=
  let total := src 0 in
  let granularity := src 1 in
  let start := src 2 in
  let num := src 3 in
  let rv := FMLN_MCC_GET_LD_ALLOC_RSP in
  let '(rv, list) :=
    deser_each (fun _ => fmapi_mcc_alloc_blk.deserialize) src num rv in
  (rv, {| total := total; granularity := granularity; start := start;
          num := num; list := list |}).
End fmapi_mcc_alloc_get_rsp.

(** Set LD Allocations request, [struct fmapi_mcc_alloc_set_req]. *)
Module fmapi_mcc_alloc_set_req.
Record t : Type := mk {
  num : Z;    (* __u8 *)
  start : Z;  (* __u8 *)
  list : list fmapi_mcc_alloc_blk.t  (* [FM_MAX_NUM_LD], [num] in use *)
}.

Definition zero : t := mk 0 0 [].

Definition wf (o : t) : bool :=
  in_bits 8 (num o) && (num o <=? FM_MAX_NUM_LD) && in_bits 8 (start o)
  && has_len (list o) (num o) && forallb fmapi_mcc_alloc_blk.wf (list o).

(* case FMOB_MCC_ALLOC_SET_REQ; dst[2] and dst[3] are not written *)
Definition serialize (dst : buffer) (o : t) : Z * buffer :=
  let dst := store dst 0 (num o) in
  let dst := store dst 1 (start o) in
  let rv := FMLN_MCC_SET_LD_ALLOC_REQ in
  ser_each fmapi_mcc_alloc_blk.serialize fmapi_mcc_alloc_blk.zero
           (list o) (num o) (rv, dst).

Definition deserialize (src : buffer) : Z * t :=
  let num := src 0 in
  let start := src 1 in
  let rv := FMLN_MCC_SET_LD_ALLOC_REQ in
  let '(rv, list) :=
    deser_each (fun _ => fmapi_mcc_alloc_blk.deserialize) src num rv in
  (rv, {| num := num; start := start; list := list |}).
End fmapi_mcc_alloc_set_req.

(** Set LD Allocations response, [struct fmapi_mcc_alloc_set_rsp]. *)
Module fmapi_mcc_alloc_set_rsp.
Record t : Type := mk {
  num : Z;    (* __u8 *)
  start : Z;  (* __u8 *)
  list : list fmapi_mcc_alloc_blk.t  (* [FM_MAX_NUM_LD], [num] in use *)
}.

Definition zero : t := mk 0 0 [].

Definition wf (o : t) : bool :=
  in_bits 8 (num o) && (num o <=? FM_MAX_NUM_LD) && in_bits 8 (start o)
  && has_len (list o) (num o) && forallb fmapi_mcc_alloc_blk.wf (list o).

(* case FMOB_MCC_ALLOC_SET_RSP; dst[2] and dst[3] are not written *)
Definition serialize (dst : buffer) (o : t) : Z * buffer :=
  let dst := store dst 0 (num o) in
  let dst := store dst 1 (start o) in
  let rv := FMLN_MCC_SET_LD_ALLOC_RSP in
  ser_each fmapi_mcc_alloc_blk.serialize fmapi_mcc_alloc_blk.zero
           (list o) (num o) (rv, dst).

Definition deserialize (src : buffer) : Z * t :=
  let num := src 0 in
  let start := src 1 in
  let rv := FMLN_MCC_SET_LD_ALLOC_RSP in
  let '(rv, list) :=
    deser_each (fun _ => fmapi_mcc_alloc_blk.deserialize) src num rv in
  (rv, {| num := num; start := start; list := list |}).
End fmapi_mcc_alloc_set_rsp.

(** QoS Control payload, [struct fmapi_mcc_qos_ctrl]. *)
Module fmapi_mcc_qos_ctrl.
Record t : Type := mk {
  epc_en : Z;           (* __u8, one bit on the wire *)
  ttr_en : Z;           (* __u8, one bit on the wire *)
  egress_mod_pcnt : Z;  (* __u8 *)
  egress_sev_pcnt : Z;  (* __u8 *)
  sample_interval : Z;  (* __u8 *)
  rcb : Z;              (* __u16 *)
  comp_interval : Z     (* __u8 *)
}.

Definition zero : t := mk 0 0 0 0 0 0 0.

Definition wf (o : t) : bool :=
  in_bits 1 (epc_en o) && in_bits 1 (ttr_en o) && in_bits 8 (egress_mod_pcnt o)
  && in_bits 8 (egress_sev_pcnt o) && in_bits 8 (sample_interval o)
  && in_bits 16 (rcb o) && in_bits 8 (comp_interval o).

Definition serialize (dst : buffer) (o : t) : Z * buffer :=
  let dst := store dst 0 0 in
  let dst := store dst 0 (Z.lor (dst 0)
               (Z.shiftl (epc_en o) FMQT_EGRESS_PORT_CONGESTION_BIT)) in
  let dst := store dst 0 (Z.lor (dst 0)
               (Z.shiftl (ttr_en o) FMQT_TEMP_THROUGHPUT_REDUCTION_BIT)) in
  let dst := store dst 1 (egress_mod_pcnt o) in
  let dst := store dst 2 (egress_sev_pcnt o) in
  let dst := store dst 3 (sample_interval o) in
  let dst := store dst 4 (Z.land (rcb o) 0x00FF) in
  let dst := store dst 5 (Z.land (Z.shiftr (rcb o) 8) 0x00FF) in
  let dst := store dst 6 (comp_interval o) in
  (FMLN_MCC_QOS_CTRL, dst).

Definition deserialize (src : buffer) : Z * t :=
  (FMLN_MCC_QOS_CTRL,
   {| epc_en := u8 (Z.land (Z.shiftr (src 0) FMQT_EGRESS_PORT_CONGESTION_BIT) 0x01);
      ttr_en := u8 (Z.land (Z.shiftr (src 0) FMQT_TEMP_THROUGHPUT_REDUCTION_BIT) 0x01);
      egress_mod_pcnt := src 1;
      egress_sev_pcnt := src 2;
      sample_interval := src 3;
      rcb := u16 (Z.lor (Z.shiftl (src 5) 8) (src 4));
      comp_interval := src 6 |}).
End fmapi_mcc_qos_ctrl.

(** Get QoS Status, [struct fmapi_mcc_qos_stat_rsp]. *)
Module fmapi_mcc_qos_stat_rsp.
Record t : Type := mk {
  bp_avg_pcnt : Z  (* __u8 *)
}.

Definition zero : t := mk 0.

Definition wf (o : t) : bool := in_bits 8 (bp_avg_pcnt o).

Definition serialize (dst : buffer) (o : t) : Z * buffer :=
  let dst := store dst 0 (bp_avg_pcnt o) in
  (FMLN_MCC_QOS_STATUS, dst).

Definition deserialize (src : buffer) : Z * t :=
  (FMLN_MCC_QOS_STATUS, {| bp_avg_pcnt := src 0 |}).
End fmapi_mcc_qos_stat_rsp.

(** Get QoS Allocated BW request, [struct fmapi_mcc_qos_bw_alloc_get_req]. *)
Module fmapi_mcc_qos_bw_alloc_get_req.
Record t : Type := mk {
  num : Z;   (* __u8 *)
  start : Z  (* __u8 *)
}.

Definition zero : t := mk 0 0.

Definition wf (o : t) : bool := in_bits 8 (num o) && in_bits 8 (start o).

Definition serialize (dst : buffer) (o : t) : Z * buffer :=
  let dst := store dst 0 (num o) in
  let dst := store dst 1 (start o) in
  (FMLN_MCC_GET_QOS_BW_REQ, dst).

Definition deserialize (src : buffer) : Z * t :=
  (FMLN_MCC_GET_QOS_BW_REQ, {| num := src 0; start := src 1 |}).
End fmapi_mcc_qos_bw_alloc_get_req.

(** QoS Allocated BW payload, [struct fmapi_mcc_qos_bw_alloc]. *)
Module fmapi_mcc_qos_bw_alloc.
Record t : Type := mk {
  num : Z;       (* __u8 *)
  start : Z;     (* __u8 *)
  list : list Z  (* __u8 [FM_MAX_NUM_LD], [num] in use *)
}.

Definition zero : t := mk 0 0 [].

Definition wf (o : t) : bool :=
  in_bits 8 (num o) && (num o <=? FM_MAX_NUM_LD) && in_bits 8 (start o)
  && has_len (list o) (num o) && is_bytes (list o).

Definition serialize (dst : buffer) (o : t) : Z * buffer :=
  let dst := store dst 0 (num o) in
  let dst := store dst 1 (start o) in
  let rv := FMLN_MCC_QOS_BW_ALLOC in
  let dst := for_upto (num o)
               (fun i dst => store dst (rv + i) (elem 0 (list o) i)) dst in
  (rv + num o, dst).

Definition deserialize (src : buffer) : Z * t :=
  let num := src 0 in
  let start := src 1 in
  let rv := FMLN_MCC_QOS_BW_ALLOC in
  let list := for_upto num (fun i acc => acc ++ [src (rv + i)]) [] in
  (rv + num, {| num := num; start := start; list := list |}).
End fmapi_mcc_qos_bw_alloc.

(** Get QoS BW Limit request, [struct fmapi_mcc_qos_bw_limit_get_req]. *)
Module fmapi_mcc_qos_bw_limit_get_req.
Record t : Type := mk {
  num : Z;   (* __u8 *)
  start : Z  (* __u8 *)
}.

Definition zero : t := mk 0 0.

Definition wf (o : t) : bool := in_bits 8 (num o) && in_bits 8 (start o).

Definition serialize (dst : buffer) (o : t) : Z * buffer :=
  let dst := store dst 0 (num o) in
  let dst := store dst 1 (start o) in
  (FMLN_MCC_GET_QOS_BW_LIMIT_REQ, dst).

Definition deserialize (src : buffer) : Z * t :=
  (FMLN_MCC_GET_QOS_BW_LIMIT_REQ, {| num := src 0; start := src 1 |}).
End fmapi_mcc_qos_bw_limit_get_req.

(** QoS BW Limit payload, [struct fmapi_mcc_qos_bw_limit]. *)
Module fmapi_mcc_qos_bw_limit.
Record t : Type := mk {
  num : Z;       (* __u8 *)
  start : Z;     (* __u8 *)
  list : list Z  (* __u8 [FM_MAX_NUM_LD], [num] in use *)
}.

Definition zero : t := mk 0 0 [].

Definition wf (o : t) : bool :=
  in_bits 8 (num o) && (num o <=? FM_MAX_NUM_LD) && in_bits 8 (start o)
  && has_len (list o) (num o) && is_bytes (list o).

Definition serialize (dst : buffer) (o : t) : Z * buffer :=
  let dst := store dst 0 (num o) in
  let dst := store dst 1 (start o) in
  let rv := FMLN_MCC_QOS_BW_LIMIT in
  let dst := for_upto (num o)
               (fun i dst => store dst (rv + i) (elem 0 (list o) i)) dst in
  (rv + num o, dst).

Definition deserialize (src : buffer) : Z * t :=
  let num := src 0 in
  let start := src 1 in
  let rv := FMLN_MCC_QOS_BW_LIMIT in
  let list := for_upto num (fun i acc => acc ++ [src (rv + i)]) [] in
  (rv + num, {| num := num; start := start; list := list |}).
End fmapi_mcc_qos_bw_limit.

(** ** Objects behind a [void *]

    [fmapi_serialize] and [fmapi_deserialize] receive the object as a
    [void *] and cast it in the case that [type] selects.  The pointee is
    one of the structs above; [kind_of] is the [enum _FMOB] value under
    which the cast of the case reads that struct. *)
Inductive object : Type :=
| O_NULL
| O_HDR (o : fmapi_hdr.t)
| O_PSC_ID_RSP (o : fmapi_psc_id_rsp.t)
| O_PSC_PORT_REQ (o : fmapi_psc_port_req.t)
| O_PSC_PORT_INFO (o : fmapi_psc_port_info.t)
| O_PSC_PORT_RSP (o : fmapi_psc_port_rsp.t)
| O_PSC_PORT_CTRL_REQ (o : fmapi_psc_port_ctrl_req.t)
| O_PSC_CFG_REQ (o : fmapi_psc_cfg_req.t)
| O_PSC_CFG_RSP (o : fmapi_psc_cfg_rsp.t)
| O_VSC_INFO_REQ (o : fmapi_vsc_info_req.t)
| O_VSC_PPB_STAT_BLK (o : fmapi_vsc_ppb_stat_blk.t)
| O_VSC_INFO_BLK (o : fmapi_vsc_info_blk.t)
| O_VSC_INFO_RSP (o : fmapi_vsc_info_rsp.t)
| O_VSC_BIND_REQ (o : fmapi_vsc_bind_req.t)
| O_VSC_UNBIND_REQ (o : fmapi_vsc_unbind_req.t)
| O_VSC_AER_REQ (o : fmapi_vsc_aer_req.t)
| O_MPC_TMC_REQ (o : fmapi_mpc_tmc_req.t)
| O_MPC_TMC_RSP (o : fmapi_mpc_tmc_rsp.t)
| O_MPC_CFG_REQ (o : fmapi_mpc_cfg_req.t)
| O_MPC_CFG_RSP (o : fmapi_mpc_cfg_rsp.t)
| O_MPC_MEM_REQ (o : fmapi_mpc_mem_req.t)
| O_MPC_MEM_RSP (o : fmapi_mpc_mem_rsp.t)
| O_MCC_INFO_RSP (o : fmapi_mcc_info_rsp.t)
| O_MCC_ALLOC_BLK (o : fmapi_mcc_alloc_blk.t)
| O_MCC_ALLOC_GET_REQ (o : fmapi_mcc_alloc_get_req.t)
| O_MCC_ALLOC_GET_RSP (o : fmapi_mcc_alloc_get_rsp.t)
| O_MCC_ALLOC_SET_REQ (o : fmapi_mcc_alloc_set_req.t)
| O_MCC_ALLOC_SET_RSP (o : fmapi_mcc_alloc_set_rsp.t)
| O_MCC_QOS_CTRL (o : fmapi_mcc_qos_ctrl.t)
| O_MCC_QOS_STAT_RSP (o : fmapi_mcc_qos_stat_rsp.t)
| O_MCC_QOS_BW_GET_REQ (o : fmapi_mcc_qos_bw_alloc_get_req.t)
| O_MCC_QOS_BW_ALLOC (o : fmapi_mcc_qos_bw_alloc.t)
| O_MCC_QOS_BW_LIMIT_GET_REQ (o : fmapi_mcc_qos_bw_limit_get_req.t)
| O_MCC_QOS_BW_LIMIT (o : fmapi_mcc_qos_bw_limit.t)
| O_ISC_ID_RSP (o : fmapi_isc_id_rsp.t)
| O_ISC_MSG_LIMIT (o : fmapi_isc_msg_limit.t)
| O_ISC_BOS (o : fmapi_isc_bos.t).

Definition kind_of (x : object) : Z :=
  match x with
  | O_NULL => FMOB_NULL
  | O_HDR _ => FMOB_HDR
  | O_PSC_ID_RSP _ => FMOB_PSC_ID_RSP
  | O_PSC_PORT_REQ _ => FMOB_PSC_PORT_REQ
  | O_PSC_PORT_INFO _ => FMOB_PSC_PORT_INFO
  | O_PSC_PORT_RSP _ => FMOB_PSC_PORT_RSP
  | O_PSC_PORT_CTRL_REQ _ => FMOB_PSC_PORT_CTRL_REQ
  | O_PSC_CFG_REQ _ => FMOB_PSC_CFG_REQ
  | O_PSC_CFG_RSP _ => FMOB_PSC_CFG_RSP
  | O_VSC_INFO_REQ _ => FMOB_VSC_INFO_REQ
  | O_VSC_PPB_STAT_BLK _ => FMOB_VSC_PPB_STAT_BLK
  | O_VSC_INFO_BLK _ => FMOB_VSC_INFO_BLK
  | O_VSC_INFO_RSP _ => FMOB_VSC_INFO_RSP
  | O_VSC_BIND_REQ _ => FMOB_VSC_BIND_REQ
  | O_VSC_UNBIND_REQ _ => FMOB_VSC_UNBIND_REQ
  | O_VSC_AER_REQ _ => FMOB_VSC_AER_REQ
  | O_MPC_TMC_REQ _ => FMOB_MPC_TMC_REQ
  | O_MPC_TMC_RSP _ => FMOB_MPC_TMC_RSP
  | O_MPC_CFG_REQ _ => FMOB_MPC_CFG_REQ
  | O_MPC_CFG_RSP _ => FMOB_MPC_CFG_RSP
  | O_MPC_MEM_REQ _ => FMOB_MPC_MEM_REQ
  | O_MPC_MEM_RSP _ => FMOB_MPC_MEM_RSP
  | O_MCC_INFO_RSP _ => FMOB_MCC_INFO_RSP
  | O_MCC_ALLOC_BLK _ => FMOB_MCC_ALLOC_BLK
  | O_MCC_ALLOC_GET_REQ _ => FMOB_MCC_ALLOC_GET_REQ
  | O_MCC_ALLOC_GET_RSP _ => FMOB_MCC_ALLOC_GET_RSP
  | O_MCC_ALLOC_SET_REQ _ => FMOB_MCC_ALLOC_SET_REQ
  | O_MCC_ALLOC_SET_RSP _ => FMOB_MCC_ALLOC_SET_RSP
  | O_MCC_QOS_CTRL _ => FMOB_MCC_QOS_CTRL
  | O_MCC_QOS_STAT_RSP _ => FMOB_MCC_QOS_STAT_RSP
  | O_MCC_QOS_BW_GET_REQ _ => FMOB_MCC_QOS_BW_GET_REQ
  | O_MCC_QOS_BW_ALLOC _ => FMOB_MCC_QOS_BW_ALLOC
  | O_MCC_QOS_BW_LIMIT_GET_REQ _ => FMOB_MCC_QOS_BW_LIMIT_GET_REQ
  | O_MCC_QOS_BW_LIMIT _ => FMOB_MCC_QOS_BW_LIMIT
  | O_ISC_ID_RSP _ => FMOB_ISC_ID_RSP
  | O_ISC_MSG_LIMIT _ => FMOB_ISC_MSG_LIMIT
  | O_ISC_BOS _ => FMOB_ISC_BOS
  end.

(** Every member of the object within its width on the wire, every
    count within capacity. *)
Definition well_formed (x : object) : bool :=
  match x with
  | O_NULL => true
  | O_HDR o => fmapi_hdr.wf o
  | O_PSC_ID_RSP o => fmapi_psc_id_rsp.wf o
  | O_PSC_PORT_REQ o => fmapi_psc_port_req.wf o
  | O_PSC_PORT_INFO o => fmapi_psc_port_info.wf o
  | O_PSC_PORT_RSP o => fmapi_psc_port_rsp.wf o
  | O_PSC_PORT_CTRL_REQ o => fmapi_psc_port_ctrl_req.wf o
  | O_PSC_CFG_REQ o => fmapi_psc_cfg_req.wf o
  | O_PSC_CFG_RSP o => fmapi_psc_cfg_rsp.wf o
  | O_VSC_INFO_REQ o => fmapi_vsc_info_req.wf o
  | O_VSC_PPB_STAT_BLK o => fmapi_vsc_ppb_stat_blk.wf o
  | O_VSC_INFO_BLK o => fmapi_vsc_info_blk.wf o
  | O_VSC_INFO_RSP o => fmapi_vsc_info_rsp.wf o
  | O_VSC_BIND_REQ o => fmapi_vsc_bind_req.wf o
  | O_VSC_UNBIND_REQ o => fmapi_vsc_unbind_req.wf o
  | O_VSC_AER_REQ o => fmapi_vsc_aer_req.wf o
  | O_MPC_TMC_REQ o => fmapi_mpc_tmc_req.wf o
  | O_MPC_TMC_RSP o => fmapi_mpc_tmc_rsp.wf o
  | O_MPC_CFG_REQ o => fmapi_mpc_cfg_req.wf o
  | O_MPC_CFG_RSP o => fmapi_mpc_cfg_rsp.wf o
  | O_MPC_MEM_REQ o => fmapi_mpc_mem_req.wf o
  | O_MPC_MEM_RSP o => fmapi_mpc_mem_rsp.wf o
  | O_MCC_INFO_RSP o => fmapi_mcc_info_rsp.wf o
  | O_MCC_ALLOC_BLK o => fmapi_mcc_alloc_blk.wf o
  | O_MCC_ALLOC_GET_REQ o => fmapi_mcc_alloc_get_req.wf o
  | O_MCC_ALLOC_GET_RSP o => fmapi_mcc_alloc_get_rsp.wf o
  | O_MCC_ALLOC_SET_REQ o => fmapi_mcc_alloc_set_req.wf o
  | O_MCC_ALLOC_SET_RSP o => fmapi_mcc_alloc_set_rsp.wf o
  | O_MCC_QOS_CTRL o => fmapi_mcc_qos_ctrl.wf o
  | O_MCC_QOS_STAT_RSP o => fmapi_mcc_qos_stat_rsp.wf o
  | O_MCC_QOS_BW_GET_REQ o => fmapi_mcc_qos_bw_alloc_get_req.wf o
  | O_MCC_QOS_BW_ALLOC o => fmapi_mcc_qos_bw_alloc.wf o
  | O_MCC_QOS_BW_LIMIT_GET_REQ o => fmapi_mcc_qos_bw_limit_get_req.wf o
  | O_MCC_QOS_BW_LIMIT o => fmapi_mcc_qos_bw_limit.wf o
  | O_ISC_ID_RSP o => fmapi_isc_id_rsp.wf o
  | O_ISC_MSG_LIMIT o => fmapi_isc_msg_limit.wf o
  | O_ISC_BOS o => fmapi_isc_bos.wf o
  end.

(** ** [fmapi_serialize] *)

(** The [switch (type)] of [fmapi_serialize], entered with [src]
    pointing to [x] and [type] being [kind_of x]. *)
Definition serialize_case (dst : buffer) (x : object) : Z * buffer :=
  match x with
  | O_NULL => (0, dst)
  | O_HDR o => fmapi_hdr.serialize dst o
  | O_PSC_ID_RSP o => fmapi_psc_id_rsp.serialize dst o
  | O_PSC_PORT_REQ o => fmapi_psc_port_req.serialize dst o
  | O_PSC_PORT_INFO o => fmapi_psc_port_info.serialize dst o
  | O_PSC_PORT_RSP o => fmapi_psc_port_rsp.serialize dst o
  | O_PSC_PORT_CTRL_REQ o => fmapi_psc_port_ctrl_req.serialize dst o
  | O_PSC_CFG_REQ o => fmapi_psc_cfg_req.serialize dst o
  | O_PSC_CFG_RSP o => fmapi_psc_cfg_rsp.serialize dst o
  | O_VSC_INFO_REQ o => fmapi_vsc_info_req.serialize dst o
  | O_VSC_PPB_STAT_BLK o => fmapi_vsc_ppb_stat_blk.serialize dst o
  | O_VSC_INFO_BLK o => fmapi_vsc_info_blk.serialize dst o
  | O_VSC_INFO_RSP o => fmapi_vsc_info_rsp.serialize dst o
  | O_VSC_BIND_REQ o => fmapi_vsc_bind_req.serialize dst o
  | O_VSC_UNBIND_REQ o => fmapi_vsc_unbind_req.serialize dst o
  | O_VSC_AER_REQ o => fmapi_vsc_aer_req.serialize dst o
  | O_MPC_TMC_REQ o => fmapi_mpc_tmc_req.serialize dst o
  | O_MPC_TMC_RSP o => fmapi_mpc_tmc_rsp.serialize dst o
  | O_MPC_CFG_REQ o => fmapi_mpc_cfg_req.serialize dst o
  | O_MPC_CFG_RSP o => fmapi_mpc_cfg_rsp.serialize dst o
  | O_MPC_MEM_REQ o => fmapi_mpc_mem_req.serialize dst o
  | O_MPC_MEM_RSP o => fmapi_mpc_mem_rsp.serialize dst o
  | O_MCC_INFO_RSP o => fmapi_mcc_info_rsp.serialize dst o
  | O_MCC_ALLOC_BLK o => fmapi_mcc_alloc_blk.serialize dst o
  | O_MCC_ALLOC_GET_REQ o => fmapi_mcc_alloc_get_req.serialize dst o
  | O_MCC_ALLOC_GET_RSP o => fmapi_mcc_alloc_get_rsp.serialize dst o
  | O_MCC_ALLOC_SET_REQ o => fmapi_mcc_alloc_set_req.serialize dst o
  | O_MCC_ALLOC_SET_RSP o => fmapi_mcc_alloc_set_rsp.serialize dst o
  | O_MCC_QOS_CTRL o => fmapi_mcc_qos_ctrl.serialize dst o
  | O_MCC_QOS_STAT_RSP o => fmapi_mcc_qos_stat_rsp.serialize dst o
  | O_MCC_QOS_BW_GET_REQ o => fmapi_mcc_qos_bw_alloc_get_req.serialize dst o
  | O_MCC_QOS_BW_ALLOC o => fmapi_mcc_qos_bw_alloc.serialize dst o
  | O_MCC_QOS_BW_LIMIT_GET_REQ o => fmapi_mcc_qos_bw_limit_get_req.serialize dst o
  | O_MCC_QOS_BW_LIMIT o => fmapi_mcc_qos_bw_limit.serialize dst o
  | O_ISC_ID_RSP o => fmapi_isc_id_rsp.serialize dst o
  | O_ISC_MSG_LIMIT o => fmapi_isc_msg_limit.serialize dst o
  | O_ISC_BOS o => fmapi_isc_bos.serialize dst o
  end.

(** [int fmapi_serialize(__u8 *dst, void *src, unsigned type)].
    The only test before the [switch] is on [type]; neither pointer is
    tested.  Every case reads [*src] and writes [dst[..]]. *)
Definition fmapi_serialize (dst : ptr buffer) (src : ptr object) (type : Z)
    : result (ptr buffer) :=
  if (type =? FMOB_NULL) || (FMOB_MAX <=? type) then Ret 0 dst
  else
    match dst, src with
    | Some b, Some x =>
        if type =? kind_of x
        then let '(rv, b') := serialize_case b x in Ret rv (Some b')
        else Fault
    | _, _ => Fault
    end.

(** ** [fmapi_deserialize] *)

(** A case of the [switch] that reads [src[..]] and overwrites [*dst]. *)
Definition reading {T : Type} (src : ptr buffer) (deser : buffer -> Z * T)
                   (inj : T -> object) : result (ptr object) :=
  match src with
  | None => Fault
  | Some b => let '(rv, o) := deser b in Ret rv (Some (inj o))
  end.

(** The [switch (type)] of [fmapi_deserialize], entered with [dst]
    pointing to storage [x] for a struct of kind [type]. *)
Definition deserialize_case (x : object) (src : ptr buffer)
                            (param : ptr fmapi_vsc_info_req.t)
    : result (ptr object) :=
  match x with
  | O_NULL => Ret 0 (Some x)
  | O_HDR _ => reading src fmapi_hdr.deserialize O_HDR
  | O_PSC_ID_RSP _ => reading src fmapi_psc_id_rsp.deserialize O_PSC_ID_RSP
  | O_PSC_PORT_REQ _ => reading src fmapi_psc_port_req.deserialize O_PSC_PORT_REQ
  | O_PSC_PORT_INFO _ => reading src fmapi_psc_port_info.deserialize O_PSC_PORT_INFO
  | O_PSC_PORT_RSP _ => reading src fmapi_psc_port_rsp.deserialize O_PSC_PORT_RSP
  | O_PSC_PORT_CTRL_REQ _ =>
      reading src fmapi_psc_port_ctrl_req.deserialize O_PSC_PORT_CTRL_REQ
  | O_PSC_CFG_REQ _ => reading src fmapi_psc_cfg_req.deserialize O_PSC_CFG_REQ
  | O_PSC_CFG_RSP _ => reading src fmapi_psc_cfg_rsp.deserialize O_PSC_CFG_RSP
  | O_VSC_INFO_REQ _ => reading src fmapi_vsc_info_req.deserialize O_VSC_INFO_REQ
  | O_VSC_PPB_STAT_BLK _ =>
      reading src fmapi_vsc_ppb_stat_blk.deserialize O_VSC_PPB_STAT_BLK
  | O_VSC_INFO_BLK _ =>
      match param with
      | None => Ret 0 (Some x)
      | Some r => reading src (fmapi_vsc_info_blk.deserialize_with r) O_VSC_INFO_BLK
      end
  | O_VSC_INFO_RSP o =>
      reading src (fun b => fmapi_vsc_info_rsp.deserialize o b param) O_VSC_INFO_RSP
  | O_VSC_BIND_REQ _ => reading src fmapi_vsc_bind_req.deserialize O_VSC_BIND_REQ
  | O_VSC_UNBIND_REQ _ => reading src fmapi_vsc_unbind_req.deserialize O_VSC_UNBIND_REQ
  | O_VSC_AER_REQ _ => reading src fmapi_vsc_aer_req.deserialize O_VSC_AER_REQ
  | O_MPC_TMC_REQ _ => reading src fmapi_mpc_tmc_req.deserialize O_MPC_TMC_REQ
  | O_MPC_TMC_RSP _ => reading src fmapi_mpc_tmc_rsp.deserialize O_MPC_TMC_RSP
  | O_MPC_CFG_REQ _ => reading src fmapi_mpc_cfg_req.deserialize O_MPC_CFG_REQ
  | O_MPC_CFG_RSP _ => reading src fmapi_mpc_cfg_rsp.deserialize O_MPC_CFG_RSP
  | O_MPC_MEM_REQ _ => reading src fmapi_mpc_mem_req.deserialize O_MPC_MEM_REQ
  | O_MPC_MEM_RSP _ => reading src fmapi_mpc_mem_rsp.deserialize O_MPC_MEM_RSP
  | O_MCC_INFO_RSP _ => reading src fmapi_mcc_info_rsp.deserialize O_MCC_INFO_RSP
  | O_MCC_ALLOC_BLK _ => reading src fmapi_mcc_alloc_blk.deserialize O_MCC_ALLOC_BLK
  | O_MCC_ALLOC_GET_REQ _ =>
      reading src fmapi_mcc_alloc_get_req.deserialize O_MCC_ALLOC_GET_REQ
  | O_MCC_ALLOC_GET_RSP _ =>
      reading src fmapi_mcc_alloc_get_rsp.deserialize O_MCC_ALLOC_GET_RSP
  | O_MCC_ALLOC_SET_REQ _ =>
      reading src fmapi_mcc_alloc_set_req.deserialize O_MCC_ALLOC_SET_REQ
  | O_MCC_ALLOC_SET_RSP _ =>
      reading src fmapi_mcc_alloc_set_rsp.deserialize O_MCC_ALLOC_SET_RSP
  | O_MCC_QOS_CTRL _ => reading src fmapi_mcc_qos_ctrl.deserialize O_MCC_QOS_CTRL
  | O_MCC_QOS_STAT_RSP _ =>
      reading src fmapi_mcc_qos_stat_rsp.deserialize O_MCC_QOS_STAT_RSP
  | O_MCC_QOS_BW_GET_REQ _ =>
      reading src fmapi_mcc_qos_bw_alloc_get_req.deserialize O_MCC_QOS_BW_GET_REQ
  | O_MCC_QOS_BW_ALLOC _ =>
      reading src fmapi_mcc_qos_bw_alloc.deserialize O_MCC_QOS_BW_ALLOC
  | O_MCC_QOS_BW_LIMIT_GET_REQ _ =>
      reading src fmapi_mcc_qos_bw_limit_get_req.deserialize O_MCC_QOS_BW_LIMIT_GET_REQ
  | O_MCC_QOS_BW_LIMIT _ =>
      reading src fmapi_mcc_qos_bw_limit.deserialize O_MCC_QOS_BW_LIMIT
  | O_ISC_ID_RSP _ => reading src fmapi_isc_id_rsp.deserialize O_ISC_ID_RSP
  | O_ISC_MSG_LIMIT _ => reading src fmapi_isc_msg_limit.deserialize O_ISC_MSG_LIMIT
  | O_ISC_BOS _ => reading src fmapi_isc_bos.deserialize O_ISC_BOS
  end.

(** [int fmapi_deserialize(void *dst, __u8 *src, unsigned type, void *param)].
    [dst] and [type] are tested before the [switch]; [src] is not.
    Case [FMOB_NULL] touches nothing. *)
Definition fmapi_deserialize (dst : ptr object) (src : ptr buffer) (type : Z)
                             (param : ptr fmapi_vsc_info_req.t)
    : result (ptr object) :=
  match dst with
  | None => Ret (-1) dst
  | Some x =>
      if FMOB_MAX <=? type then Ret (-1) dst
      else if type =? FMOB_NULL then Ret 0 dst
      else if type =? kind_of x then deserialize_case x src param
      else Fault
  end.

(** ** The opcode tables *)

(** [int fmapi_fmob_req(unsigned int opcode)]. *)
Definition fmapi_fmob_req (opcode : Z) : Z :=
  if opcode =? FMOP_PSC_ID then FMOB_NULL
  else if opcode =? FMOP_PSC_PORT then FMOB_PSC_PORT_REQ
  else if opcode =? FMOP_PSC_PORT_CTRL then FMOB_PSC_PORT_CTRL_REQ
  else if opcode =? FMOP_PSC_CFG then FMOB_PSC_CFG_REQ
  else if opcode =? FMOP_VSC_INFO then FMOB_VSC_INFO_REQ
  else if opcode =? FMOP_VSC_BIND then FMOB_VSC_BIND_REQ
  else if opcode =? FMOP_VSC_UNBIND then FMOB_VSC_UNBIND_REQ
  else if opcode =? FMOP_VSC_AER then FMOB_VSC_AER_REQ
  else if opcode =? FMOP_MPC_TMC then FMOB_MPC_TMC_REQ
  else if opcode =? FMOP_MPC_CFG then FMOB_MPC_CFG_REQ
  else if opcode =? FMOP_MPC_MEM then FMOB_MPC_MEM_REQ
  else if opcode =? FMOP_MCC_INFO then FMOB_NULL
  else if opcode =? FMOP_MCC_ALLOC_GET then FMOB_MCC_ALLOC_GET_REQ
  else if opcode =? FMOP_MCC_ALLOC_SET then FMOB_MCC_ALLOC_SET_REQ
  else if opcode =? FMOP_MCC_QOS_CTRL_GET then FMOB_NULL
  else if opcode =? FMOP_MCC_QOS_CTRL_SET then FMOB_MCC_QOS_CTRL
  else if opcode =? FMOP_MCC_QOS_STAT then FMOB_NULL
  else if opcode =? FMOP_MCC_QOS_BW_ALLOC_GET then FMOB_MCC_QOS_BW_GET_REQ
  else if opcode =? FMOP_MCC_QOS_BW_ALLOC_SET then FMOB_MCC_QOS_BW_ALLOC
  else if opcode =? FMOP_MCC_QOS_BW_LIMIT_GET then FMOB_MCC_QOS_BW_LIMIT_GET_REQ
  else if opcode =? FMOP_MCC_QOS_BW_LIMIT_SET then FMOB_MCC_QOS_BW_LIMIT
  else if opcode =? FMOP_ISC_ID then FMOB_NULL
  else if opcode =? FMOP_ISC_BOS then FMOB_NULL
  else if opcode =? FMOP_ISC_MSG_LIMIT_GET then FMOB_NULL
  else if opcode =? FMOP_ISC_MSG_LIMIT_SET then FMOB_ISC_MSG_LIMIT
  else FMOB_NULL.

(** [int fmapi_fmob_rsp(unsigned int opcode)]. *)
Definition fmapi_fmob_rsp (opcode : Z) : Z :=
  if opcode =? FMOP_PSC_ID then FMOB_PSC_ID_RSP
  else if opcode =? FMOP_PSC_PORT then FMOB_PSC_PORT_RSP
  else if opcode =? FMOP_PSC_PORT_CTRL then FMOB_NULL
  else if opcode =? FMOP_PSC_CFG then FMOB_PSC_CFG_RSP
  else if opcode =? FMOP_VSC_INFO then FMOB_VSC_INFO_RSP
  else if opcode =? FMOP_VSC_BIND then FMOB_NULL
  else if opcode =? FMOP_VSC_UNBIND then FMOB_NULL
  else if opcode =? FMOP_VSC_AER then FMOB_NULL
  else if opcode =? FMOP_MPC_TMC then FMOB_MPC_TMC_RSP
  else if opcode =? FMOP_MPC_CFG then FMOB_MPC_CFG_RSP
  else if opcode =? FMOP_MPC_MEM then FMOB_MPC_MEM_RSP
  else if opcode =? FMOP_MCC_INFO then FMOB_MCC_INFO_RSP
  else if opcode =? FMOP_MCC_ALLOC_GET then FMOB_MCC_ALLOC_GET_RSP
  else if opcode =? FMOP_MCC_ALLOC_SET then FMOB_MCC_ALLOC_SET_RSP
  else if opcode =? FMOP_MCC_QOS_CTRL_GET then FMOB_MCC_QOS_CTRL
  else if opcode =? FMOP_MCC_QOS_CTRL_SET then FMOB_MCC_QOS_CTRL
  else if opcode =? FMOP_MCC_QOS_STAT then FMOB_MCC_QOS_STAT_RSP
  else if opcode =? FMOP_MCC_QOS_BW_ALLOC_GET then FMOB_MCC_QOS_BW_ALLOC
  else if opcode =? FMOP_MCC_QOS_BW_ALLOC_SET then FMOB_MCC_QOS_BW_ALLOC
  else if opcode =? FMOP_MCC_QOS_BW_LIMIT_GET then FMOB_MCC_QOS_BW_LIMIT
  else if opcode =? FMOP_MCC_QOS_BW_LIMIT_SET then FMOB_MCC_QOS_BW_LIMIT
  else if opcode =? FMOP_ISC_ID then FMOB_ISC_ID_RSP
  else if opcode =? FMOP_ISC_BOS then FMOB_ISC_BOS
  else if opcode =? FMOP_ISC_MSG_LIMIT_GET then FMOB_ISC_MSG_LIMIT
  else if opcode =? FMOP_ISC_MSG_LIMIT_SET then FMOB_ISC_MSG_LIMIT
  else FMOB_NULL.

(** The opcodes of [enum _FMOP], the commands the tables know. *)
Definition known_opcodes : list Z :=
  [ FMOP_PSC_ID; FMOP_PSC_PORT; FMOP_PSC_PORT_CTRL; FMOP_PSC_CFG;
    FMOP_VSC_INFO; FMOP_VSC_BIND; FMOP_VSC_UNBIND; FMOP_VSC_AER;
    FMOP_MPC_TMC; FMOP_MPC_CFG; FMOP_MPC_MEM;
    FMOP_MCC_INFO; FMOP_MCC_ALLOC_GET; FMOP_MCC_ALLOC_SET;
    FMOP_MCC_QOS_CTRL_GET; FMOP_MCC_QOS_CTRL_SET; FMOP_MCC_QOS_STAT;
    FMOP_MCC_QOS_BW_ALLOC_GET; FMOP_MCC_QOS_BW_ALLOC_SET;
    FMOP_MCC_QOS_BW_LIMIT_GET; FMOP_MCC_QOS_BW_LIMIT_SET;
    FMOP_ISC_ID; FMOP_ISC_BOS; FMOP_ISC_MSG_LIMIT_GET; FMOP_ISC_MSG_LIMIT_SET ].

(** The commands whose builder sets no object: their request has no
    payload. *)
Definition req_without_payload : list Z :=
  [ FMOP_PSC_ID; FMOP_MCC_INFO; FMOP_MCC_QOS_CTRL_GET; FMOP_MCC_QOS_STAT;
    FMOP_ISC_ID; FMOP_ISC_BOS; FMOP_ISC_MSG_LIMIT_GET ].

(** The commands for which fmapi.h declares no response struct: their
    response has no payload. *)
Definition rsp_without_payload : list Z :=
  [ FMOP_PSC_PORT_CTRL; FMOP_VSC_BIND; FMOP_VSC_UNBIND; FMOP_VSC_AER ].

(** ** Messages and their builders *)

(** Where the [struct fmapi_buf *buf] of a message points. *)
Inductive buf_ref : Type :=
| buf_null        (* NULL *)
| buf_caller      (* a buffer of the caller *)
| buf_tmc_msg     (* the msg array of the tunnel request being built *)
| buf_off_null.   (* the address of that array computed from m == NULL *)

(** [struct fmapi_msg]; [obj] is the member of the union in use. *)
Module fmapi_msg.
Record t : Type := mk {
  hdr : fmapi_hdr.t;
  buf : buf_ref;
  obj : object
}.
End fmapi_msg.

(** [fmapi_fill_hdr]. *)
Definition fmapi_fill_hdr (fh : ptr fmapi_hdr.t)
    (category tag opcode background len return_code ext_status : Z)
    : Z * ptr fmapi_hdr.t :=
  match fh with
  | None => (0, None)
  | Some _ =>
      (FMLN_HDR + len,
       Some {| fmapi_hdr.category := wrap 4 category;
               fmapi_hdr.tag := u8 tag;
               fmapi_hdr.opcode := u16 opcode;
               fmapi_hdr.len := wrap 21 len;
               fmapi_hdr.background := wrap 1 background;
               fmapi_hdr.return_code := u16 return_code;
               fmapi_hdr.ext_status := u16 ext_status |})
  end.

(** The header after [memset(&m->hdr, 0, sizeof(struct fmapi_hdr))] and
    [m->hdr.opcode = opcode]. *)
Definition cleared_hdr (opcode : Z) : fmapi_hdr.t :=
  {| fmapi_hdr.category := 0; fmapi_hdr.tag := 0;
     fmapi_hdr.opcode := u16 opcode; fmapi_hdr.background := 0;
     fmapi_hdr.len := 0; fmapi_hdr.return_code := 0;
     fmapi_hdr.ext_status := 0 |}.

(** The frame shared by the builders that test [m] first:
    [rv = 1; if (m == NULL) goto end; <clear header>; <set opcode>;
     <set object>; rv = 0; end: return rv].  [set] maps the union as it
    was to the union as the builder leaves it, [None] when setting it
    dereferences a NULL argument. *)
Definition fill (m : ptr fmapi_msg.t) (opcode : Z)
                (set : object -> option object) : result (ptr fmapi_msg.t) :=
  match m with
  | None => Ret 1 None
  | Some msg =>
      match set (fmapi_msg.obj msg) with
      | None => Fault
      | Some o =>
          Ret 0 (Some {| fmapi_msg.hdr := cleared_hdr opcode;
                         fmapi_msg.buf := fmapi_msg.buf msg;
                         fmapi_msg.obj := o |})
      end
  end.

Definition fmapi_fill_isc_bos (m : ptr fmapi_msg.t) : result (ptr fmapi_msg.t) :=
  fill m FMOP_ISC_BOS (fun o => Some o).

Definition fmapi_fill_isc_get_msg_limit (m : ptr fmapi_msg.t)
    : result (ptr fmapi_msg.t) :=
  fill m FMOP_ISC_MSG_LIMIT_GET (fun o => Some o).

Definition fmapi_fill_isc_id (m : ptr fmapi_msg.t) : result (ptr fmapi_msg.t) :=
  fill m FMOP_ISC_ID (fun o => Some o).

Definition fmapi_fill_isc_set_msg_limit (m : ptr fmapi_msg.t) (limit : Z)
    : result (ptr fmapi_msg.t) :=
  fill m FMOP_ISC_MSG_LIMIT_SET
       (fun _ => Some (O_ISC_MSG_LIMIT {| fmapi_isc_msg_limit.limit := limit |})).

Definition fmapi_fill_mcc_get_alloc (m : ptr fmapi_msg.t) (start limit : Z)
    : result (ptr fmapi_msg.t) :=
  let limit := if limit =? 0 then 255 else limit in
  fill m FMOP_MCC_ALLOC_GET
       (fun _ => Some (O_MCC_ALLOC_GET_REQ
                         {| fmapi_mcc_alloc_get_req.start := u8 start;
                            fmapi_mcc_alloc_get_req.limit := u8 limit |})).

Definition fmapi_fill_mcc_get_info (m : ptr fmapi_msg.t)
    : result (ptr fmapi_msg.t) :=
  fill m FMOP_MCC_INFO (fun o => Some o).

Definition fmapi_fill_mcc_get_qos_alloc (m : ptr fmapi_msg.t) (start limit : Z)
    : result (ptr fmapi_msg.t) :=
  let limit := if limit =? 0 then 255 else limit in
  fill m FMOP_MCC_QOS_BW_ALLOC_GET
       (fun _ => Some (O_MCC_QOS_BW_GET_REQ
                         {| fmapi_mcc_qos_bw_alloc_get_req.num := u8 limit;
                            fmapi_mcc_qos_bw_alloc_get_req.start := u8 start |})).

Definition fmapi_fill_mcc_get_qos_ctrl (m : ptr fmapi_msg.t)
    : result (ptr fmapi_msg.t) :=
  fill m FMOP_MCC_QOS_CTRL_GET (fun o => Some o).

Definition fmapi_fill_mcc_get_qos_limit (m : ptr fmapi_msg.t) (start limit : Z)
    : result (ptr fmapi_msg.t) :=
  let limit := if limit =? 0 then 16 else limit in
  fill m FMOP_MCC_QOS_BW_LIMIT_GET
       (fun _ => Some (O_MCC_QOS_BW_LIMIT_GET_REQ
                         {| fmapi_mcc_qos_bw_limit_get_req.num := u8 limit;
                            fmapi_mcc_qos_bw_limit_get_req.start := u8 start |})).

Definition fmapi_fill_mcc_get_qos_status (m : ptr fmapi_msg.t)
    : result (ptr fmapi_msg.t) :=
  fill m FMOP_MCC_QOS_STAT (fun o => Some o).

(** The entries [0 .. num-1] of an array argument, [None] when one is
    read through a NULL pointer. *)
Definition read_array (a : ptr (list Z)) (num : Z) : option (list Z) :=
  if num <=? 0 then Some []
  else match a with
       | None => None
       | Some l => Some (for_upto num (fun i acc => acc ++ [elem 0 l i]) [])
       end.

Definition fmapi_fill_mcc_set_alloc (m : ptr fmapi_msg.t) (start num : Z)
    (rng1 rng2 : ptr (list Z)) : result (ptr fmapi_msg.t) :=
  fill m FMOP_MCC_ALLOC_SET
       (fun _ =>
          match read_array rng1 num, read_array rng2 num with
          | Some r1, Some r2 =>
              Some (O_MCC_ALLOC_SET_REQ
                      {| fmapi_mcc_alloc_set_req.num := u8 num;
                         fmapi_mcc_alloc_set_req.start := u8 start;
                         fmapi_mcc_alloc_set_req.list :=
                           map (fun p => fmapi_mcc_alloc_blk.mk (fst p) (snd p))
                               (combine r1 r2) |})
          | _, _ => None
          end).

Definition fmapi_fill_mcc_set_qos_alloc (m : ptr fmapi_msg.t) (start num : Z)
    (list : ptr (list Z)) : result (ptr fmapi_msg.t) :=
  fill m FMOP_MCC_QOS_BW_ALLOC_SET
       (fun _ =>
          match read_array list num with
          | Some l =>
              Some (O_MCC_QOS_BW_ALLOC
                      {| fmapi_mcc_qos_bw_alloc.num := u8 num;
                         fmapi_mcc_qos_bw_alloc.start := u8 start;
                         fmapi_mcc_qos_bw_alloc.list := l |})
          | None => None
          end).

Definition fmapi_fill_mcc_set_qos_ctrl (m : ptr fmapi_msg.t)
    (epc ttr mod_ sev si rcb ci : Z) : result (ptr fmapi_msg.t) :=
  fill m FMOP_MCC_QOS_CTRL_SET
       (fun _ => Some (O_MCC_QOS_CTRL
                         {| fmapi_mcc_qos_ctrl.epc_en := u8 epc;
                            fmapi_mcc_qos_ctrl.ttr_en := u8 ttr;
                            fmapi_mcc_qos_ctrl.egress_mod_pcnt := u8 mod_;
                            fmapi_mcc_qos_ctrl.egress_sev_pcnt := u8 sev;
                            fmapi_mcc_qos_ctrl.sample_interval := u8 si;
                            fmapi_mcc_qos_ctrl.rcb := u16 rcb;
                            fmapi_mcc_qos_ctrl.comp_interval := u8 ci |})).

Definition fmapi_fill_mcc_set_qos_limit (m : ptr fmapi_msg.t) (start num : Z)
    (list : ptr (list Z)) : result (ptr fmapi_msg.t) :=
  fill m FMOP_MCC_QOS_BW_LIMIT_SET
       (fun _ =>
          match read_array list num with
          | Some l =>
              Some (O_MCC_QOS_BW_LIMIT
                      {| fmapi_mcc_qos_bw_limit.num := u8 num;
                         fmapi_mcc_qos_bw_limit.start := u8 start;
                         fmapi_mcc_qos_bw_limit.list := l |})
          | None => None
          end).

Definition fmapi_fill_mpc_cfg (m : ptr fmapi_msg.t)
    (ppid ldid reg ext fdbe type : Z) (data : ptr (list Z))
    : result (ptr fmapi_msg.t) :=
  fill m FMOP_MPC_CFG
       (fun _ =>
          match read_array data 4 with
          | Some d =>
              Some (O_MPC_CFG_REQ
                      {| fmapi_mpc_cfg_req.ppid := u8 ppid;
                         fmapi_mpc_cfg_req.ldid := u16 ldid;
                         fmapi_mpc_cfg_req.reg := u8 reg;
                         fmapi_mpc_cfg_req.ext := wrap 4 ext;
                         fmapi_mpc_cfg_req.fdbe := wrap 4 fdbe;
                         fmapi_mpc_cfg_req.type := wrap 1 type;
                         fmapi_mpc_cfg_req.data := d |})
          | None => None
          end).

Definition fmapi_fill_mpc_mem (m : ptr fmapi_msg.t)
    (ppid ldid offset len fdbe ldbe type : Z) (data : ptr (list Z))
    : result (ptr fmapi_msg.t) :=
  fill m FMOP_MPC_MEM
       (fun _ =>
          match read_array data len with
          | Some d =>
              Some (O_MPC_MEM_REQ
                      {| fmapi_mpc_mem_req.ppid := u8 ppid;
                         fmapi_mpc_mem_req.ldid := u16 ldid;
                         fmapi_mpc_mem_req.offset := offset;
                         fmapi_mpc_mem_req.len := u16 len;
                         fmapi_mpc_mem_req.fdbe := wrap 4 fdbe;
                         fmapi_mpc_mem_req.ldbe := wrap 4 ldbe;
                         fmapi_mpc_mem_req.type := wrap 1 type;
                         fmapi_mpc_mem_req.data := d |})
          | None => None
          end).

(** The bytes of [m->obj.mpc_tmc_req.msg] for the union as it is;
    storage the union held under another member reads as zeroed. *)
Definition tmc_msg_bytes (o : object) : buffer :=
  match o with
  | O_MPC_TMC_REQ t => fun i => elem 0 (fmapi_mpc_tmc_req.msg t) i
  | _ => fun _ => 0
  end.

(** [fmapi_fill_mpc_tmc]: the one builder that does not follow [fill].
    Its first statement, [sub->buf = (struct fmapi_buf * ) m->obj.mpc_tmc_req.msg],
    stands before the test of [m]; [sub] is never tested.  The inner
    object and the inner header are then serialized through [sub->buf],
    that is into the msg array of [m]: payload from byte [FMLN_HDR],
    header from byte 0.  The result carries [*m] and [*sub]. *)
Definition fmapi_fill_mpc_tmc (m : ptr fmapi_msg.t) (ppid type : Z)
                              (sub : ptr fmapi_msg.t)
    : result (ptr fmapi_msg.t * ptr fmapi_msg.t) :=
  match sub with
  | None => Fault
  | Some s =>
      match m with
      | None =>
          Ret 1 (None, Some {| fmapi_msg.hdr := fmapi_msg.hdr s;
                               fmapi_msg.buf := buf_off_null;
                               fmapi_msg.obj := fmapi_msg.obj s |})
      | Some msg =>
          let msg_bytes := tmc_msg_bytes (fmapi_msg.obj msg) in
          let sub_opcode := fmapi_hdr.opcode (fmapi_msg.hdr s) in
          match fmapi_serialize (Some (shift msg_bytes FMLN_HDR))
                                (Some (fmapi_msg.obj s))
                                (fmapi_fmob_req sub_opcode) with
          | Ret len (Some payload) =>
              let msg_bytes := unshift payload FMLN_HDR in
              let '(n, sub_hdr) :=
                fmapi_fill_hdr (Some (fmapi_msg.hdr s))
                               FMMT_REQ 0 sub_opcode 0 len 0 0 in
              match sub_hdr with
              | Some h =>
                  match fmapi_serialize (Some msg_bytes) (Some (O_HDR h)) FMOB_HDR with
                  | Ret _ (Some msg_bytes) =>
                      let tmc_len := u16 n in
                      Ret 0
                        (Some {| fmapi_msg.hdr := cleared_hdr FMOP_MPC_TMC;
                                 fmapi_msg.buf := fmapi_msg.buf msg;
                                 fmapi_msg.obj :=
                                   O_MPC_TMC_REQ
                                     {| fmapi_mpc_tmc_req.ppid := u8 ppid;
                                        fmapi_mpc_tmc_req.len := tmc_len;
                                        fmapi_mpc_tmc_req.type := u8 type;
                                        fmapi_mpc_tmc_req.msg :=
                                          memcpy_from msg_bytes 0 tmc_len |} |},
                         Some {| fmapi_msg.hdr := h;
                                 fmapi_msg.buf := buf_tmc_msg;
                                 fmapi_msg.obj := fmapi_msg.obj s |})
                  | _ => Fault
                  end
              | None => Fault
              end
          | _ => Fault
          end
      end
  end.

Definition fmapi_fill_psc_id (m : ptr fmapi_msg.t) : result (ptr fmapi_msg.t) :=
  fill m FMOP_PSC_ID (fun o => Some o).

Definition fmapi_fill_psc_get_all_ports (m : ptr fmapi_msg.t)
    : result (ptr fmapi_msg.t) :=
  fill m FMOP_PSC_PORT
       (fun _ =>
          Some (O_PSC_PORT_REQ
                  {| fmapi_psc_port_req.num := 255;
                     fmapi_psc_port_req.ports :=
                       for_upto 255 (fun i ports => ports ++ [u8 i]) [] |})).

Definition fmapi_fill_psc_get_port (m : ptr fmapi_msg.t) (port : Z)
    : result (ptr fmapi_msg.t) :=
  fill m FMOP_PSC_PORT
       (fun _ =>
          Some (O_PSC_PORT_REQ
                  {| fmapi_psc_port_req.num := 1;
                     fmapi_psc_port_req.ports := [port] |})).

Definition fmapi_fill_psc_get_ports (m : ptr fmapi_msg.t) (num : Z)
    (list : ptr (list Z)) : result (ptr fmapi_msg.t) :=
  fill m FMOP_PSC_PORT
       (fun _ =>
          match read_array list num with
          | Some l =>
              Some (O_PSC_PORT_REQ
                      {| fmapi_psc_port_req.num := u8 num;
                         fmapi_psc_port_req.ports := l |})
          | None => None
          end).

(** The data member of the configuration request as the union holds it. *)
Definition psc_cfg_data (o : object) : list Z :=
  match o with
  | O_PSC_CFG_REQ c => fmapi_psc_cfg_req.data c
  | _ => repeat 0 4
  end.

Definition fmapi_fill_psc_cfg (m : ptr fmapi_msg.t)
    (ppid reg ext fdbe type : Z) (data : ptr (list Z))
    : result (ptr fmapi_msg.t) :=
  fill m FMOP_PSC_CFG
       (fun o =>
          let d := match data with
                   | None => Some (psc_cfg_data o)
                   | Some _ => read_array data 4
                   end in
          match d with
          | Some d =>
              Some (O_PSC_CFG_REQ
                      {| fmapi_psc_cfg_req.ppid := u8 ppid;
                         fmapi_psc_cfg_req.reg := wrap 8 reg;
                         fmapi_psc_cfg_req.ext := wrap 4 ext;
                         fmapi_psc_cfg_req.fdbe := wrap 4 fdbe;
                         fmapi_psc_cfg_req.type := wrap 1 type;
                         fmapi_psc_cfg_req.data := d |})
          | None => None
          end).

Definition fmapi_fill_psc_port_ctrl (m : ptr fmapi_msg.t) (ppid opcode : Z)
    : result (ptr fmapi_msg.t) :=
  fill m FMOP_PSC_PORT_CTRL
       (fun _ => Some (O_PSC_PORT_CTRL_REQ
                         {| fmapi_psc_port_ctrl_req.ppid := u8 ppid;
                            fmapi_psc_port_ctrl_req.opcode := u8 opcode |})).

Definition fmapi_fill_vsc_aer (m : ptr fmapi_msg.t) (vcsid vppbid type : Z)
    (header : ptr (list Z)) : result (ptr fmapi_msg.t) :=
  fill m FMOP_VSC_AER
       (fun _ =>
          match read_array header 32 with
          | Some h =>
              Some (O_VSC_AER_REQ
                      {| fmapi_vsc_aer_req.vcsid := u8 vcsid;
                         fmapi_vsc_aer_req.vppbid := u8 vppbid;
                         fmapi_vsc_aer_req.error_type := type;
                         fmapi_vsc_aer_req.header := h |})
          | None => None
          end).

Definition fmapi_fill_vsc_bind (m : ptr fmapi_msg.t) (vcsid vppbid ppid ldid : Z)
    : result (ptr fmapi_msg.t) :=
  fill m FMOP_VSC_BIND
       (fun _ => Some (O_VSC_BIND_REQ
                         {| fmapi_vsc_bind_req.vcsid := u8 vcsid;
                            fmapi_vsc_bind_req.vppbid := u8 vppbid;
                            fmapi_vsc_bind_req.ppid := u8 ppid;
                            fmapi_vsc_bind_req.ldid := u16 ldid |})).

Definition fmapi_fill_vsc_get_vcs (m : ptr fmapi_msg.t) (vcsid start limit : Z)
    : result (ptr fmapi_msg.t) :=
  fill m FMOP_VSC_INFO
       (fun _ => Some (O_VSC_INFO_REQ
                         {| fmapi_vsc_info_req.num := 1;
                            fmapi_vsc_info_req.vcss := [u8 vcsid];
                            fmapi_vsc_info_req.vppbid_start := u8 start;
                            fmapi_vsc_info_req.vppbid_limit := u8 limit |})).

Definition fmapi_fill_vsc_unbind (m : ptr fmapi_msg.t) (vcsid vppbid option : Z)
    : result (ptr fmapi_msg.t) :=
  fill m FMOP_VSC_UNBIND
       (fun _ => Some (O_VSC_UNBIND_REQ
                         {| fmapi_vsc_unbind_req.vcsid := u8 vcsid;
                            fmapi_vsc_unbind_req.vppbid := u8 vppbid;
                            fmapi_vsc_unbind_req.option := wrap 4 option |})).

(** ** Vocabulary of the statements *)

(** Two buffers hold the same bytes at the offsets [lo <= j < hi]. *)
Definition agree (lo hi : Z) (a b : buffer) : Prop :=
  forall j, lo <= j < hi -> a j = b j.

(** Every byte of a source buffer is a byte. *)
Definition byte_buffer (b : buffer) : Prop := forall j, 0 <= b j < 2 ^ 8.

(** The bytes the entries of an array take on the wire, [len_of] being
    the length of one entry. *)
Definition span {T : Type} (len_of : T -> Z) (l : list T) : Z :=
  fold_right (fun e n => len_of e + n) 0 l.

(** The number of entries a virtual switch info block carries for the
    request [r]: [min(limit, total - start)]. *)
Definition clamp (r : fmapi_vsc_info_req.t) (total : Z) : Z :=
  Z.min (fmapi_vsc_info_req.vppbid_limit r)
        (total - fmapi_vsc_info_req.vppbid_start r).

(** The block holds as many entries as the request [r] asks of it. *)
Definition blk_fits (r : fmapi_vsc_info_req.t) (blk : fmapi_vsc_info_blk.t) : bool :=
  clamp r (fmapi_vsc_info_blk.total blk) =? fmapi_vsc_info_blk.num blk.

(** [r] is a request: its start and limit are [__u8] members. *)
Definition is_request (r : fmapi_vsc_info_req.t) : bool :=
  in_bits 8 (fmapi_vsc_info_req.vppbid_start r)
  && in_bits 8 (fmapi_vsc_info_req.vppbid_limit r).

(** The decode context the object needs: for the two virtual switch info
    kinds, the originating request, whose clamp gives every block its
    number of entries; nothing for the other kinds. *)
Definition context_ok (param : ptr fmapi_vsc_info_req.t) (x : object) : bool :=
  match x with
  | O_VSC_INFO_BLK blk =>
      match param with
      | Some r => is_request r && blk_fits r blk
      | None => false
      end
  | O_VSC_INFO_RSP rsp =>
      match param with
      | Some r => is_request r && forallb (blk_fits r) (fmapi_vsc_info_rsp.list rsp)
      | None => false
      end
  | _ => true
  end.

(** The 16-bit little-endian field at the bytes [i] and [i + 1]. *)
Definition le16_at (b : buffer) (i : Z) : Z := b i + 2 ^ 8 * b (i + 1).

(** A buffer whose every byte holds [v]. *)
Definition filled (v : Z) : buffer := fun _ => v.

(** The two tunnel kinds: the object is a tunnel command request or
    response. *)
Definition is_tunnel (x : object) : bool :=
  match x with
  | O_MPC_TMC_REQ _ | O_MPC_TMC_RSP _ => true
  | _ => false
  end.

(** The [len] member of a tunnel object. *)
Definition tunnel_len (x : object) : Z :=
  match x with
  | O_MPC_TMC_REQ o => fmapi_mpc_tmc_req.len o
  | O_MPC_TMC_RSP o => fmapi_mpc_tmc_rsp.len o
  | _ => 0
  end.

(** The [msg] member of a tunnel object. *)
Definition tunnel_msg (x : object) : list Z :=
  match x with
  | O_MPC_TMC_REQ o => fmapi_mpc_tmc_req.msg o
  | O_MPC_TMC_RSP o => fmapi_mpc_tmc_rsp.msg o
  | _ => []
  end.

(** The offset of the length field of a tunnel object on the wire:
    bytes 2 and 3 of a request, bytes 0 and 1 of a response. *)
Definition tunnel_len_field (x : object) : Z :=
  match x with
  | O_MPC_TMC_REQ _ => 2
  | _ => 0
  end.

(** The source pointer, when it is not NULL, points to bytes. *)
Definition byte_source (src : ptr buffer) : Prop :=
  match src with
  | Some b => byte_buffer b
  | None => True
  end.

(** ** Names of the enumerations

    The string tables of fmapi.c and the functions that look a value up
    in them. *)

(** The bounds of the enumerations of fmapi.h that index a table. *)
Definition FMMT_MAX : Z := 2.
Definition FMRC_MAX : Z := 23.
Definition FMPS_MAX : Z := 6.
Definition FMPS_INVALID : Z := 0x0F.
Definition FMDV_MAX : Z := 3.
Definition FMDT_MAX : Z := 7.
Definition FMCV_CXL1_1 : Z := 0x01.
Definition FMCV_CXL2_0 : Z := 0x02.
Definition FMLS_MAX : Z := 11.
Definition FMLO_MAX : Z := 2.
Definition FMPO_MAX : Z := 3.
Definition FMVS_DISABLED : Z := 0.
Definition FMVS_ENABLED : Z := 1.
Definition FMVS_INVALID : Z := 0xFF.
Definition FMBS_MAX : Z := 4.
Definition FMUB_MAX : Z := 3.
Definition FMMG_MAX : Z := 3.
Definition FMET_MAX : Z := 2.
Definition FMVT_MAX : Z := 4.
Definition FMMR_MAX : Z := 3.
Definition FMCT_MAX : Z := 2.

(** [enum _FMNW] and [enum _FMSS] take their values from
    linux/pci_regs.h; fmapi.h notes them beside each enumerator. *)
Definition FMNW_X1 : Z := 0x0010.
Definition FMNW_X2 : Z := 0x0020.
Definition FMNW_X4 : Z := 0x0040.
Definition FMNW_X8 : Z := 0x0080.
Definition FMSS_PCIE1 : Z := 0x02.
Definition FMSS_PCIE2 : Z := 0x04.
Definition FMSS_PCIE3 : Z := 0x08.
Definition FMSS_PCIE4 : Z := 0x10.
Definition FMSS_PCIE5 : Z := 0x20.
Definition FMSS_PCIE6 : Z := 0x40.

Definition STR_FMMT : list string := ["Request"; "Response"]%string.

Definition STR_FMOP_1 : list string :=
  ["Identify Switch Device"; "Get Physical Port State";
   "Physical Port Control"; "Send PPB CXL.io Configuration Request"]%string.

Definition STR_FMOP_2 : list string :=
  ["Get Virtual CXL Switch Info"; "Bind vPPB"; "Unbind vPPB";
   "Generate AER Event"]%string.

Definition STR_FMOP_3 : list string :=
  ["Tunnel Management Command"; "Send LD CXL.io Configuration Request";
   "Send LD CXL.io Memory Request"]%string.

Definition STR_FMOP_4 : list string :=
  ["Get LD Info"; "Get LD Allocations"; "Set LD Allocations";
   "Get QOS Control"; "Set QOS Control"; "Get QOS Status";
   "Get QOS Allocated BW"; "Set QOS Allocated BW"; "Get QOS BW Limit";
   "Set QOS BW Limit"]%string.

Definition STR_FMRC : list string :=
  ["Success"; "Background operation started"; "Invalid input"; "Unsupported";
   "Internal error"; "Retry required"; "Busy"; "Media disabled";
   "FW transfer in progress"; "FW transfer out of order";
   "FW authentication failed"; "FW invalid slot";
   "FW activation failed, FW rolled back";
   "FW activation failed, reset requested"; "Invalid handle";
   "Invalid physical address"; "Inject poison limit reached"; "Media failure";
   "Aborted"; "Invalid security state"; "Incorrect passphrase";
   "Unsupported mailbox"; "Invalid payload length"]%string.

Definition STR_FMPS : list string :=
  ["Disabled"; "Binding"; "Unbinding"; "Downstream"; "Upstream"; "Fabric";
   EmptyString; EmptyString; EmptyString; EmptyString; EmptyString;
   EmptyString; EmptyString; EmptyString; EmptyString; "Invalid"]%string.

Definition STR_FMDV : list string := ["NC"; "1.1"; "2.0"]%string.

Definition STR_FMDT : list string :=
  ["None"; "PCIe"; "T1"; "T2"; "T3-SLD"; "T3-MLD"; "Switch"]%string.

Definition STR_FMVC : list string := ["1.1"; "2.0"]%string.

Definition STR_FMNW : list string := ["X1"; "X2"; "X4"; "X8"]%string.

Definition STR_FMSS : list string :=
  ["PCIe1"; "PCIe2"; "PCIe3"; "PCIe4"; "PCIe5"; "PCIe6"]%string.

Definition STR_FMLS : list string :=
  ["Detect"; "Polling"; "Configuration"; "Recovery"; "L0"; "L0s"; "L1"; "L2";
   "Disabled"; "Loopback"; "Hot Reset"]%string.

Definition STR_FMLF : list string := ["Lane Reversal"; "PERST"; "PRSNT"; "PWRCTL"]%string.

Definition STR_FMLO : list string :=
  ["Lane Standard ordering"; "Lane Reverse Ordering"]%string.

Definition STR_FMPO : list string := ["Assert"; "Deassert"; "Reset"]%string.

Definition STR_FMVS : list string := ["Disabled"; "Enabled"; "Invalid"]%string.

Definition STR_FMBS : list string :=
  ["Unbound"; "In Progress"; "Bound Physical Port"; "Bound LD"]%string.

Definition STR_FMUB : list string :=
  ["Wait"; "Managed Hot Remove"; "Surprise Hot Remove"]%string.

Definition STR_FMMG : list string := ["256MB"; "512MB"; "1GB"]%string.

Definition STR_FMQT : list string :=
  ["Egress Port Congestion"; "Temporary Throughput Reduction"]%string.

Definition STR_FMET : list string :=
  ["Link Status Change"; "Slot Status Register Updated"]%string.

Definition STR_FMVT : list string :=
  ["Binding Change"; "Secondary Bus Reset"; "Link Control Register Updated";
   "Slot Control Register Updatead"]%string.

Definition STR_FMMR : list string :=
  ["Correctable Message Received"; "Non-Fatal Message Received";
   "Fatal Message Received"]%string.

Definition STR_FMCT : list string := ["Read"; "Write"]%string.

(** What a [const char *] function of the tables returns: NULL, a
    string of a table, or what lies behind the last entry of a table. *)
Inductive name : Type :=
| Null
| Name (s : string)
| Past_table.

(** [table[i]]. *)
Definition entry (table : list string) (i : Z) : name :=
  if (0 <=? i) && (i <? Z.of_nat (length table))
  then Name (nth (Z.to_nat i) table EmptyString)
  else Past_table.

Definition fmbs (u : Z) : name := if FMBS_MAX <=? u then Null else entry STR_FMBS u.
Definition fmct (u : Z) : name := if FMCT_MAX <=? u then Null else entry STR_FMCT u.
Definition fmdt (u : Z) : name := if FMDT_MAX <=? u then Null else entry STR_FMDT u.
Definition fmdv (u : Z) : name := if FMDV_MAX <=? u then Null else entry STR_FMDV u.
Definition fmet (u : Z) : name := if FMET_MAX <=? u then Null else entry STR_FMET u.

Definition fmlf (u : Z) : name :=
  if u =? FMLF_LANE_REVERSAL_BIT then entry STR_FMLF 0
  else if u =? FMLF_PERST_STATE_BIT then entry STR_FMLF 1
  else if u =? FMLF_PRSNT_STATE_BIT then entry STR_FMLF 2
  else if u =? FMLF_PWRCTL_STATE_BIT then entry STR_FMLF 3
  else Null.

Definition fmlo (u : Z) : name := if FMLO_MAX <=? u then Null else entry STR_FMLO u.
Definition fmls (u : Z) : name := if FMLS_MAX <=? u then Null else entry STR_FMLS u.
Definition fmmg (u : Z) : name := if FMMG_MAX <=? u then Null else entry STR_FMMG u.
Definition fmmr (u : Z) : name := if FMMR_MAX <=? u then Null else entry STR_FMMR u.
Definition fmmt (u : Z) : name := if FMMT_MAX <=? u then Null else entry STR_FMMT u.

(* the default case takes index 4 *)
Definition fmnw (u : Z) : name :=
  let i := if u =? FMNW_X1 then 0
           else if u =? FMNW_X2 then 1
           else if u =? FMNW_X4 then 2
           else if u =? FMNW_X8 then 3
           else 4 in
  entry STR_FMNW i.

Definition fmop (u : Z) : name :=
  let group := Z.land (Z.shiftr u 8) 0x0F in
  let u := Z.land u 0x00FF in
  if group =? 1 then (if 4 <=? u then Null else entry STR_FMOP_1 u)
  else if group =? 2 then (if 4 <=? u then Null else entry STR_FMOP_2 u)
  else if group =? 3 then (if 3 <=? u then Null else entry STR_FMOP_3 u)
  else if group =? 4 then (if 10 <=? u then Null else entry STR_FMOP_4 u)
  else Null.

Definition fmpo (u : Z) : name := if FMPO_MAX <=? u then Null else entry STR_FMPO u.

Definition fmps (u : Z) : name :=
  if u =? FMPS_INVALID then entry STR_FMPS FMPS_MAX
  else if FMPS_MAX <=? u then Null else entry STR_FMPS u.

Definition fmqt (u : Z) : name :=
  if u =? FMQT_EGRESS_PORT_CONGESTION_BIT then entry STR_FMQT 0
  else if u =? FMQT_TEMP_THROUGHPUT_REDUCTION_BIT then entry STR_FMQT 1
  else Null.

Definition fmrc (u : Z) : name := if FMRC_MAX <=? u then Null else entry STR_FMRC u.

Definition fmss (u : Z) : name :=
  if u =? FMSS_PCIE1 then entry STR_FMSS 0
  else if u =? FMSS_PCIE2 then entry STR_FMSS 1
  else if u =? FMSS_PCIE3 then entry STR_FMSS 2
  else if u =? FMSS_PCIE4 then entry STR_FMSS 3
  else if u =? FMSS_PCIE5 then entry STR_FMSS 4
  else if u =? FMSS_PCIE6 then entry STR_FMSS 5
  else Null.

(* the table read is STR_FMSS *)
Definition fmub (u : Z) : name := if FMUB_MAX <=? u then Null else entry STR_FMSS u.

Definition fmvs (u : Z) : name :=
  if u =? FMVS_DISABLED then entry STR_FMVS 0
  else if u =? FMVS_ENABLED then entry STR_FMVS 1
  else if u =? FMVS_INVALID then entry STR_FMVS 2
  else Null.

Definition fmvc (u : Z) : name :=
  if u =? FMCV_CXL1_1 then entry STR_FMVC 0
  else if u =? FMCV_CXL2_0 then entry STR_FMVC 1
  else Null.

Definition fmvt (u : Z) : name := if FMVT_MAX <=? u then Null else entry STR_FMVT u.

(** The functions that test their argument against the bound of the
    enumeration before they index the table, each with its table and
    the bound it tests. *)
Definition checked_tables : list ((Z -> name) * list string * Z) :=
  [ (fmbs, STR_FMBS, FMBS_MAX); (fmct, STR_FMCT, FMCT_MAX);
    (fmdt, STR_FMDT, FMDT_MAX); (fmdv, STR_FMDV, FMDV_MAX);
    (fmet, STR_FMET, FMET_MAX); (fmlo, STR_FMLO, FMLO_MAX);
    (fmls, STR_FMLS, FMLS_MAX); (fmmg, STR_FMMG, FMMG_MAX);
    (fmmr, STR_FMMR, FMMR_MAX); (fmmt, STR_FMMT, FMMT_MAX);
    (fmpo, STR_FMPO, FMPO_MAX); (fmrc, STR_FMRC, FMRC_MAX);
    (fmvt, STR_FMVT, FMVT_MAX) ].

(** The functions that pick the index in a [switch], each with its
    table and the values that have a [case]. *)
Definition switched_tables : list ((Z -> name) * list string * list Z) :=
  [ (fmlf, STR_FMLF, [FMLF_LANE_REVERSAL_BIT; FMLF_PERST_STATE_BIT;
                      FMLF_PRSNT_STATE_BIT; FMLF_PWRCTL_STATE_BIT]);
    (fmqt, STR_FMQT, [FMQT_EGRESS_PORT_CONGESTION_BIT;
                      FMQT_TEMP_THROUGHPUT_REDUCTION_BIT]);
    (fmss, STR_FMSS, [FMSS_PCIE1; FMSS_PCIE2; FMSS_PCIE3; FMSS_PCIE4;
                      FMSS_PCIE5; FMSS_PCIE6]);
    (fmvs, STR_FMVS, [FMVS_DISABLED; FMVS_ENABLED; FMVS_INVALID]);
    (fmvc, STR_FMVC, [FMCV_CXL1_1; FMCV_CXL2_0]) ].

(** ** Vocabulary of the statements on the builders *)



(** The kinds that occur inside other objects only: the header and the
    entries of the arrays. *)
Definition nested_kinds : list Z :=
  [ FMOB_HDR; FMOB_PSC_PORT_INFO; FMOB_VSC_PPB_STAT_BLK; FMOB_VSC_INFO_BLK;
    FMOB_MCC_ALLOC_BLK ].

(** The commands whose request and response are the same struct. *)
Definition same_struct_commands : list Z :=
  [ FMOP_MCC_QOS_CTRL_SET; FMOP_MCC_QOS_BW_ALLOC_SET;
    FMOP_MCC_QOS_BW_LIMIT_SET; FMOP_ISC_MSG_LIMIT_SET ].

(** * Proofs *)

(** ** Integers and bit fields *)

Lemma in_bits_iff w v : in_bits w v = true <-> 0 <= v < 2 ^ w.
Proof. unfold in_bits. rewrite andb_true_iff, Z.leb_le, Z.ltb_lt. tauto. Qed.

Lemma wrap_small w v : 0 <= v < 2 ^ w -> wrap w v = v.
Proof. intros. unfold wrap. now apply Z.mod_small. Qed.

Lemma wrap_range w v : 0 <= w -> 0 <= wrap w v < 2 ^ w.
Proof. intros. unfold wrap. apply Z.mod_pos_bound. now apply Z.pow_pos_nonneg. Qed.

Lemma u8_small v : 0 <= v < 2 ^ 8 -> u8 v = v.
Proof. apply wrap_small. Qed.

Lemma u16_small v : 0 <= v < 2 ^ 16 -> u16 v = v.
Proof. apply wrap_small. Qed.

Lemma is_bytes_Forall l : is_bytes l = true <-> Forall (fun v => 0 <= v < 2 ^ 8) l.
Proof.
  unfold is_bytes. rewrite forallb_forall, Forall_forall.
  split; intros H v Hv; apply in_bits_iff; auto.
Qed.

Lemma has_len_iff {T} (l : list T) n : has_len l n = true <-> Z.of_nat (length l) = n.
Proof. unfold has_len. apply Z.eqb_eq. Qed.

(** Powers of two with a literal exponent, evaluated. *)
Ltac pow2 :=
  repeat match goal with
  | |- context [2 ^ ?k] =>
      let r := eval vm_compute in (2 ^ k) in change (2 ^ k) with r
  | H : context [2 ^ ?k] |- _ =>
      let r := eval vm_compute in (2 ^ k) in change (2 ^ k) with r in H
  end.

(** Linear goals over [/] and [mod] by literals. *)
Ltac dm := pow2; Z.div_mod_to_equations; lia.

(** A [wf] hypothesis, taken apart into ranges and lengths. *)
Ltac split_wf H :=
  repeat match type of H with
         | (_ && _) = true =>
             apply andb_prop in H;
             let H' := fresh "W" in destruct H as [H H']
         end;
  repeat match goal with
         | W : in_bits _ _ = true |- _ => apply in_bits_iff in W
         | W : has_len _ _ = true |- _ => apply has_len_iff in W
         | W : (_ <=? _) = true |- _ => apply Z.leb_le in W
         end.

Lemma lor_add a b k :
  0 <= k -> 0 <= b < 2 ^ k -> a mod 2 ^ k = 0 -> Z.lor a b = a + b.
Proof.
  intros Hk Hb Ha. apply Z.or_to_plus.
  rewrite <- (Z.mod_small b (2 ^ k)) by lia.
  assert (a = Z.shiftl (Z.shiftr a k) k) as ->.
  { rewrite Z.shiftl_mul_pow2, Z.shiftr_div_pow2 by lia.
    pose proof (Z.div_mod a (2 ^ k)). lia. }
  Z.bitblast.
Qed.

Lemma land_low x n m : 0 <= n -> m = Z.ones n -> Z.land x m = x mod 2 ^ n.
Proof. intros Hn ->. now apply Z.land_ones. Qed.

Lemma land_mask x lo n m :
  0 <= lo -> 0 <= n -> m = Z.shiftl (Z.ones n) lo ->
  Z.land x m = (x / 2 ^ lo) mod 2 ^ n * 2 ^ lo.
Proof.
  intros Hlo Hn ->.
  rewrite <- Z.shiftl_mul_pow2, <- Z.land_ones, <- Z.shiftr_div_pow2 by lia.
  Z.bitblast.
Qed.

(** Masks, shifts and conversions as [/], [mod] and [*] by powers of two. *)
Ltac to_arith :=
  unfold u8, u16, u32, u64, wrap;
  repeat match goal with
  | |- context [Z.land ?x 255] => rewrite (land_low x 8 255) by (reflexivity || lia)
  | |- context [Z.land ?x 127] => rewrite (land_low x 7 127) by (reflexivity || lia)
  | |- context [Z.land ?x 15] => rewrite (land_low x 4 15) by (reflexivity || lia)
  | |- context [Z.land ?x 1] => rewrite (land_low x 1 1) by (reflexivity || lia)
  | |- context [Z.land ?x 240] => rewrite (land_mask x 4 4 240) by (reflexivity || lia)
  | |- context [Z.land ?x 248] => rewrite (land_mask x 3 5 248) by (reflexivity || lia)
  | |- context [Z.land ?x 128] => rewrite (land_mask x 7 1 128) by (reflexivity || lia)
  end;
  rewrite ?Z.shiftl_mul_pow2, ?Z.shiftr_div_pow2 by lia;
  rewrite ?Z.mod_mod by (apply Z.pow_nonzero; lia).

(** [Z.lor hi lo] as a sum, [lo] below bit [k], [hi] a multiple of [2^k]. *)
Ltac lor_hi_lo k :=
  match goal with
  | |- context [Z.lor ?a ?b] =>
      lazymatch a with context [Z.lor _ _] => fail | _ => idtac end;
      lazymatch b with context [Z.lor _ _] => fail | _ => idtac end;
      rewrite (lor_add a b k) by dm
  end.

(** [Z.lor lo hi] as a sum. *)
Ltac lor_lo_hi k :=
  match goal with
  | |- context [Z.lor ?a ?b] =>
      lazymatch a with context [Z.lor _ _] => fail | _ => idtac end;
      lazymatch b with context [Z.lor _ _] => fail | _ => idtac end;
      rewrite (Z.lor_comm a b), (lor_add b a k) by dm
  end.

Lemma le16 v : 0 <= v < 2 ^ 16 ->
  u16 (Z.lor (Z.shiftl (u8 (Z.land (Z.shiftr v 8) 255)) 8) (u8 (Z.land v 255))) = v.
Proof. intros H. to_arith. lor_hi_lo 8. dm. Qed.

Lemma le16_masked v : 0 <= v < 2 ^ 16 ->
  u16 (Z.lor (Z.shiftl (u8 (Z.land (Z.shiftr v 8) 255)) 8)
             (Z.land (u8 (Z.land v 255)) 255)) = v.
Proof. intros H. to_arith. lor_hi_lo 8. dm. Qed.

Lemma le16_succ v : 0 <= v < 2 ^ 16 ->
  u16 (Z.lor (Z.shiftl (u8 (Z.land (Z.shiftr (v + 1) 8) 255)) 8)
             (u8 (Z.land (v + 1) 255)) - 1) = v.
Proof. intros H. to_arith. lor_hi_lo 8. dm. Qed.

Lemma le32 v : 0 <= v < 2 ^ 32 ->
  u32 (Z.lor (Z.lor (Z.lor
         (Z.shiftl (u8 (Z.land (Z.shiftr v 24) 255)) 24)
         (Z.shiftl (u8 (Z.land (Z.shiftr v 16) 255)) 16))
         (Z.shiftl (u8 (Z.land (Z.shiftr v 8) 255)) 8))
         (u8 (Z.land v 255))) = v.
Proof.
  intros H. to_arith. lor_hi_lo 24. lor_hi_lo 16. lor_hi_lo 8. dm.
Qed.

Lemma le64 v : 0 <= v < 2 ^ 64 ->
  u64 (Z.lor (Z.lor (Z.lor (Z.lor (Z.lor (Z.lor (Z.lor
         (Z.shiftl (u8 (Z.land (Z.shiftr v 56) 255)) 56)
         (Z.shiftl (u8 (Z.land (Z.shiftr v 48) 255)) 48))
         (Z.shiftl (u8 (Z.land (Z.shiftr v 40) 255)) 40))
         (Z.shiftl (u8 (Z.land (Z.shiftr v 32) 255)) 32))
         (Z.shiftl (u8 (Z.land (Z.shiftr v 24) 255)) 24))
         (Z.shiftl (u8 (Z.land (Z.shiftr v 16) 255)) 16))
         (Z.shiftl (u8 (Z.land (Z.shiftr v 8) 255)) 8))
         (u8 (Z.land v 255))) = v.
Proof.
  intros H. to_arith.
  lor_hi_lo 56. lor_hi_lo 48. lor_hi_lo 40. lor_hi_lo 32.
  lor_hi_lo 24. lor_hi_lo 16. lor_hi_lo 8. dm.
Qed.

(** ** Buffers, [memcpy] and loops *)

Lemma memcpy_to_out dst off l n j :
  j < off \/ off + n <= j -> memcpy_to dst off l n j = dst j.
Proof.
  intros H. unfold memcpy_to.
  destruct (Z.leb_spec off j), (Z.ltb_spec j (off + n)); simpl; auto; lia.
Qed.

Lemma memcpy_to_in dst off l n j :
  off <= j < off + n -> memcpy_to dst off l n j = nth (Z.to_nat (j - off)) l 0.
Proof.
  intros H. unfold memcpy_to.
  destruct (Z.leb_spec off j), (Z.ltb_spec j (off + n)); simpl; auto; lia.
Qed.

Lemma map_nth_seq {T} (l : list T) d :
  map (fun i => nth i l d) (seq 0 (length l)) = l.
Proof.
  apply nth_ext with (d := d) (d' := d).
  - now rewrite length_map, length_seq.
  - intros i Hi. rewrite length_map, length_seq in Hi.
    rewrite (nth_indep _ d (nth 0 l d)) by now rewrite length_map, length_seq.
    rewrite (map_nth (fun i => nth i l d)), seq_nth by assumption.
    reflexivity.
Qed.

(** Bytes copied out of a buffer that holds the array are the array. *)
Lemma memcpy_from_elems b' off l n :
  Z.of_nat (length l) = n ->
  (forall j, off <= j < off + n -> b' j = elem 0 l (j - off)) ->
  memcpy_from b' off n = l.
Proof.
  intros Hn Hag. unfold memcpy_from. subst n. rewrite Nat2Z.id.
  rewrite <- (map_nth_seq l 0) at 2.
  apply map_ext_in. intros i Hi. apply in_seq in Hi.
  rewrite Hag by lia. unfold elem. f_equal. lia.
Qed.

Lemma for_loop_app {T} (f : Z -> T) n from acc :
  for_loop n from (fun i acc => acc ++ [f i]) acc
  = acc ++ map (fun k => f (from + Z.of_nat k)) (seq 0 n).
Proof.
  revert from acc. induction n as [|n IH]; intros from acc.
  - simpl. now rewrite app_nil_r.
  - cbn [for_loop]. rewrite IH. cbn [seq map]. rewrite <- app_assoc. cbn [app].
    f_equal. f_equal.
    + f_equal. lia.
    + rewrite <- seq_shift, map_map. apply map_ext. intros k. f_equal. lia.
Qed.

(** The decoding loop over bytes is a [memcpy]. *)
Lemma for_upto_bytes src rv n :
  for_upto n (fun i acc => acc ++ [src (rv + i)]) [] = memcpy_from src rv n.
Proof. unfold for_upto, memcpy_from. now rewrite for_loop_app. Qed.

Lemma for_loop_store (l : list Z) dst rv n from j :
  0 <= from ->
  for_loop n from (fun i dst => store dst (rv + i) (elem 0 l i)) dst j
  = if (rv + from <=? j) && (j <? rv + from + Z.of_nat n)
    then u8 (elem 0 l (j - rv)) else dst j.
Proof.
  revert dst from. induction n as [|n IH]; intros dst from Hfrom.
  - cbn [for_loop].
    destruct (Z.leb_spec (rv + from) j), (Z.ltb_spec j (rv + from + Z.of_nat 0));
      simpl; auto; lia.
  - cbn [for_loop]. rewrite IH by lia. unfold store.
    destruct (Z.leb_spec (rv + (from + 1)) j),
             (Z.ltb_spec j (rv + (from + 1) + Z.of_nat n)),
             (Z.leb_spec (rv + from) j),
             (Z.ltb_spec j (rv + from + Z.of_nat (S n))),
             (Z.eqb_spec j (rv + from)); simpl; try lia; auto.
    subst j. do 2 f_equal. lia.
Qed.

(** The encoding loop over bytes, read back. *)
Lemma for_upto_store_in (l : list Z) dst rv n j :
  0 <= n -> rv <= j < rv + n ->
  for_upto n (fun i dst => store dst (rv + i) (elem 0 l i)) dst j
  = u8 (elem 0 l (j - rv)).
Proof.
  intros Hn Hj. unfold for_upto. rewrite for_loop_store by lia.
  rewrite Z2Nat.id by lia.
  destruct (Z.leb_spec (rv + 0) j), (Z.ltb_spec j (rv + 0 + n)); simpl; auto; lia.
Qed.

Lemma for_upto_store_out (l : list Z) dst rv n j :
  0 <= n -> j < rv \/ rv + n <= j ->
  for_upto n (fun i dst => store dst (rv + i) (elem 0 l i)) dst j = dst j.
Proof.
  intros Hn Hj. unfold for_upto. rewrite for_loop_store by lia.
  rewrite Z2Nat.id by lia.
  destruct (Z.leb_spec (rv + 0) j), (Z.ltb_spec j (rv + 0 + n)); simpl; auto; lia.
Qed.

(** The same for bytes that went through a store each. *)
Lemma memcpy_from_stored b' off l n :
  Z.of_nat (length l) = n -> is_bytes l = true ->
  (forall j, off <= j < off + n -> b' j = u8 (elem 0 l (j - off))) ->
  memcpy_from b' off n = l.
Proof.
  intros Hn Hb Hag. apply memcpy_from_elems; [assumption|].
  intros j Hj. rewrite Hag by assumption.
  apply u8_small. apply is_bytes_Forall in Hb.
  rewrite Forall_forall in Hb. apply Hb, nth_In. lia.
Qed.

(** ** Arrays of encoded entries

    One entry kind, given by its case of [fmapi_serialize] ([ser]), its
    case of [fmapi_deserialize] ([deser i] for entry [i]) and the length
    of an entry on the wire. *)
Section Each.
Context {T : Type}.
Variable ser : buffer -> T -> Z * buffer.
Variable deser : Z -> buffer -> Z * T.
Variable d : T.
Variable len_of : T -> Z.
Variable good : T -> Prop.

Hypothesis ser_len : forall b e, good e -> fst (ser b e) = len_of e.
Hypothesis len_nonneg : forall e, good e -> 0 <= len_of e.
Hypothesis ser_frame :
  forall b e j, good e -> j < 0 \/ len_of e <= j -> snd (ser b e) j = b j.
Hypothesis deser_ser :
  forall i b e b', good e ->
    agree 0 (len_of e) b' (snd (ser b e)) -> deser i b' = (len_of e, e).

Lemma span_nonneg l : Forall good l -> 0 <= span len_of l.
Proof.
  induction 1 as [|e l He _ IH]; cbn [span fold_right]; [lia|].
  specialize (len_nonneg e He). unfold span in IH. lia.
Qed.

(** The encoding loop is a fold over the entries. *)
Lemma ser_loop_fold l2 : forall l1 st,
  for_loop (length l2) (Z.of_nat (length l1))
           (fun i st => ser_entry ser (elem d (l1 ++ l2) i) st) st
  = fold_left (fun st e => ser_entry ser e st) l2 st.
Proof.
  induction l2 as [|e l2 IH]; intros l1 st; [reflexivity|].
  cbn [length for_loop fold_left]. unfold elem at 2.
  rewrite Nat2Z.id, nth_middle.
  replace (l1 ++ e :: l2) with ((l1 ++ [e]) ++ l2)
    by (rewrite <- app_assoc; reflexivity).
  replace (Z.of_nat (length l1) + 1) with (Z.of_nat (length (l1 ++ [e])))
    by (rewrite length_app; cbn [length]; lia).
  apply IH.
Qed.

Lemma ser_each_fold l st :
  ser_each ser d l (Z.of_nat (length l)) st
  = fold_left (fun st e => ser_entry ser e st) l st.
Proof.
  unfold ser_each, for_upto. rewrite Nat2Z.id. apply (ser_loop_fold l []).
Qed.

Lemma ser_entry_eq e rv dst : good e ->
  ser_entry ser e (rv, dst)
  = (rv + len_of e, unshift (snd (ser (shift dst rv) e)) rv).
Proof.
  intros He. unfold ser_entry. rewrite <- (ser_len (shift dst rv) e He).
  now destruct (ser (shift dst rv) e).
Qed.

(** Where the loop leaves [rv], and which bytes it leaves alone. *)
Lemma ser_fold_spec l : forall rv dst, Forall good l ->
  fst (fold_left (fun st e => ser_entry ser e st) l (rv, dst))
  = rv + span len_of l
  /\ forall j, j < rv \/ rv + span len_of l <= j ->
       snd (fold_left (fun st e => ser_entry ser e st) l (rv, dst)) j = dst j.
Proof.
  induction l as [|e l IH]; intros rv dst Hl; cbn [fold_left span fold_right].
  - cbn [fst snd]. split; [lia | reflexivity].
  - inversion Hl as [|? ? He Hl']; subst.
    pose proof (len_nonneg e He) as Hlen. pose proof (span_nonneg l Hl') as Hsp.
    fold (span len_of l). rewrite ser_entry_eq by assumption.
    destruct (IH (rv + len_of e) (unshift (snd (ser (shift dst rv) e)) rv) Hl')
      as [H1 H2].
    split; [lia|].
    intros j Hj. rewrite H2 by lia. unfold unshift.
    rewrite ser_frame by (assumption || lia). unfold shift. f_equal. lia.
Qed.

Lemma ser_each_spec l rv dst : Forall good l ->
  fst (ser_each ser d l (Z.of_nat (length l)) (rv, dst)) = rv + span len_of l
  /\ forall j, j < rv \/ rv + span len_of l <= j ->
       snd (ser_each ser d l (Z.of_nat (length l)) (rv, dst)) j = dst j.
Proof. intros Hl. rewrite ser_each_fold. now apply ser_fold_spec. Qed.

(** Decoding what the encoding loop wrote, from any buffer that holds
    those bytes. *)
Lemma deser_loop_fold l : forall rv dst b' acc from, Forall good l ->
  agree rv (rv + span len_of l) b'
        (snd (fold_left (fun st e => ser_entry ser e st) l (rv, dst))) ->
  for_loop (length l) from (fun i st => deser_entry (deser i) b' st) (rv, acc)
  = (rv + span len_of l, acc ++ l).
Proof.
  induction l as [|e l IH]; intros rv dst b' acc from Hl Hag;
    cbn [length for_loop fold_left span fold_right] in *.
  - rewrite app_nil_r. f_equal. lia.
  - inversion Hl as [|? ? He Hl']; subst.
    pose proof (len_nonneg e He) as Hlen. pose proof (span_nonneg l Hl') as Hsp.
    fold (span len_of l) in *. rewrite ser_entry_eq in Hag by assumption.
    destruct (ser_fold_spec l (rv + len_of e)
                (unshift (snd (ser (shift dst rv) e)) rv) Hl') as [_ Hfr].
    unfold deser_entry at 2.
    rewrite (deser_ser from (shift dst rv) e (shift b' rv) He).
    + rewrite (IH (rv + len_of e) (unshift (snd (ser (shift dst rv) e)) rv)
                  b' (acc ++ [e]) (from + 1) Hl').
      * rewrite <- app_assoc. cbn [app]. f_equal. lia.
      * intros j Hj. apply Hag. lia.
    + intros j Hj. unfold shift at 1. rewrite Hag by lia. rewrite Hfr by lia.
      unfold unshift. f_equal. lia.
Qed.

Lemma deser_each_ser_each l rv dst b' : Forall good l ->
  agree rv (rv + span len_of l) b'
        (snd (ser_each ser d l (Z.of_nat (length l)) (rv, dst))) ->
  deser_each deser b' (Z.of_nat (length l)) rv = (rv + span len_of l, l).
Proof.
  intros Hl Hag. rewrite ser_each_fold in Hag.
  unfold deser_each, for_upto. rewrite Nat2Z.id.
  now rewrite (deser_loop_fold l rv dst b' [] 0 Hl Hag).
Qed.
End Each.

(** Entries of one fixed length. *)
Lemma span_const {T} (l : list T) k :
  span (fun _ => k) l = k * Z.of_nat (length l).
Proof.
  induction l as [|e l IH]; cbn [span fold_right length]; [lia|].
  unfold span in IH. rewrite IH. lia.
Qed.

(** Arrays whose entries all take [k] bytes and are decoded from those
    bytes alone. *)
Lemma fixed_entries {T} (ser : buffer -> T -> Z * buffer)
    (deser : buffer -> Z * T) (d : T) (k : Z) (wf : T -> bool) :
  0 <= k ->
  (forall b e, fst (ser b e) = k) ->
  (forall b e j, j < 0 \/ k <= j -> snd (ser b e) j = b j) ->
  (forall b1 b2, agree 0 k b1 b2 -> deser b1 = deser b2) ->
  (forall b e, wf e = true -> deser (snd (ser b e)) = (k, e)) ->
  forall l rv dst, forallb wf l = true ->
    fst (ser_each ser d l (Z.of_nat (length l)) (rv, dst))
    = rv + k * Z.of_nat (length l)
    /\ (forall j, j < rv \/ rv + k * Z.of_nat (length l) <= j ->
          snd (ser_each ser d l (Z.of_nat (length l)) (rv, dst)) j = dst j)
    /\ (forall b', agree rv (rv + k * Z.of_nat (length l)) b'
                     (snd (ser_each ser d l (Z.of_nat (length l)) (rv, dst))) ->
          deser_each (fun _ => deser) b' (Z.of_nat (length l)) rv
          = (rv + k * Z.of_nat (length l), l)).
Proof.
  intros Hk Hlen Hframe Hlocal Hrt l rv dst Hl.
  assert (Forall (fun e => wf e = true) l) as Hl'
    by (apply Forall_forall; now apply forallb_forall).
  rewrite <- (span_const l k).
  pose proof (ser_each_spec ser d (fun _ => k) (fun e => wf e = true)
                (fun b e _ => Hlen b e) (fun _ _ => Hk)
                (fun b e j _ => Hframe b e j) l rv dst Hl') as [H1 H2].
  repeat split; try assumption.
  intros b' Hag.
  apply (deser_each_ser_each ser (fun _ => deser) d (fun _ => k)
           (fun e => wf e = true)
           (fun b e _ => Hlen b e) (fun _ _ => Hk)
           (fun b e j _ => Hframe b e j)) with (dst := dst); try assumption.
  intros _ b e b0 He Hb0. rewrite (Hlocal b0 (snd (ser b e)) Hb0). now apply Hrt.
Qed.

(** ** Packed members *)

Lemma bit_cases x : 0 <= x < 2 ^ 1 -> x = 0 \/ x = 1.
Proof. pow2. lia. Qed.

(** One-bit members, by cases. *)
Ltac bits :=
  repeat match goal with
         | H : 0 <= ?x < 2 ^ 1 |- _ =>
             destruct (bit_cases x H); subst x; clear H
         end;
  reflexivity.

Lemma hdr_category v : 0 <= v < 2 ^ 4 ->
  wrap 4 (Z.land (Z.shiftr (u8 (Z.land (Z.shiftl v 4) 240)) 4) 15) = v.
Proof. intros H. to_arith. dm. Qed.

Lemma hdr_background l g : 0 <= l < 2 ^ 21 -> 0 <= g < 2 ^ 1 ->
  wrap 1 (Z.land (u8 (Z.lor (Z.land (Z.shiftr l 13) 248) (Z.land g 1))) 1) = g.
Proof. intros H G. to_arith. lor_hi_lo 3. dm. Qed.

Lemma hdr_len l g : 0 <= l < 2 ^ 21 -> 0 <= g < 2 ^ 1 ->
  wrap 21 (Z.lor (Z.lor
     (Z.shiftl (Z.land (u8 (Z.lor (Z.land (Z.shiftr l 13) 248) (Z.land g 1))) 248) 13)
     (Z.shiftl (u8 (Z.land (Z.shiftr l 8) 255)) 8))
     (u8 (Z.land l 255))) = l.
Proof. intros H G. to_arith. lor_hi_lo 3. lor_hi_lo 16. lor_hi_lo 8. dm. Qed.

Lemma bos_running p r : 0 <= p < 2 ^ 7 -> 0 <= r < 2 ^ 1 ->
  u8 (Z.land (u8 (Z.lor (Z.shiftl p 1) (Z.land r 1))) 1) = r.
Proof. intros P R. to_arith. lor_hi_lo 1. dm. Qed.

Lemma bos_pcnt p r : 0 <= p < 2 ^ 7 -> 0 <= r < 2 ^ 1 ->
  u8 (Z.land (Z.shiftr (u8 (Z.lor (Z.shiftl p 1) (Z.land r 1))) 1) 127) = p.
Proof. intros P R. to_arith. lor_hi_lo 1. dm. Qed.

Lemma cfg_ext f e : 0 <= f < 2 ^ 4 -> 0 <= e < 2 ^ 4 ->
  wrap 4 (Z.land (u8 (Z.lor (Z.land (Z.shiftl f 4) 240) (Z.land e 15))) 15) = e.
Proof. intros F E. to_arith. lor_hi_lo 4. dm. Qed.

Lemma cfg_fdbe f e : 0 <= f < 2 ^ 4 -> 0 <= e < 2 ^ 4 ->
  wrap 4 (Z.land (Z.shiftr (u8 (Z.lor (Z.land (Z.shiftl f 4) 240) (Z.land e 15))) 4) 15) = f.
Proof. intros F E. to_arith. lor_hi_lo 4. dm. Qed.

Lemma cfg_type t : 0 <= t < 2 ^ 1 ->
  wrap 1 (Z.land (Z.shiftr (u8 (Z.land (Z.shiftl t 7) 128)) 7) 1) = t.
Proof. intros H. to_arith. dm. Qed.

Lemma mem_fdbe f : 0 <= f < 2 ^ 4 ->
  wrap 4 (Z.land (Z.shiftr (u8 (Z.land (Z.shiftl f 4) 240)) 4) 15) = f.
Proof. intros H. to_arith. dm. Qed.

Lemma mem_ldbe t l : 0 <= t < 2 ^ 1 -> 0 <= l < 2 ^ 4 ->
  wrap 4 (Z.land (u8 (Z.lor (Z.land (Z.shiftl t 7) 128) (Z.land l 15))) 15) = l.
Proof. intros H L. to_arith. lor_hi_lo 7. dm. Qed.

Lemma mem_type t l : 0 <= t < 2 ^ 1 -> 0 <= l < 2 ^ 4 ->
  wrap 1 (Z.land (Z.shiftr (u8 (Z.lor (Z.land (Z.shiftl t 7) 128) (Z.land l 15))) 7) 1) = t.
Proof. intros H L. to_arith. lor_hi_lo 7. dm. Qed.

Lemma nibble_of_byte v : 0 <= v < 2 ^ 4 -> wrap 4 (u8 v) = v.
Proof. intros H. to_arith. dm. Qed.

Lemma byte_of_byte v : 0 <= v < 2 ^ 8 -> wrap 8 (u8 v) = v.
Proof. intros H. to_arith. dm. Qed.

Lemma four_bytes l : Z.of_nat (length l) = 4 -> is_bytes l = true ->
  [u8 (elem 0 l 0); u8 (elem 0 l 1); u8 (elem 0 l 2); u8 (elem 0 l 3)] = l.
Proof.
  intros Hl Hb. destruct l as [|a [|b [|c [|d [|? ?]]]]]; cbn [length] in Hl; try lia.
  apply is_bytes_Forall in Hb.
  repeat match goal with H : Forall _ (_ :: _) |- _ => inversion H; clear H; subst end.
  unfold elem. cbn. now rewrite !u8_small.
Qed.

(** The members decoded from the bytes their encoding wrote. *)
Ltac fields :=
  repeat match goal with
  | |- context [u64 (Z.lor (Z.lor (Z.lor (Z.lor (Z.lor (Z.lor (Z.lor
         (Z.shiftl (u8 (Z.land (Z.shiftr ?v 56) 255)) 56) _) _) _) _) _) _) _)] =>
      rewrite (le64 v) by assumption
  | |- context [u32 (Z.lor (Z.lor (Z.lor
         (Z.shiftl (u8 (Z.land (Z.shiftr ?v 24) 255)) 24) _) _) _)] =>
      rewrite (le32 v) by assumption
  | |- context [u16 (Z.lor (Z.shiftl (u8 (Z.land (Z.shiftr ?v 8) 255)) 8)
                           (u8 (Z.land ?v 255)))] =>
      rewrite (le16 v) by assumption
  | |- context [u16 (Z.lor (Z.shiftl (u8 (Z.land (Z.shiftr ?v 8) 255)) 8)
                           (Z.land (u8 (Z.land ?v 255)) 255))] =>
      rewrite (le16_masked v) by assumption
  | |- context [wrap 4 (Z.land (u8 (Z.lor (Z.land (Z.shiftl ?f 4) 240) (Z.land ?e 15))) 15)] =>
      rewrite (cfg_ext f e) by assumption
  | |- context [wrap 4 (Z.land (Z.shiftr (u8 (Z.lor (Z.land (Z.shiftl ?f 4) 240) (Z.land ?e 15))) 4) 15)] =>
      rewrite (cfg_fdbe f e) by assumption
  | |- context [wrap 1 (Z.land (Z.shiftr (u8 (Z.land (Z.shiftl ?t 7) 128)) 7) 1)] =>
      rewrite (cfg_type t) by assumption
  | |- context [[u8 (elem 0 ?l 0); u8 (elem 0 ?l 1); u8 (elem 0 ?l 2); u8 (elem 0 ?l 3)]] =>
      rewrite (four_bytes l) by assumption
  | |- context [wrap 4 (u8 ?v)] => rewrite (nibble_of_byte v) by assumption
  | |- context [wrap 8 (u8 ?v)] => rewrite (byte_of_byte v) by assumption
  | |- context [u8 ?v] => rewrite (u8_small v) by assumption
  end.

(** A fixed layout: take [wf] apart, read the written bytes back, decode
    the members. *)
Ltac fixed_layout :=
  let b := fresh "b" in let o := fresh "o" in let H := fresh "H" in
  intros b o H;
  match type of H with ?wf o = true => unfold wf in H end; split_wf H;
  match goal with |- ?deser (snd (?ser b o)) = _ => unfold deser, ser end;
  cbv [fst snd store Z.eqb Pos.eqb
       FMLF_LANE_REVERSAL_BIT FMLF_PERST_STATE_BIT FMLF_PRSNT_STATE_BIT
       FMLF_PWRCTL_STATE_BIT FMQT_EGRESS_PORT_CONGESTION_BIT
       FMQT_TEMP_THROUGHPUT_REDUCTION_BIT].

(** Decoding reads only the bytes of the fixed layout. *)
Ltac reads_only :=
  let b1 := fresh "b" in let b2 := fresh "b" in let H := fresh "H" in
  intros b1 b2 H;
  match goal with |- ?deser b1 = _ => unfold deser end;
  unfold agree in H; rewrite !H by (cbv; intuition congruence); reflexivity.

(** ** Round trips of the fixed layouts *)

Lemma hdr_roundtrip b o : fmapi_hdr.wf o = true ->
  fmapi_hdr.deserialize (snd (fmapi_hdr.serialize b o)) = (FMLN_HDR, o).
Proof.
  revert b o. fixed_layout.
  rewrite hdr_category, hdr_background, hdr_len by assumption.
  fields. now destruct o.
Qed.

Lemma isc_bos_roundtrip b o : fmapi_isc_bos.wf o = true ->
  fmapi_isc_bos.deserialize (snd (fmapi_isc_bos.serialize b o)) = (FMLN_ISC_BOS, o).
Proof.
  revert b o. fixed_layout.
  rewrite bos_running, bos_pcnt by assumption.
  fields. now destruct o.
Qed.

Lemma isc_id_rsp_roundtrip b o : fmapi_isc_id_rsp.wf o = true ->
  fmapi_isc_id_rsp.deserialize (snd (fmapi_isc_id_rsp.serialize b o))
  = (FMLN_ISC_ID_RSP, o).
Proof. revert b o. fixed_layout. fields. now destruct o. Qed.

Lemma isc_msg_limit_roundtrip b o : fmapi_isc_msg_limit.wf o = true ->
  fmapi_isc_msg_limit.deserialize (snd (fmapi_isc_msg_limit.serialize b o))
  = (FMLN_ISC_MSG_LIMIT, o).
Proof. revert b o. fixed_layout. fields. now destruct o. Qed.

(** A one-bit member is 0 or 1: both cases, by evaluation. *)
Ltac flag_cases o :=
  repeat match goal with
         | H : 0 <= ?x < 2 ^ 1 |- _ =>
             let E := fresh "E" in
             destruct (bit_cases x H) as [E|E]; rewrite E; revert E; clear H
         end;
  intros; destruct o; cbn in *; subst; reflexivity.

Lemma psc_port_info_roundtrip b o : fmapi_psc_port_info.wf o = true ->
  fmapi_psc_port_info.deserialize (snd (fmapi_psc_port_info.serialize b o))
  = (FMLN_PSC_GET_PHY_PORT_INFO, o).
Proof. revert b o. fixed_layout. fields. flag_cases o. Qed.

Lemma psc_port_ctrl_req_roundtrip b o : fmapi_psc_port_ctrl_req.wf o = true ->
  fmapi_psc_port_ctrl_req.deserialize (snd (fmapi_psc_port_ctrl_req.serialize b o))
  = (FMLN_PSC_PHY_PORT_CTRL, o).
Proof. revert b o. fixed_layout. fields. now destruct o. Qed.

Lemma psc_cfg_req_roundtrip b o : fmapi_psc_cfg_req.wf o = true ->
  fmapi_psc_cfg_req.deserialize (snd (fmapi_psc_cfg_req.serialize b o))
  = (FMLN_PSC_PPB_IO_CFG_REQ, o).
Proof. revert b o. fixed_layout. fields. now destruct o. Qed.

Lemma psc_cfg_rsp_roundtrip b o : fmapi_psc_cfg_rsp.wf o = true ->
  fmapi_psc_cfg_rsp.deserialize (snd (fmapi_psc_cfg_rsp.serialize b o))
  = (FMLN_PSC_PPB_IO_CFG_RESP, o).
Proof. revert b o. fixed_layout. fields. now destruct o. Qed.

Lemma vsc_ppb_stat_blk_roundtrip b o : fmapi_vsc_ppb_stat_blk.wf o = true ->
  fmapi_vsc_ppb_stat_blk.deserialize (snd (fmapi_vsc_ppb_stat_blk.serialize b o))
  = (FMLN_VSC_PPB_STATUS, o).
Proof. revert b o. fixed_layout. fields. now destruct o. Qed.

Lemma vsc_bind_req_roundtrip b o : fmapi_vsc_bind_req.wf o = true ->
  fmapi_vsc_bind_req.deserialize (snd (fmapi_vsc_bind_req.serialize b o))
  = (FMLN_VSC_BIND, o).
Proof. revert b o. fixed_layout. fields. now destruct o. Qed.

Lemma vsc_unbind_req_roundtrip b o : fmapi_vsc_unbind_req.wf o = true ->
  fmapi_vsc_unbind_req.deserialize (snd (fmapi_vsc_unbind_req.serialize b o))
  = (FMLN_VSC_UNBIND, o).
Proof. revert b o. fixed_layout. fields. now destruct o. Qed.

Lemma mpc_cfg_req_roundtrip b o : fmapi_mpc_cfg_req.wf o = true ->
  fmapi_mpc_cfg_req.deserialize (snd (fmapi_mpc_cfg_req.serialize b o))
  = (FMLN_MPC_LD_IO_CFG_REQ, o).
Proof. revert b o. fixed_layout. fields. now destruct o. Qed.

Lemma mpc_cfg_rsp_roundtrip b o : fmapi_mpc_cfg_rsp.wf o = true ->
  fmapi_mpc_cfg_rsp.deserialize (snd (fmapi_mpc_cfg_rsp.serialize b o))
  = (FMLN_MPC_LD_IO_CFG_RESP, o).
Proof. revert b o. fixed_layout. fields. now destruct o. Qed.

Lemma mcc_info_rsp_roundtrip b o : fmapi_mcc_info_rsp.wf o = true ->
  fmapi_mcc_info_rsp.deserialize (snd (fmapi_mcc_info_rsp.serialize b o))
  = (FMLN_MCC_GET_LD_INFO, o).
Proof. revert b o. fixed_layout. fields. flag_cases o. Qed.

Lemma mcc_alloc_blk_roundtrip b o : fmapi_mcc_alloc_blk.wf o = true ->
  fmapi_mcc_alloc_blk.deserialize (snd (fmapi_mcc_alloc_blk.serialize b o))
  = (FMLN_MCC_LD_ALLOC_ENTRY, o).
Proof. revert b o. fixed_layout. fields. now destruct o. Qed.

Lemma mcc_alloc_get_req_roundtrip b o : fmapi_mcc_alloc_get_req.wf o = true ->
  fmapi_mcc_alloc_get_req.deserialize (snd (fmapi_mcc_alloc_get_req.serialize b o))
  = (FMLN_MCC_GET_LD_ALLOC_REQ, o).
Proof. revert b o. fixed_layout. fields. now destruct o. Qed.

Lemma mcc_qos_ctrl_roundtrip b o : fmapi_mcc_qos_ctrl.wf o = true ->
  fmapi_mcc_qos_ctrl.deserialize (snd (fmapi_mcc_qos_ctrl.serialize b o))
  = (FMLN_MCC_QOS_CTRL, o).
Proof. revert b o. fixed_layout. fields. flag_cases o. Qed.

Lemma mcc_qos_stat_rsp_roundtrip b o : fmapi_mcc_qos_stat_rsp.wf o = true ->
  fmapi_mcc_qos_stat_rsp.deserialize (snd (fmapi_mcc_qos_stat_rsp.serialize b o))
  = (FMLN_MCC_QOS_STATUS, o).
Proof. revert b o. fixed_layout. fields. now destruct o. Qed.

Lemma mcc_qos_bw_alloc_get_req_roundtrip b o :
  fmapi_mcc_qos_bw_alloc_get_req.wf o = true ->
  fmapi_mcc_qos_bw_alloc_get_req.deserialize
    (snd (fmapi_mcc_qos_bw_alloc_get_req.serialize b o))
  = (FMLN_MCC_GET_QOS_BW_REQ, o).
Proof. revert b o. fixed_layout. fields. now destruct o. Qed.

Lemma mcc_qos_bw_limit_get_req_roundtrip b o :
  fmapi_mcc_qos_bw_limit_get_req.wf o = true ->
  fmapi_mcc_qos_bw_limit_get_req.deserialize
    (snd (fmapi_mcc_qos_bw_limit_get_req.serialize b o))
  = (FMLN_MCC_GET_QOS_BW_LIMIT_REQ, o).
Proof. revert b o. fixed_layout. fields. now destruct o. Qed.

(** ** Round trips of the layouts with arrays *)

Lemma store_out b i v j : j <> i -> store b i v j = b j.
Proof. unfold store. intros H. apply Z.eqb_neq in H. now rewrite H. Qed.

Lemma store_in b i v : store b i v i = u8 v.
Proof. unfold store. now rewrite Z.eqb_refl. Qed.

(** Reading below or past the bytes a later write touched. *)
Ltac peel :=
  repeat first [ rewrite store_out by lia
               | rewrite memcpy_to_out by lia
               | rewrite for_upto_store_out by lia ].

(** Reading a byte back through the writes that followed its own. *)
Ltac reads :=
  repeat first [ rewrite store_in
               | rewrite store_out by lia
               | rewrite memcpy_to_out by lia
               | rewrite for_upto_store_out by lia ].

(** The bytes of an array member survive the writes that follow it. *)
Ltac kept := let j := fresh "j" in let Hj := fresh "Hj" in
  intros j Hj; peel;
  first [ rewrite memcpy_to_in by lia | rewrite for_upto_store_in by lia ];
  reflexivity.

Lemma psc_id_rsp_roundtrip b o : fmapi_psc_id_rsp.wf o = true ->
  fmapi_psc_id_rsp.deserialize (snd (fmapi_psc_id_rsp.serialize b o))
  = (FMLN_PSC_IDENTIFY_SWITCH, o).
Proof.
  intros H. unfold fmapi_psc_id_rsp.wf in H. split_wf H.
  unfold fmapi_psc_id_rsp.deserialize, fmapi_psc_id_rsp.serialize. cbn [snd].
  rewrite (memcpy_from_elems _ 4 (fmapi_psc_id_rsp.active_ports o) 32)
    by (assumption || kept).
  rewrite (memcpy_from_elems _ 36 (fmapi_psc_id_rsp.active_vcss o) 32)
    by (assumption || kept).
  repeat (cbv [store Z.eqb Pos.eqb]; rewrite ?memcpy_to_out by lia).
  fields. now destruct o.
Qed.

Lemma vsc_aer_req_roundtrip b o : fmapi_vsc_aer_req.wf o = true ->
  fmapi_vsc_aer_req.deserialize (snd (fmapi_vsc_aer_req.serialize b o))
  = (FMLN_VSC_GEN_AER, o).
Proof.
  intros H. unfold fmapi_vsc_aer_req.wf in H. split_wf H.
  unfold fmapi_vsc_aer_req.deserialize, fmapi_vsc_aer_req.serialize. cbn [snd].
  rewrite (memcpy_from_elems _ 8 (fmapi_vsc_aer_req.header o) 32)
    by (assumption || kept).
  repeat (cbv [store Z.eqb Pos.eqb]; rewrite ?memcpy_to_out by lia).
  fields. now destruct o.
Qed.

Lemma psc_port_req_roundtrip b o : fmapi_psc_port_req.wf o = true ->
  fmapi_psc_port_req.deserialize (snd (fmapi_psc_port_req.serialize b o))
  = (fst (fmapi_psc_port_req.serialize b o), o).
Proof.
  intros H. unfold fmapi_psc_port_req.wf in H. split_wf H.
  unfold fmapi_psc_port_req.deserialize, fmapi_psc_port_req.serialize.
  cbn [fst snd]. cbv zeta.
  unfold FMLN_PSC_GET_PHY_PORT_REQ. reads. fields.
  rewrite (memcpy_from_elems _ 1 (fmapi_psc_port_req.ports o)) by (assumption || kept).
  now destruct o.
Qed.

Lemma vsc_info_req_roundtrip b o : fmapi_vsc_info_req.wf o = true ->
  fmapi_vsc_info_req.deserialize (snd (fmapi_vsc_info_req.serialize b o))
  = (fst (fmapi_vsc_info_req.serialize b o), o).
Proof.
  intros H. unfold fmapi_vsc_info_req.wf in H. split_wf H.
  unfold fmapi_vsc_info_req.deserialize, fmapi_vsc_info_req.serialize.
  cbn [fst snd]. cbv zeta.
  reads. fields.
  rewrite (memcpy_from_elems _ 3 (fmapi_vsc_info_req.vcss o)) by (assumption || kept).
  now destruct o.
Qed.

Lemma mpc_tmc_req_roundtrip b o : fmapi_mpc_tmc_req.wf o = true ->
  fmapi_mpc_tmc_req.deserialize (snd (fmapi_mpc_tmc_req.serialize b o))
  = (fst (fmapi_mpc_tmc_req.serialize b o), o).
Proof.
  intros H. unfold fmapi_mpc_tmc_req.wf in H. split_wf H.
  unfold fmapi_mpc_tmc_req.deserialize, fmapi_mpc_tmc_req.serialize.
  cbn [fst snd]. cbv zeta. unfold FMLN_MPC_TUNNEL_CMD_REQ.
  reads. rewrite le16_succ by assumption. fields.
  rewrite (memcpy_from_elems _ 5 (fmapi_mpc_tmc_req.msg o)) by (assumption || kept).
  now destruct o.
Qed.

Lemma mpc_tmc_rsp_roundtrip b o : fmapi_mpc_tmc_rsp.wf o = true ->
  fmapi_mpc_tmc_rsp.deserialize (snd (fmapi_mpc_tmc_rsp.serialize b o))
  = (fst (fmapi_mpc_tmc_rsp.serialize b o), o).
Proof.
  intros H. unfold fmapi_mpc_tmc_rsp.wf in H. split_wf H.
  unfold fmapi_mpc_tmc_rsp.deserialize, fmapi_mpc_tmc_rsp.serialize.
  cbn [fst snd]. cbv zeta. unfold FMLN_MPC_TUNNEL_CMD_REQ, FMLN_MPC_TUNNEL_CMD_RESP.
  reads. rewrite le16_succ by assumption. fields.
  rewrite (memcpy_from_elems _ 5 (fmapi_mpc_tmc_rsp.msg o)) by (assumption || kept).
  now destruct o.
Qed.

Lemma mpc_mem_req_roundtrip b o : fmapi_mpc_mem_req.wf o = true ->
  fmapi_mpc_mem_req.deserialize (snd (fmapi_mpc_mem_req.serialize b o))
  = (fst (fmapi_mpc_mem_req.serialize b o), o).
Proof.
  intros H. unfold fmapi_mpc_mem_req.wf in H. split_wf H.
  unfold fmapi_mpc_mem_req.deserialize, fmapi_mpc_mem_req.serialize.
  cbn [fst snd]. cbv zeta. unfold FMLN_MPC_LD_MEM_REQ.
  reads. rewrite mem_fdbe, mem_ldbe, mem_type by assumption. fields.
  rewrite (memcpy_from_elems _ 16 (fmapi_mpc_mem_req.data o)) by (assumption || kept).
  now destruct o.
Qed.

Lemma mpc_mem_rsp_roundtrip b o : fmapi_mpc_mem_rsp.wf o = true ->
  fmapi_mpc_mem_rsp.deserialize (snd (fmapi_mpc_mem_rsp.serialize b o))
  = (fst (fmapi_mpc_mem_rsp.serialize b o), o).
Proof.
  intros H. unfold fmapi_mpc_mem_rsp.wf in H. split_wf H.
  unfold fmapi_mpc_mem_rsp.deserialize, fmapi_mpc_mem_rsp.serialize.
  cbn [fst snd]. cbv zeta. unfold FMLN_MPC_LD_MEM_RESP.
  reads. fields.
  rewrite (memcpy_from_elems _ 4 (fmapi_mpc_mem_rsp.data o)) by (assumption || kept).
  now destruct o.
Qed.

Lemma mcc_qos_bw_alloc_roundtrip b o : fmapi_mcc_qos_bw_alloc.wf o = true ->
  fmapi_mcc_qos_bw_alloc.deserialize (snd (fmapi_mcc_qos_bw_alloc.serialize b o))
  = (fst (fmapi_mcc_qos_bw_alloc.serialize b o), o).
Proof.
  intros H. unfold fmapi_mcc_qos_bw_alloc.wf in H. split_wf H.
  unfold fmapi_mcc_qos_bw_alloc.deserialize, fmapi_mcc_qos_bw_alloc.serialize.
  cbn [fst snd]. cbv zeta. unfold FMLN_MCC_QOS_BW_ALLOC.
  reads. fields.
  rewrite for_upto_bytes.
  rewrite (memcpy_from_stored _ 2 (fmapi_mcc_qos_bw_alloc.list o))
    by (assumption || kept).
  now destruct o.
Qed.

Lemma mcc_qos_bw_limit_roundtrip b o : fmapi_mcc_qos_bw_limit.wf o = true ->
  fmapi_mcc_qos_bw_limit.deserialize (snd (fmapi_mcc_qos_bw_limit.serialize b o))
  = (fst (fmapi_mcc_qos_bw_limit.serialize b o), o).
Proof.
  intros H. unfold fmapi_mcc_qos_bw_limit.wf in H. split_wf H.
  unfold fmapi_mcc_qos_bw_limit.deserialize, fmapi_mcc_qos_bw_limit.serialize.
  cbn [fst snd]. cbv zeta. unfold FMLN_MCC_QOS_BW_LIMIT.
  reads. fields.
  rewrite for_upto_bytes.
  rewrite (memcpy_from_stored _ 2 (fmapi_mcc_qos_bw_limit.list o))
    by (assumption || kept).
  now destruct o.
Qed.

(** ** Round trips of the layouts with arrays of entries *)

(** A fixed layout is written within its length. *)
Ltac writes_within :=
  let b := fresh "b" in let e := fresh "e" in
  let j := fresh "j" in let Hj := fresh "Hj" in
  intros b e j Hj;
  match goal with |- snd (?ser b e) j = _ => unfold ser end;
  cbn [snd]; rewrite !store_out by lia; reflexivity.

(** A fixed layout is decoded from the bytes within its length. *)
Ltac reads_within :=
  let b1 := fresh "b" in let b2 := fresh "b" in let H := fresh "H" in
  intros b1 b2 H;
  match goal with |- ?deser b1 = _ => unfold deser end;
  unfold agree in H; rewrite !H by lia; reflexivity.

Lemma psc_port_info_entries l rv dst :
  forallb fmapi_psc_port_info.wf l = true ->
  fst (ser_each fmapi_psc_port_info.serialize fmapi_psc_port_info.zero l
                (Z.of_nat (length l)) (rv, dst))
  = rv + 16 * Z.of_nat (length l)
  /\ (forall j, j < rv \/ rv + 16 * Z.of_nat (length l) <= j ->
        snd (ser_each fmapi_psc_port_info.serialize fmapi_psc_port_info.zero l
                      (Z.of_nat (length l)) (rv, dst)) j = dst j)
  /\ (forall b', agree rv (rv + 16 * Z.of_nat (length l)) b'
                   (snd (ser_each fmapi_psc_port_info.serialize
                                  fmapi_psc_port_info.zero l
                                  (Z.of_nat (length l)) (rv, dst))) ->
        deser_each (fun _ => fmapi_psc_port_info.deserialize) b'
                   (Z.of_nat (length l)) rv
        = (rv + 16 * Z.of_nat (length l), l)).
Proof.
  apply fixed_entries; [lia | reflexivity | writes_within | reads_within |].
  intros b e He. now apply psc_port_info_roundtrip.
Qed.

Lemma vsc_ppb_stat_blk_entries l rv dst :
  forallb fmapi_vsc_ppb_stat_blk.wf l = true ->
  fst (ser_each fmapi_vsc_ppb_stat_blk.serialize fmapi_vsc_ppb_stat_blk.zero l
                (Z.of_nat (length l)) (rv, dst))
  = rv + 4 * Z.of_nat (length l)
  /\ (forall j, j < rv \/ rv + 4 * Z.of_nat (length l) <= j ->
        snd (ser_each fmapi_vsc_ppb_stat_blk.serialize fmapi_vsc_ppb_stat_blk.zero l
                      (Z.of_nat (length l)) (rv, dst)) j = dst j)
  /\ (forall b', agree rv (rv + 4 * Z.of_nat (length l)) b'
                   (snd (ser_each fmapi_vsc_ppb_stat_blk.serialize
                                  fmapi_vsc_ppb_stat_blk.zero l
                                  (Z.of_nat (length l)) (rv, dst))) ->
        deser_each (fun _ => fmapi_vsc_ppb_stat_blk.deserialize) b'
                   (Z.of_nat (length l)) rv
        = (rv + 4 * Z.of_nat (length l), l)).
Proof.
  apply fixed_entries; [lia | reflexivity | writes_within | reads_within |].
  intros b e He. now apply vsc_ppb_stat_blk_roundtrip.
Qed.

Lemma mcc_alloc_blk_entries l rv dst :
  forallb fmapi_mcc_alloc_blk.wf l = true ->
  fst (ser_each fmapi_mcc_alloc_blk.serialize fmapi_mcc_alloc_blk.zero l
                (Z.of_nat (length l)) (rv, dst))
  = rv + 16 * Z.of_nat (length l)
  /\ (forall j, j < rv \/ rv + 16 * Z.of_nat (length l) <= j ->
        snd (ser_each fmapi_mcc_alloc_blk.serialize fmapi_mcc_alloc_blk.zero l
                      (Z.of_nat (length l)) (rv, dst)) j = dst j)
  /\ (forall b', agree rv (rv + 16 * Z.of_nat (length l)) b'
                   (snd (ser_each fmapi_mcc_alloc_blk.serialize
                                  fmapi_mcc_alloc_blk.zero l
                                  (Z.of_nat (length l)) (rv, dst))) ->
        deser_each (fun _ => fmapi_mcc_alloc_blk.deserialize) b'
                   (Z.of_nat (length l)) rv
        = (rv + 16 * Z.of_nat (length l), l)).
Proof.
  apply fixed_entries; [lia | reflexivity | writes_within | reads_within |].
  intros b e He. now apply mcc_alloc_blk_roundtrip.
Qed.

Lemma psc_port_rsp_roundtrip b o : fmapi_psc_port_rsp.wf o = true ->
  fmapi_psc_port_rsp.deserialize (snd (fmapi_psc_port_rsp.serialize b o))
  = (fst (fmapi_psc_port_rsp.serialize b o), o).
Proof.
  intros H. unfold fmapi_psc_port_rsp.wf in H. split_wf H.
  unfold fmapi_psc_port_rsp.deserialize, fmapi_psc_port_rsp.serialize.
  cbv zeta. unfold FMLN_PSC_GET_PHY_PORT_RESP.
  destruct (psc_port_info_entries (fmapi_psc_port_rsp.list o) 4
              (store b 0 (fmapi_psc_port_rsp.num o)) W) as (Hfst & Hfr & Hde).
  rewrite W0 in Hfst, Hfr, Hde.
  rewrite Hfr by lia. reads. fields.
  rewrite Hde by (intros j Hj; reflexivity).
  rewrite Hfst. now destruct o.
Qed.

Lemma mcc_alloc_get_rsp_roundtrip b o : fmapi_mcc_alloc_get_rsp.wf o = true ->
  fmapi_mcc_alloc_get_rsp.deserialize (snd (fmapi_mcc_alloc_get_rsp.serialize b o))
  = (fst (fmapi_mcc_alloc_get_rsp.serialize b o), o).
Proof.
  intros H. unfold fmapi_mcc_alloc_get_rsp.wf in H. split_wf H.
  unfold fmapi_mcc_alloc_get_rsp.deserialize, fmapi_mcc_alloc_get_rsp.serialize.
  cbv zeta. unfold FMLN_MCC_GET_LD_ALLOC_RSP.
  match goal with |- context [ser_each _ _ _ _ (4, ?d)] =>
    destruct (mcc_alloc_blk_entries (fmapi_mcc_alloc_get_rsp.list o) 4 d W)
      as (Hfst & Hfr & Hde)
  end.
  rewrite W0 in Hfst, Hfr, Hde.
  rewrite !Hfr by lia. reads. fields.
  rewrite Hde by (intros j Hj; reflexivity).
  rewrite Hfst. now destruct o.
Qed.

Lemma mcc_alloc_set_req_roundtrip b o : fmapi_mcc_alloc_set_req.wf o = true ->
  fmapi_mcc_alloc_set_req.deserialize (snd (fmapi_mcc_alloc_set_req.serialize b o))
  = (fst (fmapi_mcc_alloc_set_req.serialize b o), o).
Proof.
  intros H. unfold fmapi_mcc_alloc_set_req.wf in H. split_wf H.
  unfold fmapi_mcc_alloc_set_req.deserialize, fmapi_mcc_alloc_set_req.serialize.
  cbv zeta. unfold FMLN_MCC_SET_LD_ALLOC_REQ.
  match goal with |- context [ser_each _ _ _ _ (4, ?d)] =>
    destruct (mcc_alloc_blk_entries (fmapi_mcc_alloc_set_req.list o) 4 d W)
      as (Hfst & Hfr & Hde)
  end.
  rewrite W0 in Hfst, Hfr, Hde.
  rewrite !Hfr by lia. reads. fields.
  rewrite Hde by (intros j Hj; reflexivity).
  rewrite Hfst. now destruct o.
Qed.

Lemma mcc_alloc_set_rsp_roundtrip b o : fmapi_mcc_alloc_set_rsp.wf o = true ->
  fmapi_mcc_alloc_set_rsp.deserialize (snd (fmapi_mcc_alloc_set_rsp.serialize b o))
  = (fst (fmapi_mcc_alloc_set_rsp.serialize b o), o).
Proof.
  intros H. unfold fmapi_mcc_alloc_set_rsp.wf in H. split_wf H.
  unfold fmapi_mcc_alloc_set_rsp.deserialize, fmapi_mcc_alloc_set_rsp.serialize.
  cbv zeta. unfold FMLN_MCC_SET_LD_ALLOC_RSP.
  match goal with |- context [ser_each _ _ _ _ (4, ?d)] =>
    destruct (mcc_alloc_blk_entries (fmapi_mcc_alloc_set_rsp.list o) 4 d W)
      as (Hfst & Hfr & Hde)
  end.
  rewrite W0 in Hfst, Hfr, Hde.
  rewrite !Hfr by lia. reads. fields.
  rewrite Hde by (intros j Hj; reflexivity).
  rewrite Hfst. now destruct o.
Qed.

(** *** The virtual switch info block and its request *)

(** The clamp of [fmapi_deserialize] is [clamp]. *)
Lemma clamp_computed r total num :
  is_request r = true -> 0 <= total < 2 ^ 8 -> 0 <= num ->
  clamp r total = num ->
  (if fmapi_vsc_info_req.vppbid_limit r
      <? u8 (total - fmapi_vsc_info_req.vppbid_start r)
   then fmapi_vsc_info_req.vppbid_limit r
   else u8 (total - fmapi_vsc_info_req.vppbid_start r)) = num.
Proof.
  unfold is_request, clamp. intros Hr Ht Hn Hc. split_wf Hr.
  assert (0 <= total - fmapi_vsc_info_req.vppbid_start r < 2 ^ 8) as Hd
    by (pow2; lia).
  rewrite (u8_small _ Hd).
  destruct (Z.ltb_spec (fmapi_vsc_info_req.vppbid_limit r)
                       (total - fmapi_vsc_info_req.vppbid_start r)); lia.
Qed.

(** The length of a block on the wire. *)
Lemma vsc_info_blk_len b e : fmapi_vsc_info_blk.wf e = true ->
  fst (fmapi_vsc_info_blk.serialize b e)
  = 4 + 4 * Z.of_nat (length (fmapi_vsc_info_blk.list e)).
Proof.
  intros H. unfold fmapi_vsc_info_blk.wf in H. split_wf H.
  unfold fmapi_vsc_info_blk.serialize. cbv zeta. unfold FMLN_VSC_INFO.
  rewrite <- W0.
  match goal with |- context [ser_each _ _ _ _ (4, ?d)] =>
    destruct (vsc_ppb_stat_blk_entries (fmapi_vsc_info_blk.list e) 4 d W)
      as (Hfst & _)
  end.
  exact Hfst.
Qed.

(** A block is written within its length. *)
Lemma vsc_info_blk_frame b e j : fmapi_vsc_info_blk.wf e = true ->
  j < 0 \/ 4 + 4 * Z.of_nat (length (fmapi_vsc_info_blk.list e)) <= j ->
  snd (fmapi_vsc_info_blk.serialize b e) j = b j.
Proof.
  intros H Hj. unfold fmapi_vsc_info_blk.wf in H. split_wf H.
  unfold fmapi_vsc_info_blk.serialize. cbv zeta. unfold FMLN_VSC_INFO.
  rewrite <- W0.
  match goal with |- context [ser_each _ _ _ _ (4, ?d)] =>
    destruct (vsc_ppb_stat_blk_entries (fmapi_vsc_info_blk.list e) 4 d W)
      as (_ & Hfr & _)
  end.
  rewrite Hfr by lia. now rewrite !store_out by lia.
Qed.

(** A block decoded against its request from any buffer that holds its
    bytes. *)
Lemma vsc_info_blk_decoded r b e b' :
  is_request r = true -> fmapi_vsc_info_blk.wf e = true ->
  blk_fits r e = true ->
  agree 0 (4 + 4 * Z.of_nat (length (fmapi_vsc_info_blk.list e))) b'
        (snd (fmapi_vsc_info_blk.serialize b e)) ->
  fmapi_vsc_info_blk.deserialize_with r b'
  = (4 + 4 * Z.of_nat (length (fmapi_vsc_info_blk.list e)), e).
Proof.
  intros Hr H Hfit Hag. unfold fmapi_vsc_info_blk.wf in H. split_wf H.
  unfold blk_fits in Hfit. apply Z.eqb_eq in Hfit.
  unfold fmapi_vsc_info_blk.deserialize_with. cbv zeta.
  unfold fmapi_vsc_info_blk.serialize, FMLN_VSC_INFO in *. cbv zeta in Hag.
  match type of Hag with context [ser_each _ _ _ _ (4, ?d)] =>
    destruct (vsc_ppb_stat_blk_entries (fmapi_vsc_info_blk.list e) 4 d W)
      as (_ & Hfr & Hde)
  end.
  rewrite W0 in Hfr, Hde.
  pose proof (Zle_0_nat (length (fmapi_vsc_info_blk.list e))) as Hlen.
  rewrite !(Hag _) by lia. rewrite !Hfr by lia. reads. fields.
  rewrite (clamp_computed r _ (fmapi_vsc_info_blk.num e) Hr) by (assumption || lia).
  rewrite Hde.
  - rewrite W0. now destruct e.
  - intros j Hj. apply Hag. lia.
Qed.

Lemma vsc_info_blk_roundtrip r prior b o :
  is_request r = true -> fmapi_vsc_info_blk.wf o = true ->
  blk_fits r o = true ->
  fmapi_vsc_info_blk.deserialize prior (snd (fmapi_vsc_info_blk.serialize b o))
                                 (Some r)
  = (fst (fmapi_vsc_info_blk.serialize b o), o).
Proof.
  intros Hr H Hfit. rewrite vsc_info_blk_len by assumption.
  cbn [fmapi_vsc_info_blk.deserialize].
  apply vsc_info_blk_decoded with (b := b); try assumption.
  intros j Hj. reflexivity.
Qed.

Lemma vsc_info_rsp_roundtrip r prior b o :
  is_request r = true -> fmapi_vsc_info_rsp.wf o = true ->
  forallb (blk_fits r) (fmapi_vsc_info_rsp.list o) = true ->
  fmapi_vsc_info_rsp.deserialize prior (snd (fmapi_vsc_info_rsp.serialize b o))
                                 (Some r)
  = (fst (fmapi_vsc_info_rsp.serialize b o), o).
Proof.
  intros Hr H Hfit. unfold fmapi_vsc_info_rsp.wf in H. split_wf H.
  set (good := fun e => fmapi_vsc_info_blk.wf e = true /\ blk_fits r e = true).
  set (len_of := fun e => 4 + 4 * Z.of_nat (length (fmapi_vsc_info_blk.list e))).
  assert (Forall good (fmapi_vsc_info_rsp.list o)) as Hl.
  { apply Forall_forall. intros e He. split.
    - now apply (proj1 (forallb_forall _ _) W).
    - now apply (proj1 (forallb_forall _ _) Hfit). }
  assert (forall b e, good e -> fst (fmapi_vsc_info_blk.serialize b e) = len_of e)
    as Hlen by (intros ? ? [? ?]; now apply vsc_info_blk_len).
  assert (forall e, good e -> 0 <= len_of e) as Hnn by (intros; unfold len_of; lia).
  assert (forall b e j, good e -> j < 0 \/ len_of e <= j ->
            snd (fmapi_vsc_info_blk.serialize b e) j = b j)
    as Hfr by (intros ? ? ? [? ?] ?; now apply vsc_info_blk_frame).
  unfold fmapi_vsc_info_rsp.deserialize, fmapi_vsc_info_rsp.serialize.
  cbv zeta. unfold FMLN_VSC_GET_INFO_RESP. rewrite <- W0.
  destruct (ser_each_spec fmapi_vsc_info_blk.serialize fmapi_vsc_info_blk.zero
              len_of good Hlen Hnn Hfr (fmapi_vsc_info_rsp.list o) 4
              (store b 0 (Z.of_nat (length (fmapi_vsc_info_rsp.list o)))) Hl)
    as [Hfst Hout].
  rewrite Hout by lia. reads.
  rewrite (u8_small (Z.of_nat _)) by (rewrite W0; assumption).
  rewrite (deser_each_ser_each fmapi_vsc_info_blk.serialize _
             fmapi_vsc_info_blk.zero len_of good Hlen Hnn Hfr)
    with (dst := store b 0 (Z.of_nat (length (fmapi_vsc_info_rsp.list o)))).
  - rewrite Hfst, W0. now destruct o.
  - intros i b0 e b1 [He1 He2] Hb1. cbn [fmapi_vsc_info_blk.deserialize].
    now apply vsc_info_blk_decoded with (b := b0).
  - assumption.
  - intros j Hj. reflexivity.
Qed.

(** ** The two entry points *)

Lemma kind_of_range x : 0 <= kind_of x < FMOB_MAX.
Proof. destruct x; cbv; intuition congruence. Qed.

(** With valid pointers and the kind of the object, [fmapi_serialize]
    is the case of its switch. *)
Lemma serialize_as dst x : x <> O_NULL ->
  fmapi_serialize (Some dst) (Some x) (kind_of x)
  = let '(rv, out) := serialize_case dst x in Ret rv (Some out).
Proof.
  intros Hx. unfold fmapi_serialize. rewrite Z.eqb_refl.
  destruct x; try contradiction; reflexivity.
Qed.

(** With a valid destination of the kind asked for, [fmapi_deserialize]
    is the case of its switch. *)
Lemma deserialize_as prior src param : prior <> O_NULL ->
  fmapi_deserialize (Some prior) src (kind_of prior) param
  = deserialize_case prior src param.
Proof.
  intros Hx. unfold fmapi_deserialize. rewrite Z.eqb_refl.
  destruct prior; try contradiction; reflexivity.
Qed.

(** One kind's round trip, seen from the switch of [fmapi_deserialize]. *)
Lemma reading_back {T} (ser : buffer -> T -> Z * buffer)
    (deser : buffer -> Z * T) (inj : T -> object) dst o n out :
  ser dst o = (n, out) ->
  deser (snd (ser dst o)) = (fst (ser dst o), o) ->
  reading (Some out) deser inj = Ret n (Some (inj o)).
Proof.
  intros E H. rewrite E in H. cbn [fst snd] in H. unfold reading. now rewrite H.
Qed.

Create HintDb roundtrip.
#[local] Hint Resolve
  hdr_roundtrip isc_bos_roundtrip isc_id_rsp_roundtrip isc_msg_limit_roundtrip
  psc_id_rsp_roundtrip psc_port_req_roundtrip psc_port_info_roundtrip
  psc_port_rsp_roundtrip psc_port_ctrl_req_roundtrip psc_cfg_req_roundtrip
  psc_cfg_rsp_roundtrip vsc_info_req_roundtrip vsc_ppb_stat_blk_roundtrip
  vsc_bind_req_roundtrip vsc_unbind_req_roundtrip vsc_aer_req_roundtrip
  mpc_tmc_req_roundtrip mpc_tmc_rsp_roundtrip mpc_cfg_req_roundtrip
  mpc_cfg_rsp_roundtrip mpc_mem_req_roundtrip mpc_mem_rsp_roundtrip
  mcc_info_rsp_roundtrip mcc_alloc_blk_roundtrip mcc_alloc_get_req_roundtrip
  mcc_alloc_get_rsp_roundtrip mcc_alloc_set_req_roundtrip
  mcc_alloc_set_rsp_roundtrip mcc_qos_ctrl_roundtrip mcc_qos_stat_rsp_roundtrip
  mcc_qos_bw_alloc_get_req_roundtrip mcc_qos_bw_alloc_roundtrip
  mcc_qos_bw_limit_get_req_roundtrip mcc_qos_bw_limit_roundtrip : roundtrip.

(** C1.  Object round trip: for every kind [1 <= type < FMOB_MAX] and
    every well-formed object [x] of that kind (members within their wire
    widths, counts within capacity and equal to the entries held, and,
    for the two virtual switch info kinds, a decode context that is a
    request whose clamp [min(limit, total - start)] is the stored
    number of entries of every block), [fmapi_serialize] of [x] followed
    by [fmapi_deserialize] of the bytes produced, for the same kind and
    into any storage of that kind, yields [x] again, and both calls
    return the same byte count. *)
Theorem serialize_deserialize_roundtrip
    (type : Z) (x prior : object) (dst : buffer)
    (param : ptr fmapi_vsc_info_req.t) :
  1 <= type < FMOB_MAX ->
  kind_of x = type -> kind_of prior = type ->
  well_formed x = true -> context_ok param x = true ->
  exists n out,
    fmapi_serialize (Some dst) (Some x) type = Ret n (Some out)
    /\ fmapi_deserialize (Some prior) (Some out) type param = Ret n (Some x).
Proof.
  intros Ht Hx Hp Hwf Hctx. subst type.
  assert (x <> O_NULL) as Hx0
    by (intros ->; unfold kind_of, FMOB_NULL, FMOB_MAX in Ht; lia).
  assert (prior <> O_NULL) as Hp0
    by (intros ->; rewrite <- Hp in Ht; unfold kind_of, FMOB_NULL, FMOB_MAX in Ht; lia).
  rewrite serialize_as by assumption.
  destruct (serialize_case dst x) as [n out] eqn:E. exists n, out.
  split; [reflexivity|].
  rewrite <- Hp, deserialize_as by assumption.
  clear Ht Hp0.
  destruct x; try congruence; destruct prior; try discriminate Hp;
    cbn [serialize_case deserialize_case well_formed context_ok] in *;
    try (eapply reading_back; [exact E | solve [auto with roundtrip]]).
  - (* FMOB_VSC_INFO_BLK *)
    destruct param as [r|]; [|discriminate].
    apply andb_prop in Hctx. destruct Hctx as [Hr Hfit].
    eapply (reading_back _ (fmapi_vsc_info_blk.deserialize_with r)); [exact E|].
    now apply (vsc_info_blk_roundtrip r o).
  - (* FMOB_VSC_INFO_RSP *)
    destruct param as [r|]; [|discriminate].
    apply andb_prop in Hctx. destruct Hctx as [Hr Hfit].
    eapply (reading_back _ (fun b => fmapi_vsc_info_rsp.deserialize o0 b (Some r)));
      [exact E|].
    now apply vsc_info_rsp_roundtrip.
Qed.

Lemma serialize_deserialize_roundtrip_witness :
  exists n out,
    fmapi_serialize (Some (filled 0))
      (Some (O_VSC_INFO_RSP
         {| fmapi_vsc_info_rsp.num := 1;
            fmapi_vsc_info_rsp.list :=
              [ {| fmapi_vsc_info_blk.vcsid := 1; fmapi_vsc_info_blk.state := 1;
                   fmapi_vsc_info_blk.uspid := 3; fmapi_vsc_info_blk.total := 5;
                   fmapi_vsc_info_blk.num := 3;
                   fmapi_vsc_info_blk.list :=
                     [ fmapi_vsc_ppb_stat_blk.mk 1 7 0;
                       fmapi_vsc_ppb_stat_blk.mk 2 8 1;
                       fmapi_vsc_ppb_stat_blk.mk 0 255 255 ] |} ] |}))
      FMOB_VSC_INFO_RSP = Ret n (Some out)
    /\ fmapi_deserialize (Some (O_VSC_INFO_RSP fmapi_vsc_info_rsp.zero))
         (Some out) FMOB_VSC_INFO_RSP
         (Some (fmapi_vsc_info_req.mk 2 6 1 [1]))
       = Ret n
           (Some (O_VSC_INFO_RSP
              {| fmapi_vsc_info_rsp.num := 1;
                 fmapi_vsc_info_rsp.list :=
                   [ {| fmapi_vsc_info_blk.vcsid := 1; fmapi_vsc_info_blk.state := 1;
                        fmapi_vsc_info_blk.uspid := 3; fmapi_vsc_info_blk.total := 5;
                        fmapi_vsc_info_blk.num := 3;
                        fmapi_vsc_info_blk.list :=
                          [ fmapi_vsc_ppb_stat_blk.mk 1 7 0;
                            fmapi_vsc_ppb_stat_blk.mk 2 8 1;
                            fmapi_vsc_ppb_stat_blk.mk 0 255 255 ] |} ] |})).
Proof.
  apply (serialize_deserialize_roundtrip FMOB_VSC_INFO_RSP).
  - unfold FMOB_VSC_INFO_RSP, FMOB_MAX. lia.
  - reflexivity.
  - reflexivity.
  - reflexivity.
  - reflexivity.
Defined.

(** ** Sizing of the virtual switch info block *)

(** Decoding [n] entries of fixed length [k] consumes [k * n] bytes and
    yields [n] entries. *)
Lemma deser_loop_fixed {T} (deser : buffer -> Z * T) k src :
  (forall b, fst (deser b) = k) ->
  forall n from rv acc,
    fst (for_loop n from (fun _ st => deser_entry deser src st) (rv, acc))
    = rv + k * Z.of_nat n
    /\ length (snd (for_loop n from (fun _ st => deser_entry deser src st) (rv, acc)))
       = (length acc + n)%nat.
Proof.
  intros Hk. induction n as [|n IH]; intros from rv acc.
  - cbn [for_loop fst snd]. split; lia.
  - cbn [for_loop]. unfold deser_entry at 2 4.
    specialize (Hk (shift src rv)).
    destruct (deser (shift src rv)) as [k' e]. cbn [fst] in Hk. subst k'.
    destruct (IH (from + 1) (rv + k) (acc ++ [e])) as [H1 H2].
    rewrite H1, H2, length_app, Nat2Z.inj_succ. cbn [length]. split; lia.
Qed.

Lemma deser_each_fixed {T} (deser : buffer -> Z * T) k src n rv :
  (forall b, fst (deser b) = k) -> 0 <= n ->
  fst (deser_each (fun _ => deser) src n rv) = rv + k * n
  /\ Z.of_nat (length (snd (deser_each (fun _ => deser) src n rv))) = n.
Proof.
  intros Hk Hn. unfold deser_each, for_upto.
  destruct (deser_loop_fixed deser k src Hk (Z.to_nat n) 0 rv []) as [H1 H2].
  rewrite H1, H2. cbn [length plus]. rewrite !Z2Nat.id by lia. split; reflexivity.
Qed.

(** The clamp of the decoder, for a request and a total that is a byte
    not below the start of the request. *)
Lemma clamp_decoded r total :
  is_request r = true -> 0 <= total < 2 ^ 8 ->
  fmapi_vsc_info_req.vppbid_start r <= total ->
  (if fmapi_vsc_info_req.vppbid_limit r
      <? u8 (total - fmapi_vsc_info_req.vppbid_start r)
   then fmapi_vsc_info_req.vppbid_limit r
   else u8 (total - fmapi_vsc_info_req.vppbid_start r)) = clamp r total
  /\ 0 <= clamp r total.
Proof.
  intros Hr Ht Hs. pose proof Hr as Hr'.
  unfold is_request in Hr'. split_wf Hr'.
  assert (0 <= clamp r total) as Hc by (unfold clamp; lia).
  split; [|exact Hc].
  now apply clamp_computed.
Qed.

(** The block decoded against the request [r]. *)
Lemma vsc_info_blk_sizing r src :
  is_request r = true -> 0 <= src 3 < 2 ^ 8 ->
  fmapi_vsc_info_req.vppbid_start r <= src 3 ->
  fst (fmapi_vsc_info_blk.deserialize_with r src)
  = FMLN_VSC_INFO + FMLN_VSC_PPB_STATUS * clamp r (src 3)
  /\ fmapi_vsc_info_blk.total (snd (fmapi_vsc_info_blk.deserialize_with r src)) = src 3
  /\ fmapi_vsc_info_blk.num (snd (fmapi_vsc_info_blk.deserialize_with r src))
     = clamp r (src 3)
  /\ Z.of_nat (length (fmapi_vsc_info_blk.list
                         (snd (fmapi_vsc_info_blk.deserialize_with r src))))
     = clamp r (src 3).
Proof.
  intros Hr Ht Hs.
  destruct (clamp_decoded r (src 3) Hr Ht Hs) as [Hc Hc0].
  unfold fmapi_vsc_info_blk.deserialize_with. cbv zeta. rewrite Hc.
  destruct (deser_each_fixed fmapi_vsc_ppb_stat_blk.deserialize
              FMLN_VSC_PPB_STATUS src (clamp r (src 3)) FMLN_VSC_INFO
              (fun _ => eq_refl) Hc0) as [H1 H2].
  destruct (deser_each _ src (clamp r (src 3)) FMLN_VSC_INFO) as [rv l].
  cbn [fst snd] in *. cbn.
  repeat split; assumption.
Qed.

(** C2, as the code has it.  Decoding kind [FMOB_VSC_INFO_BLK] with the
    request [r] as context, from a source whose byte 3 holds a total not
    below [r]'s [vppbid_start]: the decoded number of entries is
    [min(vppbid_limit, total - vppbid_start)], as many entries are
    decoded, and the call returns [4 + 4 * num] bytes consumed
    ([FMLN_VSC_INFO] and [FMLN_VSC_PPB_STATUS] for every entry). *)
Theorem vsc_info_blk_decode_sizing
    (r : fmapi_vsc_info_req.t) (prior : fmapi_vsc_info_blk.t) (src : buffer) :
  is_request r = true -> 0 <= src 3 < 2 ^ 8 ->
  fmapi_vsc_info_req.vppbid_start r <= src 3 ->
  exists o,
    fmapi_deserialize (Some (O_VSC_INFO_BLK prior)) (Some src)
                      FMOB_VSC_INFO_BLK (Some r)
    = Ret (4 + 4 * fmapi_vsc_info_blk.num o) (Some (O_VSC_INFO_BLK o))
    /\ fmapi_vsc_info_blk.total o = src 3
    /\ fmapi_vsc_info_blk.num o
       = Z.min (fmapi_vsc_info_req.vppbid_limit r)
               (src 3 - fmapi_vsc_info_req.vppbid_start r)
    /\ Z.of_nat (length (fmapi_vsc_info_blk.list o)) = fmapi_vsc_info_blk.num o.
Proof.
  intros Hr Ht Hs.
  destruct (vsc_info_blk_sizing r src Hr Ht Hs) as (H1 & H2 & H3 & H4).
  exists (snd (fmapi_vsc_info_blk.deserialize_with r src)).
  rewrite H2, H3, H4. fold (clamp r (src 3)).
  repeat split; try reflexivity.
  unfold fmapi_deserialize, deserialize_case, reading.
  cbn [kind_of]. unfold FMOB_VSC_INFO_BLK at 1 2 3, FMOB_MAX, FMOB_NULL.
  cbn [Z.leb Z.eqb Z.compare Pos.compare Pos.compare_cont Pos.eqb].
  destruct (fmapi_vsc_info_blk.deserialize_with r src) as [rv o].
  cbn [fst snd] in *. rewrite H1. reflexivity.
Qed.

Lemma vsc_info_blk_decode_sizing_witness :
  (exists o,
     fmapi_deserialize (Some (O_VSC_INFO_BLK fmapi_vsc_info_blk.zero))
                       (Some (filled 10)) FMOB_VSC_INFO_BLK
                       (Some (fmapi_vsc_info_req.mk 2 6 1 [0]))
     = Ret (4 + 4 * fmapi_vsc_info_blk.num o) (Some (O_VSC_INFO_BLK o))
     /\ fmapi_vsc_info_blk.total o = 10
     /\ fmapi_vsc_info_blk.num o = Z.min 6 (10 - 2)
     /\ Z.of_nat (length (fmapi_vsc_info_blk.list o)) = fmapi_vsc_info_blk.num o)
  /\ (exists o,
     fmapi_deserialize (Some (O_VSC_INFO_BLK fmapi_vsc_info_blk.zero))
                       (Some (filled 5)) FMOB_VSC_INFO_BLK
                       (Some (fmapi_vsc_info_req.mk 2 6 1 [0]))
     = Ret (4 + 4 * fmapi_vsc_info_blk.num o) (Some (O_VSC_INFO_BLK o))
     /\ fmapi_vsc_info_blk.total o = 5
     /\ fmapi_vsc_info_blk.num o = Z.min 6 (5 - 2)
     /\ Z.of_nat (length (fmapi_vsc_info_blk.list o)) = fmapi_vsc_info_blk.num o).
Proof.
  split.
  - apply (vsc_info_blk_decode_sizing (fmapi_vsc_info_req.mk 2 6 1 [0])
             fmapi_vsc_info_blk.zero (filled 10)).
    + reflexivity.
    + unfold filled. simpl. lia.
    + unfold filled. simpl. lia.
  - apply (vsc_info_blk_decode_sizing (fmapi_vsc_info_req.mk 2 6 1 [0])
             fmapi_vsc_info_blk.zero (filled 5)).
    + reflexivity.
    + unfold filled. simpl. lia.
    + unfold filled. simpl. lia.
Defined.

(** C2, as the specification words it, fails on its own example: with
    [vppbid_start = 2], [vppbid_limit = 6] and a total of 10 the decoded
    number of entries is 6, and the call returns 28, not [4 + 3 * 6];
    with a total of 5 it is 3, and the call returns 16, not [4 + 3 * 3]. *)
Lemma vsc_info_blk_three_bytes_counterexample :
  (exists o,
     fmapi_deserialize (Some (O_VSC_INFO_BLK fmapi_vsc_info_blk.zero))
                       (Some (filled 10)) FMOB_VSC_INFO_BLK
                       (Some (fmapi_vsc_info_req.mk 2 6 1 [0]))
     = Ret 28 (Some (O_VSC_INFO_BLK o))
     /\ fmapi_vsc_info_blk.num o = 6 /\ 28 <> 4 + 3 * fmapi_vsc_info_blk.num o)
  /\ (exists o,
     fmapi_deserialize (Some (O_VSC_INFO_BLK fmapi_vsc_info_blk.zero))
                       (Some (filled 5)) FMOB_VSC_INFO_BLK
                       (Some (fmapi_vsc_info_req.mk 2 6 1 [0]))
     = Ret 16 (Some (O_VSC_INFO_BLK o))
     /\ fmapi_vsc_info_blk.num o = 3 /\ 16 <> 4 + 3 * fmapi_vsc_info_blk.num o).
Proof.
  split; eexists; (split; [vm_compute; reflexivity|]); split;
    cbn; [reflexivity | lia | reflexivity | lia].
Qed.

(** ** The header *)

(** Decoding a header reads the bytes 0 to 11 only. *)
Lemma hdr_reads_only a b :
  agree 0 12 a b -> fmapi_hdr.deserialize a = fmapi_hdr.deserialize b.
Proof. revert a b. reads_only. Qed.

(** Encoding a header writes within the bytes 0 to 11. *)
Lemma hdr_written_within b o j :
  j < 0 \/ 12 <= j -> snd (fmapi_hdr.serialize b o) j = b j.
Proof.
  intros Hj. unfold fmapi_hdr.serialize. cbv zeta. cbn [snd].
  now rewrite !store_out by lia.
Qed.

Lemma hdr_wf_of_ranges h :
  0 <= fmapi_hdr.category h < 16 -> 0 <= fmapi_hdr.tag h < 256 ->
  0 <= fmapi_hdr.opcode h < 65536 -> 0 <= fmapi_hdr.background h <= 1 ->
  0 <= fmapi_hdr.len h <= 0x1FFFFF ->
  0 <= fmapi_hdr.return_code h < 65536 -> 0 <= fmapi_hdr.ext_status h < 65536 ->
  fmapi_hdr.wf h = true.
Proof.
  intros. unfold fmapi_hdr.wf, in_bits.
  repeat (apply andb_true_intro; split);
    (apply Z.leb_le || apply Z.ltb_lt); pow2; lia.
Qed.

(** C3.  Header round trip: for every header [h] with a category below
    16, a background of 0 or 1, a length of at most [0x1FFFFF], an 8-bit
    tag and 16-bit opcode, return code and extended status,
    [fmapi_serialize] for kind [FMOB_HDR] returns 12 and writes within
    the 12 bytes of the header, and [fmapi_deserialize] for kind
    [FMOB_HDR] of any buffer holding these 12 bytes returns 12 and
    yields [h], whatever the destination struct held before. *)
Theorem hdr_encode_decode (h prior : fmapi_hdr.t) (dst : buffer) :
  0 <= fmapi_hdr.category h < 16 -> 0 <= fmapi_hdr.tag h < 256 ->
  0 <= fmapi_hdr.opcode h < 65536 -> 0 <= fmapi_hdr.background h <= 1 ->
  0 <= fmapi_hdr.len h <= 0x1FFFFF ->
  0 <= fmapi_hdr.return_code h < 65536 -> 0 <= fmapi_hdr.ext_status h < 65536 ->
  exists out,
    fmapi_serialize (Some dst) (Some (O_HDR h)) FMOB_HDR = Ret 12 (Some out)
    /\ (forall j, j < 0 \/ 12 <= j -> out j = dst j)
    /\ (forall src param, agree 0 12 src out ->
          fmapi_deserialize (Some (O_HDR prior)) (Some src) FMOB_HDR param
          = Ret 12 (Some (O_HDR h))).
Proof.
  intros Hc Ht Ho Hb Hl Hr He.
  pose proof (hdr_wf_of_ranges h Hc Ht Ho Hb Hl Hr He) as Hwf.
  exists (snd (fmapi_hdr.serialize dst h)).
  split; [reflexivity|]. split.
  - intros j Hj. now apply hdr_written_within.
  - intros src param Hag.
    change (fmapi_deserialize (Some (O_HDR prior)) (Some src) FMOB_HDR param)
      with (let '(rv, o) := fmapi_hdr.deserialize src in Ret rv (Some (O_HDR o))).
    rewrite (hdr_reads_only _ _ Hag), (hdr_roundtrip dst h Hwf). reflexivity.
Qed.

Lemma hdr_encode_decode_witness :
  exists out,
    fmapi_serialize (Some (filled 0))
      (Some (O_HDR (fmapi_hdr.mk 15 0x42 0x5201 1 0x1FFFFF 0xABCD 0x1234)))
      FMOB_HDR = Ret 12 (Some out)
    /\ (forall j, j < 0 \/ 12 <= j -> out j = filled 0 j)
    /\ (forall src param, agree 0 12 src out ->
          fmapi_deserialize (Some (O_HDR fmapi_hdr.zero)) (Some src) FMOB_HDR param
          = Ret 12 (Some (O_HDR (fmapi_hdr.mk 15 0x42 0x5201 1 0x1FFFFF 0xABCD 0x1234)))).
Proof.
  apply (hdr_encode_decode
           (fmapi_hdr.mk 15 0x42 0x5201 1 0x1FFFFF 0xABCD 0x1234)
           fmapi_hdr.zero (filled 0)); simpl; lia.
Defined.

(** ** The length field of the tunnel objects *)

(** The two bytes written for the length [L] hold [L + 1]. *)
Lemma le16_written L : 0 <= L < 65535 ->
  u8 (Z.land (L + 1) 255) + 2 ^ 8 * u8 (Z.land (Z.shiftr (L + 1) 8) 255) = L + 1.
Proof. intros H. to_arith. dm. Qed.

(** Two bytes read as a 16-bit little-endian value. *)
Lemma le16_read lo hi : 0 <= lo < 2 ^ 8 -> 0 <= hi < 2 ^ 8 ->
  Z.lor (Z.shiftl hi 8) lo = lo + 2 ^ 8 * hi.
Proof.
  intros Hlo Hhi. rewrite Z.shiftl_mul_pow2 by lia.
  rewrite (lor_add _ _ 8) by dm. lia.
Qed.

Lemma memcpy_from_length src off n : 0 <= n ->
  Z.of_nat (length (memcpy_from src off n)) = n.
Proof.
  intros Hn. unfold memcpy_from. rewrite length_map, length_seq. lia.
Qed.

(** C4.  Off-by-one length of the tunnel kinds.  For an object [x] of
    kind [FMOB_MPC_TMC_REQ] or [FMOB_MPC_TMC_RSP] holding a payload of
    [L] bytes, [0 <= L < 65535] (the [msg] array holds
    [FMLN_MPC_TUNNEL_PAYLOAD], 8175, at most), [fmapi_serialize] writes [L + 1] into the length field on the wire,
    copies the [L] message bytes behind the 5 bytes of the fixed part and
    nothing more, and returns [5 + L].  For a source buffer whose length
    field holds [v >= 1], [fmapi_deserialize] stores [v - 1] as the
    length of the object, copies [v - 1] message bytes and returns
    [5 + (v - 1)]. *)
Theorem tunnel_length_off_by_one
    (x prior : object) (dst src : buffer) (v : Z) :
  is_tunnel x = true -> kind_of prior = kind_of x ->
  0 <= tunnel_len x < 65535 ->
  byte_buffer src -> le16_at src (tunnel_len_field x) = v -> 1 <= v ->
  (exists out,
     fmapi_serialize (Some dst) (Some x) (kind_of x)
     = Ret (5 + tunnel_len x) (Some out)
     /\ le16_at out (tunnel_len_field x) = tunnel_len x + 1
     /\ (forall i, 0 <= i < tunnel_len x -> out (5 + i) = elem 0 (tunnel_msg x) i)
     /\ (forall j, 5 + tunnel_len x <= j -> out j = dst j))
  /\ (exists y,
     fmapi_deserialize (Some prior) (Some src) (kind_of x) None
     = Ret (5 + (v - 1)) (Some y)
     /\ kind_of y = kind_of x
     /\ tunnel_len y = v - 1
     /\ tunnel_msg y = memcpy_from src 5 (v - 1)
     /\ Z.of_nat (length (tunnel_msg y)) = v - 1).
Proof.
  intros Hx Hp HL Hsrc Hv Hv1.
  destruct x; try discriminate Hx; destruct prior; try discriminate Hp;
    cbn [tunnel_len tunnel_msg tunnel_len_field kind_of] in *; clear Hx Hp.
  - (* FMOB_MPC_TMC_REQ *)
    split.
    + exists (snd (fmapi_mpc_tmc_req.serialize dst o)).
      split; [reflexivity|].
      unfold fmapi_mpc_tmc_req.serialize, le16_at, FMLN_MPC_TUNNEL_CMD_REQ.
      cbv zeta. cbn [snd]. repeat split.
      * replace (2 + 1) with 3 by reflexivity. reads.
        now apply le16_written.
      * intros i Hi. rewrite memcpy_to_in by lia.
        unfold elem. do 2 f_equal. lia.
      * intros j Hj. reads. reflexivity.
    + unfold le16_at in Hv. replace (2 + 1) with 3 in Hv by reflexivity.
      pose proof (Hsrc 2) as H2. pose proof (Hsrc 3) as H3.
      assert (u16 (Z.lor (Z.shiftl (src 3) 8) (src 2) - 1) = v - 1) as Hlen.
      { rewrite le16_read, Hv by assumption. apply u16_small. pow2. lia. }
      exists (O_MPC_TMC_REQ (snd (fmapi_mpc_tmc_req.deserialize src))).
      unfold fmapi_deserialize, deserialize_case, reading.
      cbn [kind_of]. unfold FMOB_MPC_TMC_REQ at 1 2 3, FMOB_MAX, FMOB_NULL.
      cbn [Z.leb Z.eqb Z.compare Pos.compare Pos.compare_cont Pos.eqb].
      unfold fmapi_mpc_tmc_req.deserialize, FMLN_MPC_TUNNEL_CMD_REQ.
      cbv zeta. cbn [snd kind_of tunnel_len tunnel_msg
                     fmapi_mpc_tmc_req.len fmapi_mpc_tmc_req.msg].
      rewrite Hlen. repeat split. apply memcpy_from_length. lia.
  - (* FMOB_MPC_TMC_RSP *)
    split.
    + exists (snd (fmapi_mpc_tmc_rsp.serialize dst o)).
      split; [reflexivity|].
      unfold fmapi_mpc_tmc_rsp.serialize, le16_at, FMLN_MPC_TUNNEL_CMD_REQ.
      cbv zeta. cbn [snd]. repeat split.
      * replace (0 + 1) with 1 by reflexivity. reads.
        now apply le16_written.
      * intros i Hi. rewrite memcpy_to_in by lia.
        unfold elem. do 2 f_equal. lia.
      * intros j Hj. reads. reflexivity.
    + unfold le16_at in Hv. replace (0 + 1) with 1 in Hv by reflexivity.
      pose proof (Hsrc 0) as H0. pose proof (Hsrc 1) as H1.
      assert (u16 (Z.lor (Z.shiftl (src 1) 8) (src 0) - 1) = v - 1) as Hlen.
      { rewrite le16_read, Hv by assumption. apply u16_small. pow2. lia. }
      exists (O_MPC_TMC_RSP (snd (fmapi_mpc_tmc_rsp.deserialize src))).
      unfold fmapi_deserialize, deserialize_case, reading.
      cbn [kind_of]. unfold FMOB_MPC_TMC_RSP at 1 2 3, FMOB_MAX, FMOB_NULL.
      cbn [Z.leb Z.eqb Z.compare Pos.compare Pos.compare_cont Pos.eqb].
      unfold fmapi_mpc_tmc_rsp.deserialize, FMLN_MPC_TUNNEL_CMD_REQ,
        FMLN_MPC_TUNNEL_CMD_RESP.
      cbv zeta. cbn [snd kind_of tunnel_len tunnel_msg
                     fmapi_mpc_tmc_rsp.len fmapi_mpc_tmc_rsp.msg].
      rewrite Hlen. repeat split. apply memcpy_from_length. lia.
Qed.

Lemma byte_buffer_store b i v : byte_buffer b -> byte_buffer (store b i v).
Proof.
  intros Hb j. unfold store. destruct (j =? i); [|apply Hb].
  apply (wrap_range 8). lia.
Qed.

Lemma byte_buffer_filled v : 0 <= v < 2 ^ 8 -> byte_buffer (filled v).
Proof. intros H j. exact H. Qed.

Lemma tunnel_length_off_by_one_witness :
  (let x := O_MPC_TMC_REQ (fmapi_mpc_tmc_req.mk 1 68 0 (repeat 0xAB 68)) in
   let src := store (filled 0) 2 69 in
   (exists out,
      fmapi_serialize (Some (filled 255)) (Some x) (kind_of x)
      = Ret (5 + tunnel_len x) (Some out)
      /\ le16_at out (tunnel_len_field x) = tunnel_len x + 1
      /\ (forall i, 0 <= i < tunnel_len x -> out (5 + i) = elem 0 (tunnel_msg x) i)
      /\ (forall j, 5 + tunnel_len x <= j -> out j = filled 255 j))
   /\ (exists y,
      fmapi_deserialize (Some (O_MPC_TMC_REQ fmapi_mpc_tmc_req.zero)) (Some src) (kind_of x) None
      = Ret (5 + (69 - 1)) (Some y)
      /\ kind_of y = kind_of x
      /\ tunnel_len y = 69 - 1
      /\ tunnel_msg y = memcpy_from src 5 (69 - 1)
      /\ Z.of_nat (length (tunnel_msg y)) = 69 - 1))
  /\ (let x := O_MPC_TMC_RSP (fmapi_mpc_tmc_rsp.mk 0 68 (repeat 0xCD 68)) in
   let src := store (filled 0) 0 69 in
   (exists out,
      fmapi_serialize (Some (filled 255)) (Some x) (kind_of x)
      = Ret (5 + tunnel_len x) (Some out)
      /\ le16_at out (tunnel_len_field x) = tunnel_len x + 1
      /\ (forall i, 0 <= i < tunnel_len x -> out (5 + i) = elem 0 (tunnel_msg x) i)
      /\ (forall j, 5 + tunnel_len x <= j -> out j = filled 255 j))
   /\ (exists y,
      fmapi_deserialize (Some (O_MPC_TMC_RSP fmapi_mpc_tmc_rsp.zero)) (Some src) (kind_of x) None
      = Ret (5 + (69 - 1)) (Some y)
      /\ kind_of y = kind_of x
      /\ tunnel_len y = 69 - 1
      /\ tunnel_msg y = memcpy_from src 5 (69 - 1)
      /\ Z.of_nat (length (tunnel_msg y)) = 69 - 1)).
Proof.
  split.
  - apply (tunnel_length_off_by_one
             (O_MPC_TMC_REQ (fmapi_mpc_tmc_req.mk 1 68 0 (repeat 0xAB 68)))
             (O_MPC_TMC_REQ fmapi_mpc_tmc_req.zero) (filled 255)
             (store (filled 0) 2 69) 69).
    + reflexivity.
    + reflexivity.
    + simpl. lia.
    + apply byte_buffer_store, byte_buffer_filled. simpl. lia.
    + reflexivity.
    + lia.
  - apply (tunnel_length_off_by_one
             (O_MPC_TMC_RSP (fmapi_mpc_tmc_rsp.mk 0 68 (repeat 0xCD 68)))
             (O_MPC_TMC_RSP fmapi_mpc_tmc_rsp.zero) (filled 255)
             (store (filled 0) 0 69) 69).
    + reflexivity.
    + reflexivity.
    + simpl. lia.
    + apply byte_buffer_store, byte_buffer_filled. simpl. lia.
    + reflexivity.
    + lia.
Defined.

(** ** Bytes the encoder leaves as they were *)

(** C5.  Reserved bytes.  [fmapi_serialize] does not write byte 2 of a
    header, byte 3 of a bind request and byte 3 of a physical port info
    block: after the call each holds what the destination buffer held
    before it, for every object and every buffer, while the call counts
    the byte in the length it returns.  (Byte 14 of the port info block,
    reserved too, is written as zero.) *)
Theorem reserved_bytes_left_unwritten
    (dst : buffer) (h : fmapi_hdr.t) (b : fmapi_vsc_bind_req.t)
    (p : fmapi_psc_port_info.t) :
  (exists out,
     fmapi_serialize (Some dst) (Some (O_HDR h)) FMOB_HDR = Ret 12 (Some out)
     /\ out 2 = dst 2)
  /\ (exists out,
     fmapi_serialize (Some dst) (Some (O_VSC_BIND_REQ b)) FMOB_VSC_BIND_REQ
     = Ret 6 (Some out)
     /\ out 3 = dst 3)
  /\ (exists out,
     fmapi_serialize (Some dst) (Some (O_PSC_PORT_INFO p)) FMOB_PSC_PORT_INFO
     = Ret 16 (Some out)
     /\ out 3 = dst 3 /\ out 14 = 0).
Proof.
  repeat split; eexists; (split; [reflexivity|]); cbn [snd];
    repeat split; reflexivity.
Qed.

(** The same header encoded into a zeroed buffer and into a buffer of
    [0xFF] bytes: the outputs differ within the 12 bytes returned. *)
Example hdr_byte_2_of_dirty_buffer :
  let h := fmapi_hdr.mk 1 2 FMOP_VSC_BIND 0 6 0 0 in
  map (snd (fmapi_hdr.serialize (filled 0) h)) [0; 1; 2; 3; 4; 5]
  = [16; 2; 0; 1; 82; 6]
  /\ map (snd (fmapi_hdr.serialize (filled 255) h)) [0; 1; 2; 3; 4; 5]
     = [16; 2; 255; 1; 82; 6].
Proof. split; vm_compute; reflexivity. Qed.

(** ** Decoding without the request *)

(** Entries whose decoder consumes nothing and leaves the entry as it
    was. *)
Lemma deser_loop_skipped {T} (deser : Z -> buffer -> Z * T) (f : Z -> T) src :
  (forall i b, deser i b = (0, f i)) ->
  forall n from rv acc,
    for_loop n from (fun i st => deser_entry (deser i) src st) (rv, acc)
    = (rv, acc ++ map (fun k => f (from + Z.of_nat k)) (seq 0 n)).
Proof.
  intros H. induction n as [|n IH]; intros from rv acc.
  - cbn. now rewrite app_nil_r.
  - cbn [for_loop]. unfold deser_entry at 2. rewrite H, Z.add_0_r, IH.
    cbn [seq map]. rewrite <- app_assoc. cbn [app]. do 3 f_equal.
    + f_equal. lia.
    + rewrite <- seq_shift, map_map. apply map_ext. intros k. f_equal. lia.
Qed.

(** C6.  Missing context.  With a NULL context parameter,
    [fmapi_deserialize] of kind [FMOB_VSC_INFO_BLK] returns 0 and leaves
    the destination as it was; of kind [FMOB_VSC_INFO_RSP] it returns 4
    and yields an object whose count is byte 0 of the source and whose
    entries are what the destination held in these slots before the
    call.  A response without entries decoded with its request returns 4
    as well. *)
Theorem missing_context_not_signalled
    (src : buffer) (blk : fmapi_vsc_info_blk.t) (rsp : fmapi_vsc_info_rsp.t)
    (r : fmapi_vsc_info_req.t) :
  fmapi_deserialize (Some (O_VSC_INFO_BLK blk)) (Some src) FMOB_VSC_INFO_BLK None
  = Ret 0 (Some (O_VSC_INFO_BLK blk))
  /\ fmapi_deserialize (Some (O_VSC_INFO_RSP rsp)) (Some src) FMOB_VSC_INFO_RSP None
     = Ret 4 (Some (O_VSC_INFO_RSP
         {| fmapi_vsc_info_rsp.num := src 0;
            fmapi_vsc_info_rsp.list :=
              map (fun k => elem fmapi_vsc_info_blk.zero
                                 (fmapi_vsc_info_rsp.list rsp) (Z.of_nat k))
                  (seq 0 (Z.to_nat (src 0))) |}))
  /\ fmapi_deserialize (Some (O_VSC_INFO_RSP rsp)) (Some (store src 0 0))
                       FMOB_VSC_INFO_RSP (Some r)
     = Ret 4 (Some (O_VSC_INFO_RSP
         {| fmapi_vsc_info_rsp.num := 0; fmapi_vsc_info_rsp.list := [] |})).
Proof.
  split; [reflexivity|]. split; [|reflexivity].
  unfold fmapi_deserialize, deserialize_case, reading.
  cbn [kind_of]. unfold FMOB_VSC_INFO_RSP at 1 2 3, FMOB_MAX, FMOB_NULL.
  cbn [Z.leb Z.eqb Z.compare Pos.compare Pos.compare_cont Pos.eqb].
  unfold fmapi_vsc_info_rsp.deserialize, deser_each, for_upto. cbv zeta.
  rewrite (deser_loop_skipped _
             (fun i => elem fmapi_vsc_info_blk.zero (fmapi_vsc_info_rsp.list rsp) i))
    by reflexivity.
  reflexivity.
Qed.

(** ** The tests of the arguments *)

Lemma Ret_rv {T} a (x : T) rv d : Ret a x = Ret rv d -> rv = a.
Proof. intros H. now injection H. Qed.

(** A decoding loop whose entries consume no negative number of bytes. *)
Lemma deser_loop_nonneg {T} (deser : Z -> buffer -> Z * T) src :
  (forall i b, 0 <= fst (deser i b)) ->
  forall n from rv acc, 0 <= rv ->
    0 <= fst (for_loop n from (fun i st => deser_entry (deser i) src st) (rv, acc)).
Proof.
  intros H. induction n as [|n IH]; intros from rv acc Hrv.
  - exact Hrv.
  - cbn [for_loop]. unfold deser_entry at 2.
    specialize (H from (shift src rv)).
    destruct (deser from (shift src rv)) as [k e]. cbn [fst] in H.
    apply IH. lia.
Qed.

Lemma deser_each_nonneg {T} (deser : Z -> buffer -> Z * T) src n rv :
  (forall i b, 0 <= fst (deser i b)) -> 0 <= rv ->
  0 <= fst (deser_each deser src n rv).
Proof. intros H Hrv. unfold deser_each, for_upto. now apply deser_loop_nonneg. Qed.

(** The lengths of fmapi.h, as numbers. *)
Ltac lengths :=
  cbv [FMLN_HDR FMLN_PSC_IDENTIFY_SWITCH FMLN_PSC_GET_PHY_PORT_REQ
       FMLN_PSC_GET_PHY_PORT_INFO FMLN_PSC_GET_PHY_PORT_RESP
       FMLN_PSC_PHY_PORT_CTRL FMLN_PSC_PPB_IO_CFG_REQ FMLN_PSC_PPB_IO_CFG_RESP
       FMLN_VSC_GET_INFO_REQ FMLN_VSC_PPB_STATUS FMLN_VSC_INFO
       FMLN_VSC_GET_INFO_RESP FMLN_VSC_BIND FMLN_VSC_UNBIND FMLN_VSC_GEN_AER
       FMLN_MPC_TUNNEL_CMD_REQ FMLN_MPC_TUNNEL_CMD_RESP FMLN_MPC_LD_IO_CFG_REQ
       FMLN_MPC_LD_IO_CFG_RESP FMLN_MPC_LD_MEM_REQ FMLN_MPC_LD_MEM_RESP
       FMLN_MCC_GET_LD_INFO FMLN_MCC_LD_ALLOC_ENTRY FMLN_MCC_GET_LD_ALLOC_REQ
       FMLN_MCC_GET_LD_ALLOC_RSP FMLN_MCC_SET_LD_ALLOC_REQ
       FMLN_MCC_SET_LD_ALLOC_RSP FMLN_MCC_QOS_CTRL FMLN_MCC_QOS_STATUS
       FMLN_MCC_GET_QOS_BW_REQ FMLN_MCC_QOS_BW_ALLOC
       FMLN_MCC_GET_QOS_BW_LIMIT_REQ FMLN_MCC_QOS_BW_LIMIT FMLN_ISC_ID_RSP
       FMLN_ISC_MSG_LIMIT FMLN_ISC_BOS].

Lemma vsc_info_blk_nonneg dst b param :
  0 <= fst (fmapi_vsc_info_blk.deserialize dst b param).
Proof.
  destruct param as [r|]; [|cbn; lia].
  unfold fmapi_vsc_info_blk.deserialize, fmapi_vsc_info_blk.deserialize_with.
  cbv zeta.
  match goal with |- context [deser_each ?f ?s ?n ?r] =>
    pose proof (deser_each_nonneg f s n r) as Hn;
    destruct (deser_each f s n r) as [rv' l]
  end.
  cbn [fst] in *. apply Hn; [|lengths; lia].
  intros _ b'. unfold fmapi_vsc_ppb_stat_blk.deserialize. cbn [fst]. lengths. lia.
Qed.

(** The bounds of the bytes and conversions a length is made of. *)
Ltac length_bounds b Hb :=
  repeat match goal with
         | |- context [b ?k] =>
             lazymatch goal with
             | _ : 0 <= b k < _ |- _ => fail
             | _ => pose proof (Hb k)
             end
         | |- context [u16 ?k] =>
             lazymatch goal with
             | _ : 0 <= wrap 16 k < _ |- _ => fail
             | _ => pose proof (wrap_range 16 k ltac:(lia))
             end
         end;
  unfold u16 in *.

(** Every case of the [switch] of [fmapi_deserialize] returns a number
    of bytes that is not negative. *)
Lemma deserialize_case_nonneg x b param rv d : byte_buffer b ->
  deserialize_case x (Some b) param = Ret rv d -> 0 <= rv.
Proof.
  intros Hb H.
  destruct x; cbn [deserialize_case] in H; unfold reading in H;
    try match type of H with
        | (let '(_, _) := ?f _ in _) = _ => unfold f in H
        | (let '(_, _) := ?f _ _ in _) = _ => unfold f in H
        | (let '(_, _) := ?f _ _ _ in _) = _ => unfold f in H
        end;
    cbv zeta in H;
    try (apply Ret_rv in H; subst rv; length_bounds b Hb; lengths; lia);
    try match type of H with context [deser_each ?f ?s ?n ?r] =>
          pose proof (deser_each_nonneg f s n r) as Hn;
          destruct (deser_each f s n r) as [rv' l];
          cbn [fst] in Hn; apply Ret_rv in H; subst rv; apply Hn;
          [ intros i b';
            first [ apply vsc_info_blk_nonneg
                  | match goal with |- 0 <= fst (?f _) => unfold f end;
                    cbn [fst]; lengths; lia ]
          | lengths; lia ]
        end.
  (* FMOB_VSC_INFO_BLK *)
  destruct param as [r|].
  - pose proof (vsc_info_blk_nonneg o b (Some r)) as Hn.
    cbn [fmapi_vsc_info_blk.deserialize] in Hn.
    destruct (fmapi_vsc_info_blk.deserialize_with r b) as [rv' o'].
    apply Ret_rv in H. subst rv. exact Hn.
  - apply Ret_rv in H. subst rv. lia.
Qed.

(** A case of the [switch] that returns although the source is NULL
    has read nothing, and returns 0. *)
Lemma deserialize_case_null_source x param rv d :
  deserialize_case x None param = Ret rv d -> rv = 0.
Proof.
  destruct x; cbn [deserialize_case reading]; try discriminate;
    try (destruct param; try discriminate); intros H; now apply Ret_rv in H.
Qed.

(** C7, as the code has it.  [fmapi_deserialize] tests its destination
    and the kind before any access: for a NULL destination or a kind
    not below [FMOB_MAX] it returns -1 and leaves the destination as it
    was, whatever the source pointer is; every other return of it is at
    least 0, so -1 is told apart from every number of bytes consumed,
    the 0 of kind [FMOB_NULL] among them.  [fmapi_serialize] tests the
    kind only: for a kind not below [FMOB_MAX] it returns 0 and touches
    neither buffer, as it does for kind [FMOB_NULL]. *)
Theorem invalid_arguments_tested
    (dst : ptr object) (src : ptr buffer) (type : Z)
    (param : ptr fmapi_vsc_info_req.t) (out : ptr buffer) (obj : ptr object) :
  byte_source src ->
  (dst = None \/ FMOB_MAX <= type ->
     fmapi_deserialize dst src type param = Ret (-1) dst)
  /\ (dst <> None -> type < FMOB_MAX ->
      forall rv d, fmapi_deserialize dst src type param = Ret rv d -> 0 <= rv)
  /\ (dst <> None -> fmapi_deserialize dst src FMOB_NULL param = Ret 0 dst)
  /\ (FMOB_MAX <= type -> fmapi_serialize out obj type = Ret 0 out)
  /\ fmapi_serialize out obj FMOB_NULL = Ret 0 out.
Proof.
  intros Hsrc. repeat split.
  - intros [-> | Ht]; [reflexivity|].
    unfold fmapi_deserialize. destruct dst; [|reflexivity].
    apply Z.leb_le in Ht. now rewrite Ht.
  - intros Hd Ht rv d H. destruct dst as [x|]; [|contradiction].
    unfold fmapi_deserialize in H.
    destruct (Z.leb_spec FMOB_MAX type); [lia|].
    destruct (type =? FMOB_NULL); [apply Ret_rv in H; lia|].
    destruct (type =? kind_of x); [|discriminate].
    destruct src as [b|].
    + now apply (deserialize_case_nonneg x b param rv d).
    + apply deserialize_case_null_source in H. lia.
  - intros Hd. destruct dst; [reflexivity|contradiction].
  - intros Ht. unfold fmapi_serialize. apply Z.leb_le in Ht.
    now rewrite Ht, orb_true_r.
Qed.

Lemma invalid_arguments_tested_witness :
  (Some (O_HDR fmapi_hdr.zero) = None \/ FMOB_MAX <= FMOB_MAX + 5 ->
     fmapi_deserialize (Some (O_HDR fmapi_hdr.zero)) (Some (filled 0))
                       (FMOB_MAX + 5) None
     = Ret (-1) (Some (O_HDR fmapi_hdr.zero)))
  /\ (Some (O_HDR fmapi_hdr.zero) <> None -> FMOB_MAX + 5 < FMOB_MAX ->
      forall rv d,
        fmapi_deserialize (Some (O_HDR fmapi_hdr.zero)) (Some (filled 0))
                          (FMOB_MAX + 5) None = Ret rv d -> 0 <= rv)
  /\ (Some (O_HDR fmapi_hdr.zero) <> None ->
      fmapi_deserialize (Some (O_HDR fmapi_hdr.zero)) (Some (filled 0))
                        FMOB_NULL None
      = Ret 0 (Some (O_HDR fmapi_hdr.zero)))
  /\ (FMOB_MAX <= FMOB_MAX + 5 ->
      fmapi_serialize (Some (filled 255)) (Some (O_HDR fmapi_hdr.zero))
                      (FMOB_MAX + 5)
      = Ret 0 (Some (filled 255)))
  /\ fmapi_serialize (Some (filled 255)) (Some (O_HDR fmapi_hdr.zero)) FMOB_NULL
     = Ret 0 (Some (filled 255)).
Proof.
  apply (invalid_arguments_tested
           (Some (O_HDR fmapi_hdr.zero)) (Some (filled 0)) (FMOB_MAX + 5) None
           (Some (filled 255)) (Some (O_HDR fmapi_hdr.zero))).
  simpl. intros j. unfold filled. lia.
Defined.

(** C7, as the specification words it, fails: neither function tests
    the pointer it reads through, and [fmapi_serialize] tests not even
    the one it writes through, so a NULL one is dereferenced; and for a
    kind outside the enumeration [fmapi_serialize] returns 0, the value
    both functions return for the empty kind [FMOB_NULL]. *)
Lemma invalid_arguments_counterexample :
  fmapi_serialize None (Some (O_HDR fmapi_hdr.zero)) FMOB_HDR = Fault
  /\ fmapi_serialize (Some (filled 0)) None FMOB_HDR = Fault
  /\ fmapi_deserialize (Some (O_HDR fmapi_hdr.zero)) None FMOB_HDR None = Fault
  /\ returned (fmapi_serialize (Some (filled 0)) (Some (O_HDR fmapi_hdr.zero))
                               FMOB_MAX) = Some 0
  /\ returned (fmapi_serialize (Some (filled 0)) (Some O_NULL) FMOB_NULL) = Some 0
  /\ returned (fmapi_deserialize (Some O_NULL) (Some (filled 0)) FMOB_NULL None)
     = Some 0.
Proof. repeat split; reflexivity. Qed.

(** ** The opcode tables *)

(** Membership in a list of constants. *)
Ltac in_list := cbv [In]; repeat first [left; reflexivity | right].

(** One [case] of the [switch] after the other; [tac] closes the case
    of a known opcode. *)
Ltac switch_cases opcode tac :=
  repeat match goal with
         | |- context [opcode =? ?k] =>
             destruct (Z.eqb_spec opcode k) as [->|?]; [solve [tac]|]
         end.

Lemma fmob_req_range opcode : 0 <= fmapi_fmob_req opcode < FMOB_MAX.
Proof.
  unfold fmapi_fmob_req. switch_cases opcode ltac:(cbv; intuition congruence).
  cbv; intuition congruence.
Qed.

Lemma fmob_rsp_range opcode : 0 <= fmapi_fmob_rsp opcode < FMOB_MAX.
Proof.
  unfold fmapi_fmob_rsp. switch_cases opcode ltac:(cbv; intuition congruence).
  cbv; intuition congruence.
Qed.

Lemma fmob_unknown opcode : ~ In opcode known_opcodes ->
  fmapi_fmob_req opcode = FMOB_NULL /\ fmapi_fmob_rsp opcode = FMOB_NULL.
Proof.
  intros H. unfold fmapi_fmob_req, fmapi_fmob_rsp.
  switch_cases opcode ltac:(exfalso; apply H; unfold known_opcodes; in_list).
  split; reflexivity.
Qed.

Lemma fmob_req_empty opcode : In opcode req_without_payload ->
  fmapi_fmob_req opcode = FMOB_NULL.
Proof.
  unfold req_without_payload. cbv [In].
  intros H. repeat (destruct H as [<-|H]; [reflexivity|]). contradiction.
Qed.

Lemma fmob_rsp_empty opcode : In opcode rsp_without_payload ->
  fmapi_fmob_rsp opcode = FMOB_NULL.
Proof.
  unfold rsp_without_payload. cbv [In].
  intros H. repeat (destruct H as [<-|H]; [reflexivity|]). contradiction.
Qed.

(** The known opcodes whose request carries an object are the others. *)
Lemma fmob_req_populated opcode :
  In opcode known_opcodes -> ~ In opcode req_without_payload ->
  fmapi_fmob_req opcode <> FMOB_NULL.
Proof.
  unfold known_opcodes, req_without_payload. cbv [In].
  intros H N.
  repeat (destruct H as [<-|H];
          [first [discriminate | exfalso; apply N; repeat first [left; reflexivity | right]]|]).
  contradiction.
Qed.

Lemma fmob_rsp_populated opcode :
  In opcode known_opcodes -> ~ In opcode rsp_without_payload ->
  fmapi_fmob_rsp opcode <> FMOB_NULL.
Proof.
  unfold known_opcodes, rsp_without_payload. cbv [In].
  intros H N.
  repeat (destruct H as [<-|H];
          [first [discriminate | exfalso; apply N; repeat first [left; reflexivity | right]]|]).
  contradiction.
Qed.

(** C8.  The opcode tables are total over the opcode space: for every
    opcode [fmapi_fmob_req] and [fmapi_fmob_rsp] return a kind of the
    enumeration; they return [FMOB_NULL] for the commands whose request
    (respectively response) has no payload and for every opcode outside
    the known commands, and an object kind for the other known commands;
    the identify command has an empty request and a populated
    response. *)
Theorem opcode_tables_total (opcode : Z) :
  0 <= fmapi_fmob_req opcode < FMOB_MAX
  /\ 0 <= fmapi_fmob_rsp opcode < FMOB_MAX
  /\ (In opcode req_without_payload -> fmapi_fmob_req opcode = FMOB_NULL)
  /\ (In opcode rsp_without_payload -> fmapi_fmob_rsp opcode = FMOB_NULL)
  /\ (~ In opcode known_opcodes ->
        fmapi_fmob_req opcode = FMOB_NULL /\ fmapi_fmob_rsp opcode = FMOB_NULL)
  /\ (In opcode known_opcodes -> ~ In opcode req_without_payload ->
        fmapi_fmob_req opcode <> FMOB_NULL)
  /\ (In opcode known_opcodes -> ~ In opcode rsp_without_payload ->
        fmapi_fmob_rsp opcode <> FMOB_NULL)
  /\ fmapi_fmob_req FMOP_PSC_ID = FMOB_NULL
  /\ fmapi_fmob_rsp FMOP_PSC_ID = FMOB_PSC_ID_RSP.
Proof.
  split; [apply fmob_req_range|]. split; [apply fmob_rsp_range|].
  split; [apply fmob_req_empty|]. split; [apply fmob_rsp_empty|].
  split; [apply fmob_unknown|]. split; [apply fmob_req_populated|].
  split; [apply fmob_rsp_populated|]. split; reflexivity.
Qed.

(** ** The builders *)

(** The builders written on the frame [fill] test [m] first: for NULL
    they return 1 and touch nothing. *)
Lemma fill_null opcode set : fill None opcode set = Ret 1 None.
Proof. reflexivity. Qed.


(** Every builder but the tunnel one is written on that frame. *)
Lemma builders_test_m_first
    (a b c d e f g : Z) (l1 l2 : ptr (list Z)) :
  fmapi_fill_isc_bos None = Ret 1 None
  /\ fmapi_fill_isc_get_msg_limit None = Ret 1 None
  /\ fmapi_fill_isc_id None = Ret 1 None
  /\ fmapi_fill_isc_set_msg_limit None a = Ret 1 None
  /\ fmapi_fill_mcc_get_alloc None a b = Ret 1 None
  /\ fmapi_fill_mcc_get_info None = Ret 1 None
  /\ fmapi_fill_mcc_get_qos_alloc None a b = Ret 1 None
  /\ fmapi_fill_mcc_get_qos_ctrl None = Ret 1 None
  /\ fmapi_fill_mcc_get_qos_limit None a b = Ret 1 None
  /\ fmapi_fill_mcc_get_qos_status None = Ret 1 None
  /\ fmapi_fill_mcc_set_alloc None a b l1 l2 = Ret 1 None
  /\ fmapi_fill_mcc_set_qos_alloc None a b l1 = Ret 1 None
  /\ fmapi_fill_mcc_set_qos_ctrl None a b c d e f g = Ret 1 None
  /\ fmapi_fill_mcc_set_qos_limit None a b l1 = Ret 1 None
  /\ fmapi_fill_mpc_cfg None a b c d e f l1 = Ret 1 None
  /\ fmapi_fill_mpc_mem None a b c d e f g l1 = Ret 1 None
  /\ fmapi_fill_psc_id None = Ret 1 None
  /\ fmapi_fill_psc_get_all_ports None = Ret 1 None
  /\ fmapi_fill_psc_get_port None a = Ret 1 None
  /\ fmapi_fill_psc_get_ports None a l1 = Ret 1 None
  /\ fmapi_fill_psc_cfg None a b c d e l1 = Ret 1 None
  /\ fmapi_fill_psc_port_ctrl None a b = Ret 1 None
  /\ fmapi_fill_vsc_aer None a b c l1 = Ret 1 None
  /\ fmapi_fill_vsc_bind None a b c d = Ret 1 None
  /\ fmapi_fill_vsc_get_vcs None a b c = Ret 1 None
  /\ fmapi_fill_vsc_unbind None a b c = Ret 1 None.
Proof. repeat split; apply fill_null. Qed.

(** C9.  The tunnel builder and its handles.  [fmapi_fill_mpc_tmc]
    writes [sub->buf] before it tests [m], and never tests [sub]: with
    [sub] NULL the call dereferences NULL whatever [m] is; with [m] NULL
    and a valid [sub] it returns 1 after having overwritten [sub->buf]
    with an address computed from the NULL [m].  A builder written on
    the common frame, [fmapi_fill_vsc_bind], returns 1 for a NULL [m]
    having touched nothing, and 0 otherwise. *)
Theorem fill_mpc_tmc_null_handles
    (m : ptr fmapi_msg.t) (ppid type : Z) (s : fmapi_msg.t)
    (vcsid vppbid ldid : Z) :
  fmapi_fill_mpc_tmc m ppid type None = Fault
  /\ fmapi_fill_mpc_tmc None ppid type (Some s)
     = Ret 1 (None, Some {| fmapi_msg.hdr := fmapi_msg.hdr s;
                            fmapi_msg.buf := buf_off_null;
                            fmapi_msg.obj := fmapi_msg.obj s |})
  /\ fmapi_fill_vsc_bind None vcsid vppbid ppid ldid = Ret 1 None
  /\ returned (fmapi_fill_vsc_bind (Some s) vcsid vppbid ppid ldid) = Some 0.
Proof. repeat split; reflexivity. Qed.

(** C10.  [fmapi_fill_psc_get_all_ports] asks for 255 ports, the ports
    0 to 254: port 255 is not in the request, although a port id is a
    byte and [FM_MAX_PORTS] is 256. *)
Theorem get_all_ports_stops_at_254 (msg : fmapi_msg.t) :
  exists o,
    fmapi_fill_psc_get_all_ports (Some msg)
    = Ret 0 (Some {| fmapi_msg.hdr := cleared_hdr FMOP_PSC_PORT;
                     fmapi_msg.buf := fmapi_msg.buf msg;
                     fmapi_msg.obj := O_PSC_PORT_REQ o |})
    /\ fmapi_psc_port_req.num o = 255
    /\ fmapi_psc_port_req.ports o = map Z.of_nat (seq 0 255)
    /\ (forall p, In p (fmapi_psc_port_req.ports o) <-> 0 <= p <= 254)
    /\ ~ In 255 (fmapi_psc_port_req.ports o)
    /\ fmapi_psc_port_req.num o = FM_MAX_PORTS - 1.
Proof.
  eexists. split; [reflexivity|]. cbn [fmapi_psc_port_req.num fmapi_psc_port_req.ports].
  assert (for_upto 255 (fun i ports => ports ++ [u8 i]) [] = map Z.of_nat (seq 0 255))
    as -> by (vm_compute; reflexivity).
  assert (forall p, In p (map Z.of_nat (seq 0 255)) <-> 0 <= p <= 254) as Hin.
  { intros p. rewrite in_map_iff. split.
    - intros (k & <- & Hk). apply in_seq in Hk. lia.
    - intros Hp. exists (Z.to_nat p). split; [lia|]. apply in_seq. lia. }
  split; [reflexivity|]. split; [reflexivity|]. split; [exact Hin|].
  split; [|reflexivity].
  intros H. apply Hin in H. lia.
Qed.

(** * Further properties of the code *)

(** ** What [fmapi_serialize] writes *)

(** The capacities of fmapi.h, as numbers. *)
Ltac capacities :=
  cbv [FMLN_PAYLOAD FMLN_MSG FMLN_MPC_TUNNEL_PAYLOAD FM_LD_MEM_REQ_LEN
       FM_MAX_PORTS FM_MAX_VCS FM_MAX_VPPBS FM_MAX_VCS_PER_RSP FM_MAX_NUM_LD
       FM_TLP_HEADER
       FMLN_HDR FMLN_PSC_IDENTIFY_SWITCH FMLN_PSC_GET_PHY_PORT_REQ
       FMLN_PSC_GET_PHY_PORT_INFO FMLN_PSC_GET_PHY_PORT_RESP
       FMLN_PSC_PHY_PORT_CTRL FMLN_PSC_PPB_IO_CFG_REQ FMLN_PSC_PPB_IO_CFG_RESP
       FMLN_VSC_GET_INFO_REQ FMLN_VSC_PPB_STATUS FMLN_VSC_INFO
       FMLN_VSC_GET_INFO_RESP FMLN_VSC_BIND FMLN_VSC_UNBIND FMLN_VSC_GEN_AER
       FMLN_MPC_TUNNEL_CMD_REQ FMLN_MPC_TUNNEL_CMD_RESP FMLN_MPC_LD_IO_CFG_REQ
       FMLN_MPC_LD_IO_CFG_RESP FMLN_MPC_LD_MEM_REQ FMLN_MPC_LD_MEM_RESP
       FMLN_MCC_GET_LD_INFO FMLN_MCC_LD_ALLOC_ENTRY FMLN_MCC_GET_LD_ALLOC_REQ
       FMLN_MCC_GET_LD_ALLOC_RSP FMLN_MCC_SET_LD_ALLOC_REQ
       FMLN_MCC_SET_LD_ALLOC_RSP FMLN_MCC_QOS_CTRL FMLN_MCC_QOS_STATUS
       FMLN_MCC_GET_QOS_BW_REQ FMLN_MCC_QOS_BW_ALLOC
       FMLN_MCC_GET_QOS_BW_LIMIT_REQ FMLN_MCC_QOS_BW_LIMIT FMLN_ISC_ID_RSP
       FMLN_ISC_MSG_LIMIT FMLN_ISC_BOS] in *.

(** The bytes of entries of at most [k] bytes each. *)
Lemma span_bound {T} (len_of : T -> Z) k (l : list T) :
  Forall (fun e => 0 <= len_of e <= k) l ->
  0 <= span len_of l <= k * Z.of_nat (length l).
Proof.
  induction 1 as [|e l He Hl IH]; cbn [span fold_right length].
  - lia.
  - fold (span len_of l). rewrite Nat2Z.inj_succ. lia.
Qed.

(** The virtual switch info blocks of a well-formed response, encoded
    one after the other. *)
Lemma vsc_info_blk_entries l rv dst :
  forallb fmapi_vsc_info_blk.wf l = true ->
  rv <= fst (ser_each fmapi_vsc_info_blk.serialize fmapi_vsc_info_blk.zero l
                       (Z.of_nat (length l)) (rv, dst))
     <= rv + 1024 * Z.of_nat (length l)
  /\ (forall dst',
        fst (ser_each fmapi_vsc_info_blk.serialize fmapi_vsc_info_blk.zero l
                      (Z.of_nat (length l)) (rv, dst'))
        = fst (ser_each fmapi_vsc_info_blk.serialize fmapi_vsc_info_blk.zero l
                        (Z.of_nat (length l)) (rv, dst)))
  /\ (forall j, j < rv
                \/ fst (ser_each fmapi_vsc_info_blk.serialize
                                 fmapi_vsc_info_blk.zero l
                                 (Z.of_nat (length l)) (rv, dst)) <= j ->
        snd (ser_each fmapi_vsc_info_blk.serialize fmapi_vsc_info_blk.zero l
                      (Z.of_nat (length l)) (rv, dst)) j = dst j).
Proof.
  intros Hl.
  set (good := fun e => fmapi_vsc_info_blk.wf e = true).
  set (len_of := fun e => 4 + 4 * Z.of_nat (length (fmapi_vsc_info_blk.list e))).
  assert (Forall good l) as Hg
    by (apply Forall_forall; intros e He; now apply (proj1 (forallb_forall _ _) Hl)).
  assert (forall b e, good e -> fst (fmapi_vsc_info_blk.serialize b e) = len_of e)
    as Hlen by (intros; now apply vsc_info_blk_len).
  assert (forall e, good e -> 0 <= len_of e) as Hnn by (intros; unfold len_of; lia).
  assert (forall b e j, good e -> j < 0 \/ len_of e <= j ->
            snd (fmapi_vsc_info_blk.serialize b e) j = b j)
    as Hfr by (intros; now apply vsc_info_blk_frame).
  assert (0 <= span len_of l <= 1024 * Z.of_nat (length l)) as Hsp.
  { apply span_bound. apply Forall_forall. intros e He.
    rewrite Forall_forall in Hg. specialize (Hg e He). unfold good in Hg.
    unfold fmapi_vsc_info_blk.wf in Hg. split_wf Hg. unfold len_of.
    capacities. pow2. lia. }
  pose proof (fun d => ser_each_spec fmapi_vsc_info_blk.serialize
                fmapi_vsc_info_blk.zero len_of good Hlen Hnn Hfr l rv d Hg) as Hspec.
  destruct (Hspec dst) as [Hfst Hout].
  rewrite Hfst. split; [lia|]. split.
  - intros dst'. now destruct (Hspec dst') as [-> _].
  - exact Hout.
Qed.

(** What the [switch] of [fmapi_serialize] writes for a well-formed
    object: at least one byte and at most a payload, a number of bytes
    that does not depend on the buffer, and nothing outside them. *)
Lemma serialize_case_within dst x : well_formed x = true ->
  (x <> O_NULL -> 1 <= fst (serialize_case dst x) <= FMLN_PAYLOAD)
  /\ (forall dst', fst (serialize_case dst' x) = fst (serialize_case dst x))
  /\ (forall j, j < 0 \/ fst (serialize_case dst x) <= j ->
        snd (serialize_case dst x) j = dst j).
Proof.
  intros H. destruct x; cbn [serialize_case well_formed] in *;
    try (match type of H with ?wf ?o = true => unfold wf in H end; split_wf H;
         match goal with |- context [fst (?ser _ _)] => unfold ser end;
         cbv zeta; cbn [fst snd]; capacities;
         split; [intros _; pow2; lia
                | split; [reflexivity | intros j Hj; peel; reflexivity]]);
    try (match type of H with ?wf ?o = true => unfold wf in H end; split_wf H;
         match goal with |- context [fst (?ser _ _)] => unfold ser end;
         cbv zeta; capacities;
         match goal with
         | Hall : forallb _ ?l = true, Hlen : Z.of_nat (length ?l) = ?n
           |- context [ser_each _ _ ?l ?n (?rv, ?d)] =>
             first
               [ pose proof (fun d' => proj1 (psc_port_info_entries l rv d' Hall)) as Hfst;
                 destruct (psc_port_info_entries l rv d Hall) as (_ & Hfr & _)
               | pose proof (fun d' => proj1 (vsc_ppb_stat_blk_entries l rv d' Hall)) as Hfst;
                 destruct (vsc_ppb_stat_blk_entries l rv d Hall) as (_ & Hfr & _)
               | pose proof (fun d' => proj1 (mcc_alloc_blk_entries l rv d' Hall)) as Hfst;
                 destruct (mcc_alloc_blk_entries l rv d Hall) as (_ & Hfr & _) ];
             rewrite Hlen in Hfst, Hfr
         end;
         split; [intros _; rewrite Hfst; pow2; lia
                | split; [intros dst'; now rewrite !Hfst
                         | intros j Hj; rewrite Hfst in Hj;
                           rewrite Hfr by lia; peel; reflexivity]]).
  - (* FMOB_NULL *)
    cbn [fst snd]. split; [congruence|]. split; reflexivity.
  - (* FMOB_VSC_INFO_RSP *)
    unfold fmapi_vsc_info_rsp.wf in H. split_wf H.
    unfold fmapi_vsc_info_rsp.serialize. cbv zeta. capacities.
    match goal with
    | Hall : forallb _ ?l = true, Hlen : Z.of_nat (length ?l) = ?n
      |- context [ser_each _ _ ?l ?n (?rv, ?d)] =>
        pose proof (fun d' => vsc_info_blk_entries l rv d' Hall) as He;
        rewrite Hlen in He
    end.
    match goal with |- context [ser_each _ _ _ _ (?rv, ?d)] =>
      destruct (He d) as (Hb & Heq & Hfr)
    end.
    split; [intros _; pow2; lia|]. split.
    + intros dst'. apply Heq.
    + intros j Hj. rewrite Hfr by lia. peel. reflexivity.
Qed.

(** X1.  [fmapi_serialize] of a well-formed object writes nothing
    outside the bytes it reports: every byte of the buffer before
    offset 0 or from the returned length on is what it was. *)
Theorem serialize_writes_within (x : object) (dst out : buffer) (n : Z) :
  well_formed x = true ->
  fmapi_serialize (Some dst) (Some x) (kind_of x) = Ret n (Some out) ->
  forall j, j < 0 \/ n <= j -> out j = dst j.
Proof.
  intros Hwf H j Hj.
  destruct (serialize_case_within dst x Hwf) as (_ & _ & Hfr).
  destruct x;
    try (rewrite serialize_as in H by discriminate;
         destruct (serialize_case dst _) as [n' out'] eqn:E;
         injection H as <- <-; cbn [fst snd] in Hfr; now apply Hfr).
  (* FMOB_NULL *)
  cbv in H. injection H as <- <-. reflexivity.
Qed.

Lemma serialize_writes_within_witness :
  snd (fmapi_vsc_bind_req.serialize (filled 255)
         (fmapi_vsc_bind_req.mk 1 2 3 0x1234)) 6
  = filled 255 6.
Proof.
  apply (serialize_writes_within
           (O_VSC_BIND_REQ (fmapi_vsc_bind_req.mk 1 2 3 0x1234)) (filled 255)
           _ 6).
  - reflexivity.
  - reflexivity.
  - right. lia.
Defined.

(** X2.  A well-formed object of any kind but [FMOB_NULL] takes
    at least one byte and at most [FMLN_PAYLOAD] bytes, and
    [fmapi_serialize] returns that number whatever the buffer holds. *)
Theorem serialize_length_bounds (x : object) :
  well_formed x = true -> x <> O_NULL ->
  exists n,
    1 <= n <= FMLN_PAYLOAD
    /\ forall dst,
         returned (fmapi_serialize (Some dst) (Some x) (kind_of x)) = Some n.
Proof.
  intros Hwf Hx.
  destruct (serialize_case_within (filled 0) x Hwf) as (Hb & Heq & _).
  exists (fst (serialize_case (filled 0) x)). split; [now apply Hb|].
  intros dst. rewrite serialize_as by assumption. rewrite <- (Heq dst).
  now destruct (serialize_case dst x).
Qed.

Lemma serialize_length_bounds_witness :
  exists n,
    1 <= n <= FMLN_PAYLOAD
    /\ forall dst,
         returned (fmapi_serialize (Some dst)
                     (Some (O_MPC_TMC_REQ
                              (fmapi_mpc_tmc_req.mk 1 3 0 [1; 2; 3])))
                     (kind_of (O_MPC_TMC_REQ
                                 (fmapi_mpc_tmc_req.mk 1 3 0 [1; 2; 3]))))
         = Some n.
Proof.
  apply (serialize_length_bounds
           (O_MPC_TMC_REQ (fmapi_mpc_tmc_req.mk 1 3 0 [1; 2; 3]))).
  - vm_compute. reflexivity.
  - discriminate.
Defined.

(** ** Headers off the wire *)

(** The length of a header, from the three bytes that hold it. *)
Lemma hdr_len_decoded s5 s6 s7 :
  0 <= s5 < 2 ^ 8 -> 0 <= s6 < 2 ^ 8 -> 0 <= s7 < 2 ^ 8 ->
  wrap 21 (Z.lor (Z.lor (Z.shiftl (Z.land s7 0x00F8) 13) (Z.shiftl s6 8)) s5)
  = s7 / 2 ^ 3 * 2 ^ 16 + s6 * 2 ^ 8 + s5.
Proof.
  intros H5 H6 H7. to_arith. lor_hi_lo 16. lor_hi_lo 8. dm.
Qed.

Lemma le16_decoded lo hi : 0 <= lo < 2 ^ 8 -> 0 <= hi < 2 ^ 8 ->
  u16 (Z.lor (Z.shiftl hi 8) lo) = hi * 2 ^ 8 + lo.
Proof. intros Hlo Hhi. to_arith. lor_hi_lo 8. dm. Qed.

(** The high nibble of byte 0 and the bits 0 and 3 to 7 of byte 7 come
    back. *)
Lemma hdr_byte_0 s0 : 0 <= s0 < 2 ^ 8 ->
  u8 (Z.land (Z.shiftl (wrap 4 (Z.land (Z.shiftr s0 4) 0x0F)) 4) 0xF0)
  = Z.land s0 0xF0.
Proof. intros H. to_arith. dm. Qed.

Lemma mask_F9 s : Z.land s 0xF9 = Z.lor (Z.land s 0xF8) (Z.land s 0x01).
Proof.
  apply Z.bits_inj'. intros n Hn. rewrite Z.lor_spec, !Z.land_spec.
  destruct (Z.ltb_spec n 8) as [H8 | H8].
  - assert (n = 0 \/ n = 1 \/ n = 2 \/ n = 3 \/ n = 4 \/ n = 5 \/ n = 6 \/ n = 7)
      as [-> | [-> | [-> | [-> | [-> | [-> | [-> | ->]]]]]]] by lia;
      destruct (Z.testbit s _); reflexivity.
  - assert (forall a, 0 <= a < 2 ^ 8 -> Z.testbit a n = false) as Hhigh.
    { intros a Ha. destruct (Z.eq_dec a 0) as [-> | Ha0]; [apply Z.bits_0|].
      apply Z.bits_above_log2; [lia|].
      apply Z.log2_lt_pow2; [lia|].
      apply Z.lt_le_trans with (2 ^ 8); [lia|].
      apply Z.pow_le_mono_r; lia. }
    rewrite (Hhigh 249), (Hhigh 248), (Hhigh 1) by (pow2; lia).
    now rewrite !andb_false_r.
Qed.

Lemma hdr_byte_7 s5 s6 s7 :
  0 <= s5 < 2 ^ 8 -> 0 <= s6 < 2 ^ 8 -> 0 <= s7 < 2 ^ 8 ->
  u8 (Z.lor (Z.land (Z.shiftr (s7 / 2 ^ 3 * 2 ^ 16 + s6 * 2 ^ 8 + s5) 13) 0x00F8)
            (Z.land (wrap 1 (Z.land s7 0x01)) 0x01))
  = Z.land s7 0xF9.
Proof.
  intros H5 H6 H7.
  rewrite mask_F9. to_arith. lor_hi_lo 3. lor_hi_lo 3. dm.
Qed.

(** X3.  A header decoded from any 12 bytes is well-formed, and
    encoding it gives the bytes it was decoded from, but for the bits
    that hold no member: the low nibble of byte 0 and the bits 1 and 2
    of byte 7 come back as zero, and byte 2 is not written. *)
Theorem hdr_decode_encode (src dst : buffer) (prior : fmapi_hdr.t) :
  byte_buffer src ->
  exists h out,
    fmapi_deserialize (Some (O_HDR prior)) (Some src) FMOB_HDR None
    = Ret 12 (Some (O_HDR h))
    /\ fmapi_hdr.wf h = true
    /\ fmapi_serialize (Some dst) (Some (O_HDR h)) FMOB_HDR = Ret 12 (Some out)
    /\ out 0 = Z.land (src 0) 0xF0
    /\ out 2 = dst 2
    /\ out 7 = Z.land (src 7) 0xF9
    /\ (forall j, In j [1; 3; 4; 5; 6; 8; 9; 10; 11] -> out j = src j).
Proof.
  intros Hb.
  pose proof (Hb 0) as H0. pose proof (Hb 1) as H1. pose proof (Hb 3) as H3.
  pose proof (Hb 4) as H4. pose proof (Hb 5) as H5. pose proof (Hb 6) as H6.
  pose proof (Hb 7) as H7. pose proof (Hb 8) as H8. pose proof (Hb 9) as H9.
  pose proof (Hb 10) as H10. pose proof (Hb 11) as H11.
  exists (snd (fmapi_hdr.deserialize src)),
         (snd (fmapi_hdr.serialize dst (snd (fmapi_hdr.deserialize src)))).
  split; [reflexivity|]. split.
  { apply hdr_wf_of_ranges; unfold fmapi_hdr.deserialize; cbn [snd];
      cbn [fmapi_hdr.category fmapi_hdr.tag fmapi_hdr.opcode
           fmapi_hdr.background fmapi_hdr.len fmapi_hdr.return_code
           fmapi_hdr.ext_status];
      try (pow2; lia);
      match goal with
      | |- _ <= wrap ?w ?v < _ => pose proof (wrap_range w v ltac:(lia)); pow2; lia
      | |- _ <= wrap ?w ?v <= _ => pose proof (wrap_range w v ltac:(lia)); pow2; lia
      | |- _ <= u16 ?v < _ => pose proof (wrap_range 16 v ltac:(lia)); unfold u16; pow2; lia
      end. }
  split; [reflexivity|].
  unfold fmapi_hdr.serialize, fmapi_hdr.deserialize. cbn [snd].
  cbn [fmapi_hdr.category fmapi_hdr.tag fmapi_hdr.opcode fmapi_hdr.background
       fmapi_hdr.len fmapi_hdr.return_code fmapi_hdr.ext_status].
  rewrite (hdr_len_decoded (src 5) (src 6) (src 7)) by assumption.
  rewrite !le16_decoded by assumption.
  cbv [store Z.eqb Pos.eqb].
  split; [now apply hdr_byte_0|]. split; [reflexivity|].
  split; [now apply hdr_byte_7|].
  cbv [In]. intros j Hj.
  repeat (destruct Hj as [<- | Hj];
          [first [ now apply u8_small | to_arith; dm ]|]).
  contradiction.
Qed.

Lemma hdr_decode_encode_witness :
  exists h out,
    fmapi_deserialize (Some (O_HDR fmapi_hdr.zero)) (Some (filled 255)) FMOB_HDR None
    = Ret 12 (Some (O_HDR h))
    /\ fmapi_hdr.wf h = true
    /\ fmapi_serialize (Some (filled 0)) (Some (O_HDR h)) FMOB_HDR
       = Ret 12 (Some out)
    /\ out 0 = Z.land (filled 255 0) 0xF0
    /\ out 2 = filled 0 2
    /\ out 7 = Z.land (filled 255 7) 0xF9
    /\ (forall j, In j [1; 3; 4; 5; 6; 8; 9; 10; 11] -> out j = filled 255 j).
Proof.
  apply (hdr_decode_encode (filled 255) (filled 0) fmapi_hdr.zero).
  intros j. unfold filled. simpl. lia.
Defined.

(** ** Flags that share a byte *)

(** Bit [k] of a byte, as the decoder takes it. *)
Lemma decoded_bit x k : 0 <= k < 8 ->
  u8 (Z.land (Z.shiftr (u8 x) k) 0x01) = Z.b2z (Z.testbit x k).
Proof.
  intros Hk.
  assert (Z.land (Z.shiftr (u8 x) k) 1 = Z.b2z (Z.testbit x k)) as ->.
  { rewrite (land_low _ 1 1) by (reflexivity || lia).
    change (2 ^ 1) with 2. rewrite <- Z.bit0_mod, Z.shiftr_spec by lia.
    unfold u8, wrap. rewrite Z.mod_pow2_bits_low by lia.
    now rewrite Z.add_0_l. }
  apply u8_small. destruct (Z.testbit x k); cbn; lia.
Qed.

(** X4.  The two flags of the QoS control object are written into
    byte 0 without a mask and read back as one bit each: after
    [fmapi_serialize] and [fmapi_deserialize], [epc_en] is bit 0 of the
    [epc_en] encoded, and [ttr_en] is set when bit 0 of [ttr_en] or
    bit 1 of [epc_en] was. *)
Theorem qos_ctrl_flags_not_masked
    (o prior : fmapi_mcc_qos_ctrl.t) (dst : buffer) :
  exists out y,
    fmapi_serialize (Some dst) (Some (O_MCC_QOS_CTRL o)) FMOB_MCC_QOS_CTRL
    = Ret 7 (Some out)
    /\ fmapi_deserialize (Some (O_MCC_QOS_CTRL prior)) (Some out)
                         FMOB_MCC_QOS_CTRL None
       = Ret 7 (Some (O_MCC_QOS_CTRL y))
    /\ fmapi_mcc_qos_ctrl.epc_en y
       = Z.b2z (Z.testbit (fmapi_mcc_qos_ctrl.epc_en o) 0)
    /\ fmapi_mcc_qos_ctrl.ttr_en y
       = Z.b2z (Z.testbit (fmapi_mcc_qos_ctrl.epc_en o) 1
                || Z.testbit (fmapi_mcc_qos_ctrl.ttr_en o) 0).
Proof.
  exists (snd (fmapi_mcc_qos_ctrl.serialize dst o)),
         (snd (fmapi_mcc_qos_ctrl.deserialize
                 (snd (fmapi_mcc_qos_ctrl.serialize dst o)))).
  split; [reflexivity|]. split; [reflexivity|].
  unfold fmapi_mcc_qos_ctrl.deserialize, fmapi_mcc_qos_ctrl.serialize.
  cbn [snd fmapi_mcc_qos_ctrl.epc_en fmapi_mcc_qos_ctrl.ttr_en].
  cbv [store Z.eqb Pos.eqb FMQT_EGRESS_PORT_CONGESTION_BIT
       FMQT_TEMP_THROUGHPUT_REDUCTION_BIT].
  rewrite !decoded_bit by lia.
  split; f_equal.
  - rewrite Z.lor_spec, Z.shiftl_spec by lia.
    rewrite (Z.testbit_neg_r _ (0 - 1)) by lia. rewrite orb_false_r.
    unfold u8 at 1, wrap. rewrite Z.mod_pow2_bits_low by lia.
    rewrite Z.lor_spec, Z.shiftl_0_r.
    replace (u8 0) with 0 by reflexivity. now rewrite Z.bits_0.
  - rewrite Z.lor_spec, Z.shiftl_spec by lia.
    replace (1 - 1) with 0 by reflexivity.
    unfold u8 at 1, wrap. rewrite Z.mod_pow2_bits_low by lia.
    rewrite Z.lor_spec, Z.shiftl_0_r.
    replace (u8 0) with 0 by reflexivity. now rewrite Z.bits_0.
Qed.

(** An [epc_en] of 2 comes back as [ttr_en]. *)
Example qos_ctrl_epc_2 :
  snd (fmapi_mcc_qos_ctrl.deserialize
         (snd (fmapi_mcc_qos_ctrl.serialize (filled 0)
                 (fmapi_mcc_qos_ctrl.mk 2 0 0 0 0 0 0))))
  = fmapi_mcc_qos_ctrl.mk 0 1 0 0 0 0 0.
Proof. vm_compute. reflexivity. Qed.

(** ** Counts the decoder takes from the wire *)

(** X5.  Decoding a tunnel object from any bytes stores the
    length field less one, reduced modulo [2 ^ 16], as the length and
    copies as many message bytes, without comparing it with the
    [FMLN_MPC_TUNNEL_PAYLOAD] bytes of the [msg] array: a length field of
    0 gives a length of 65535, and the length is within the array only
    for the length fields 1 to [FMLN_MPC_TUNNEL_PAYLOAD + 1]. *)
Theorem tunnel_decode_length_unchecked (prior : object) (src : buffer) :
  is_tunnel prior = true -> byte_buffer src ->
  exists y,
    fmapi_deserialize (Some prior) (Some src) (kind_of prior) None
    = Ret (5 + tunnel_len y) (Some y)
    /\ kind_of y = kind_of prior
    /\ tunnel_len y = (le16_at src (tunnel_len_field prior) - 1) mod 2 ^ 16
    /\ Z.of_nat (length (tunnel_msg y)) = tunnel_len y
    /\ (le16_at src (tunnel_len_field prior) = 0 -> tunnel_len y = 65535)
    /\ (tunnel_len y <= FMLN_MPC_TUNNEL_PAYLOAD
        <-> 1 <= le16_at src (tunnel_len_field prior)
                 <= FMLN_MPC_TUNNEL_PAYLOAD + 1).
Proof.
  intros Hp Hsrc.
  assert (forall lo hi, 0 <= lo < 2 ^ 8 -> 0 <= hi < 2 ^ 8 ->
            let v := lo + 2 ^ 8 * hi in
            0 <= (v - 1) mod 2 ^ 16
            /\ (v = 0 -> (v - 1) mod 2 ^ 16 = 65535)
            /\ ((v - 1) mod 2 ^ 16 <= FMLN_MPC_TUNNEL_PAYLOAD
                <-> 1 <= v <= FMLN_MPC_TUNNEL_PAYLOAD + 1)) as Harith.
  { intros lo hi Hlo Hhi v. subst v. capacities. pow2.
    repeat split; intros; Z.div_mod_to_equations; lia. }
  destruct prior; try discriminate Hp; cbn [tunnel_len_field kind_of].
  - pose proof (Hsrc 2) as H2. pose proof (Hsrc 3) as H3.
    destruct (Harith (src 2) (src 3) H2 H3) as (Hn & Hz & Hcap).
    exists (O_MPC_TMC_REQ (snd (fmapi_mpc_tmc_req.deserialize src))).
    change (fmapi_deserialize (Some (O_MPC_TMC_REQ o)) (Some src)
                              FMOB_MPC_TMC_REQ None)
      with (let '(rv, y) := fmapi_mpc_tmc_req.deserialize src in
            Ret rv (Some (O_MPC_TMC_REQ y))).
    unfold fmapi_mpc_tmc_req.deserialize, FMLN_MPC_TUNNEL_CMD_REQ, le16_at.
    cbv zeta. cbn [snd kind_of tunnel_len tunnel_msg
                   fmapi_mpc_tmc_req.len fmapi_mpc_tmc_req.msg].
    replace (2 + 1) with 3 by reflexivity.
    rewrite le16_read by assumption. unfold u16, wrap.
    split; [reflexivity|]. split; [reflexivity|]. split; [reflexivity|].
    split; [apply memcpy_from_length; assumption|].
    split; [exact Hz | exact Hcap].
  - pose proof (Hsrc 0) as H0. pose proof (Hsrc 1) as H1.
    destruct (Harith (src 0) (src 1) H0 H1) as (Hn & Hz & Hcap).
    exists (O_MPC_TMC_RSP (snd (fmapi_mpc_tmc_rsp.deserialize src))).
    change (fmapi_deserialize (Some (O_MPC_TMC_RSP o)) (Some src)
                              FMOB_MPC_TMC_RSP None)
      with (let '(rv, y) := fmapi_mpc_tmc_rsp.deserialize src in
            Ret rv (Some (O_MPC_TMC_RSP y))).
    unfold fmapi_mpc_tmc_rsp.deserialize, FMLN_MPC_TUNNEL_CMD_REQ,
      FMLN_MPC_TUNNEL_CMD_RESP, le16_at.
    cbv zeta. cbn [snd kind_of tunnel_len tunnel_msg
                   fmapi_mpc_tmc_rsp.len fmapi_mpc_tmc_rsp.msg].
    replace (0 + 1) with 1 by reflexivity.
    rewrite le16_read by assumption. unfold u16, wrap.
    split; [reflexivity|]. split; [reflexivity|]. split; [reflexivity|].
    split; [apply memcpy_from_length; assumption|].
    split; [exact Hz | exact Hcap].
Qed.

Lemma tunnel_decode_length_unchecked_witness :
  exists y,
    fmapi_deserialize (Some (O_MPC_TMC_RSP fmapi_mpc_tmc_rsp.zero))
                      (Some (filled 0))
                      (kind_of (O_MPC_TMC_RSP fmapi_mpc_tmc_rsp.zero)) None
    = Ret (5 + tunnel_len y) (Some y)
    /\ kind_of y = kind_of (O_MPC_TMC_RSP fmapi_mpc_tmc_rsp.zero)
    /\ tunnel_len y
       = (le16_at (filled 0)
                  (tunnel_len_field (O_MPC_TMC_RSP fmapi_mpc_tmc_rsp.zero)) - 1)
         mod 2 ^ 16
    /\ Z.of_nat (length (tunnel_msg y)) = tunnel_len y
    /\ (le16_at (filled 0)
                (tunnel_len_field (O_MPC_TMC_RSP fmapi_mpc_tmc_rsp.zero)) = 0 ->
        tunnel_len y = 65535)
    /\ (tunnel_len y <= FMLN_MPC_TUNNEL_PAYLOAD
        <-> 1 <= le16_at (filled 0)
                         (tunnel_len_field (O_MPC_TMC_RSP fmapi_mpc_tmc_rsp.zero))
              <= FMLN_MPC_TUNNEL_PAYLOAD + 1).
Proof.
  apply (tunnel_decode_length_unchecked
           (O_MPC_TMC_RSP fmapi_mpc_tmc_rsp.zero) (filled 0)).
  - reflexivity.
  - intros j. unfold filled. simpl. lia.
Defined.

(** X6.  When the total of a virtual switch info block is
    below the start of the request, the difference wraps as the [__u8]
    it is stored in: the decoder takes
    [min(vppbid_limit, 256 + total - vppbid_start)] entries, which is
    not 0 unless the limit is, and consumes 4 bytes for each. *)
Theorem vsc_info_blk_total_below_start
    (r : fmapi_vsc_info_req.t) (prior : fmapi_vsc_info_blk.t) (src : buffer) :
  is_request r = true -> 0 <= src 3 < 2 ^ 8 ->
  src 3 < fmapi_vsc_info_req.vppbid_start r ->
  exists o,
    fmapi_deserialize (Some (O_VSC_INFO_BLK prior)) (Some src)
                      FMOB_VSC_INFO_BLK (Some r)
    = Ret (4 + 4 * fmapi_vsc_info_blk.num o) (Some (O_VSC_INFO_BLK o))
    /\ fmapi_vsc_info_blk.num o
       = Z.min (fmapi_vsc_info_req.vppbid_limit r)
               (2 ^ 8 + src 3 - fmapi_vsc_info_req.vppbid_start r)
    /\ Z.of_nat (length (fmapi_vsc_info_blk.list o)) = fmapi_vsc_info_blk.num o
    /\ (0 < fmapi_vsc_info_req.vppbid_limit r -> 0 < fmapi_vsc_info_blk.num o).
Proof.
  intros Hr Ht Hs. pose proof Hr as Hr'. unfold is_request in Hr'. split_wf Hr'.
  set (n := Z.min (fmapi_vsc_info_req.vppbid_limit r)
                  (2 ^ 8 + src 3 - fmapi_vsc_info_req.vppbid_start r)).
  assert ((if fmapi_vsc_info_req.vppbid_limit r
              <? u8 (src 3 - fmapi_vsc_info_req.vppbid_start r)
           then fmapi_vsc_info_req.vppbid_limit r
           else u8 (src 3 - fmapi_vsc_info_req.vppbid_start r)) = n /\ 0 <= n)
    as [Hn Hn0].
  { assert (u8 (src 3 - fmapi_vsc_info_req.vppbid_start r)
            = 2 ^ 8 + src 3 - fmapi_vsc_info_req.vppbid_start r) as ->.
    { unfold u8, wrap. pow2. Z.div_mod_to_equations. lia. }
    subst n.
    destruct (Z.ltb_spec (fmapi_vsc_info_req.vppbid_limit r)
                (2 ^ 8 + src 3 - fmapi_vsc_info_req.vppbid_start r)); pow2; lia. }
  destruct (deser_each_fixed fmapi_vsc_ppb_stat_blk.deserialize
              FMLN_VSC_PPB_STATUS src n FMLN_VSC_INFO (fun _ => eq_refl) Hn0)
    as [H1 H2].
  exists (snd (fmapi_vsc_info_blk.deserialize_with r src)).
  change (fmapi_deserialize (Some (O_VSC_INFO_BLK prior)) (Some src)
                            FMOB_VSC_INFO_BLK (Some r))
    with (let '(rv, y) := fmapi_vsc_info_blk.deserialize_with r src in
          Ret rv (Some (O_VSC_INFO_BLK y))).
  unfold fmapi_vsc_info_blk.deserialize_with. cbv zeta. rewrite Hn.
  destruct (deser_each _ src n FMLN_VSC_INFO) as [rv l].
  cbn [fst snd] in *. cbn [fmapi_vsc_info_blk.num fmapi_vsc_info_blk.list].
  rewrite H1. unfold FMLN_VSC_INFO, FMLN_VSC_PPB_STATUS.
  split; [reflexivity|]. split; [reflexivity|]. split; [assumption|].
  subst n. pow2. lia.
Qed.

Lemma vsc_info_blk_total_below_start_witness :
  exists o,
    fmapi_deserialize (Some (O_VSC_INFO_BLK fmapi_vsc_info_blk.zero))
                      (Some (filled 1)) FMOB_VSC_INFO_BLK
                      (Some (fmapi_vsc_info_req.mk 2 6 1 [0]))
    = Ret (4 + 4 * fmapi_vsc_info_blk.num o) (Some (O_VSC_INFO_BLK o))
    /\ fmapi_vsc_info_blk.num o = Z.min 6 (2 ^ 8 + filled 1 3 - 2)
    /\ Z.of_nat (length (fmapi_vsc_info_blk.list o)) = fmapi_vsc_info_blk.num o
    /\ (0 < 6 -> 0 < fmapi_vsc_info_blk.num o).
Proof.
  apply (vsc_info_blk_total_below_start (fmapi_vsc_info_req.mk 2 6 1 [0])
           fmapi_vsc_info_blk.zero (filled 1)).
  - reflexivity.
  - unfold filled. simpl. lia.
  - unfold filled. simpl. lia.
Defined.

(** ** What the builders leave *)






(** The first [n] entries of an array, read one by one. *)
Lemma map_nth_firstn {T} (d : T) : forall n l, (n <= length l)%nat ->
  map (fun k => nth k l d) (seq 0 n) = firstn n l.
Proof.
  induction n as [|n IH]; intros l Hn; [reflexivity|].
  destruct l as [|x l]; [cbn in Hn; lia|].
  cbn [seq map firstn nth]. f_equal.
  rewrite <- seq_shift, map_map. cbn [nth]. apply IH. cbn in Hn. lia.
Qed.

Lemma read_array_firstn l num :
  0 < num -> num <= Z.of_nat (length l) ->
  read_array (Some l) num = Some (firstn (Z.to_nat num) l).
Proof.
  intros H0 Hlen. unfold read_array.
  destruct (Z.leb_spec num 0); [lia|].
  unfold for_upto. rewrite for_loop_app. cbn [app]. f_equal.
  rewrite <- (map_nth_firstn 0) by lia.
  apply map_ext. intros k. unfold elem. f_equal. lia.
Qed.

Lemma is_bytes_firstn n : forall l,
  is_bytes l = true -> is_bytes (firstn n l) = true.
Proof.
  unfold is_bytes. induction n as [|n IH]; intros [|x l] H; try reflexivity.
  cbn [firstn forallb] in *. apply andb_prop in H. destruct H as [Hx Hl].
  rewrite Hx. cbn [andb]. now apply IH.
Qed.

(** X10.  [fmapi_fill_psc_get_ports] reads the first [num]
    entries of the list and stores [num] as a byte: the list is not
    read for [num = 0], a NULL list is dereferenced for [num > 0], and
    of the counts the [ports] array has room for the request is
    well-formed only up to 255; for [num = 256] the 256 ports are
    copied and the count stored is 0. *)
Theorem fill_psc_get_ports_reads_num_entries
    (m : fmapi_msg.t) (num : Z) (l : list Z) :
  is_bytes l = true -> 0 < num <= Z.of_nat (length l) ->
  num <= FM_MAX_PORTS ->
  fmapi_fill_psc_get_ports (Some m) 0 None
  = Ret 0 (Some {| fmapi_msg.hdr := cleared_hdr FMOP_PSC_PORT;
                   fmapi_msg.buf := fmapi_msg.buf m;
                   fmapi_msg.obj :=
                     O_PSC_PORT_REQ {| fmapi_psc_port_req.num := 0;
                                       fmapi_psc_port_req.ports := [] |} |})
  /\ fmapi_fill_psc_get_ports (Some m) num None = Fault
  /\ exists o,
       fmapi_fill_psc_get_ports (Some m) num (Some l)
       = Ret 0 (Some {| fmapi_msg.hdr := cleared_hdr FMOP_PSC_PORT;
                        fmapi_msg.buf := fmapi_msg.buf m;
                        fmapi_msg.obj := O_PSC_PORT_REQ o |})
       /\ fmapi_psc_port_req.num o = num mod 2 ^ 8
       /\ fmapi_psc_port_req.ports o = firstn (Z.to_nat num) l
       /\ (fmapi_psc_port_req.wf o = true <-> num <= 255)
       /\ (num = 256 -> fmapi_psc_port_req.num o = 0).
Proof.
  intros Hb [H0 Hlen] Hcap. split; [reflexivity|]. split.
  { unfold fmapi_fill_psc_get_ports, fill, read_array.
    destruct (Z.leb_spec num 0); [lia|reflexivity]. }
  exists {| fmapi_psc_port_req.num := u8 num;
            fmapi_psc_port_req.ports := firstn (Z.to_nat num) l |}.
  split.
  { unfold fmapi_fill_psc_get_ports, fill.
    now rewrite (read_array_firstn l num H0 Hlen). }
  cbn [fmapi_psc_port_req.num fmapi_psc_port_req.ports].
  split; [reflexivity|]. split; [reflexivity|]. split.
  - unfold fmapi_psc_port_req.wf.
    cbn [fmapi_psc_port_req.num fmapi_psc_port_req.ports].
    pose proof (wrap_range 8 num ltac:(lia)) as Hw. fold (u8 num) in Hw.
    assert (Z.of_nat (length (firstn (Z.to_nat num) l)) = num) as Hl
      by (rewrite length_firstn; lia).
    rewrite !andb_true_iff, in_bits_iff, Z.leb_le, has_len_iff, Hl.
    unfold FM_MAX_PORTS. split.
    + intros [[[_ _] Hn] _]. pow2. lia.
    + intros Hn. rewrite (u8_small num) by (pow2; lia).
      repeat split; try (pow2; lia). now apply is_bytes_firstn.
  - intros ->. reflexivity.
Qed.

Lemma fill_psc_get_ports_reads_num_entries_witness :
  fmapi_fill_psc_get_ports
    (Some (fmapi_msg.mk fmapi_hdr.zero buf_caller O_NULL)) 0 None
  = Ret 0 (Some {| fmapi_msg.hdr := cleared_hdr FMOP_PSC_PORT;
                   fmapi_msg.buf := buf_caller;
                   fmapi_msg.obj :=
                     O_PSC_PORT_REQ {| fmapi_psc_port_req.num := 0;
                                       fmapi_psc_port_req.ports := [] |} |})
  /\ fmapi_fill_psc_get_ports
       (Some (fmapi_msg.mk fmapi_hdr.zero buf_caller O_NULL)) 2 None = Fault
  /\ exists o,
       fmapi_fill_psc_get_ports
         (Some (fmapi_msg.mk fmapi_hdr.zero buf_caller O_NULL)) 2 (Some [7; 9; 11])
       = Ret 0 (Some {| fmapi_msg.hdr := cleared_hdr FMOP_PSC_PORT;
                        fmapi_msg.buf := buf_caller;
                        fmapi_msg.obj := O_PSC_PORT_REQ o |})
       /\ fmapi_psc_port_req.num o = 2 mod 2 ^ 8
       /\ fmapi_psc_port_req.ports o = firstn (Z.to_nat 2) [7; 9; 11]
       /\ (fmapi_psc_port_req.wf o = true <-> 2 <= 255)
       /\ (2 = 256 -> fmapi_psc_port_req.num o = 0).
Proof.
  apply (fill_psc_get_ports_reads_num_entries
           (fmapi_msg.mk fmapi_hdr.zero buf_caller O_NULL) 2 [7; 9; 11]).
  - reflexivity.
  - simpl. lia.
  - unfold FM_MAX_PORTS. lia.
Defined.

(** ** The tunnel builder *)






(** ** The kinds the opcode tables give *)

(** An opcode with an entry in one of the tables is a known one. *)
Lemma fmob_known opcode :
  fmapi_fmob_req opcode <> FMOB_NULL \/ fmapi_fmob_rsp opcode <> FMOB_NULL ->
  In opcode known_opcodes.
Proof.
  intros H. destruct (in_dec Z.eq_dec opcode known_opcodes) as [Hin | Hin];
    [assumption|].
  destruct (fmob_unknown opcode Hin) as [H1 H2].
  exfalso. destruct H as [H | H]; [exact (H H1) | exact (H H2)].
Qed.

(** X12.  The request table gives no two commands the same kind of
    object; neither table gives the kind of a header or of an array
    entry; and the two tables give one command the same kind only for
    the four commands that answer with the struct they were sent. *)
Theorem opcode_tables_kinds (a b : Z) :
  (fmapi_fmob_req a = fmapi_fmob_req b -> fmapi_fmob_req a <> FMOB_NULL -> a = b)
  /\ ~ In (fmapi_fmob_req a) nested_kinds
  /\ ~ In (fmapi_fmob_rsp a) nested_kinds
  /\ (fmapi_fmob_req a = fmapi_fmob_rsp a ->
      In a same_struct_commands \/ fmapi_fmob_req a = FMOB_NULL)
  /\ (In a same_struct_commands -> fmapi_fmob_req a = fmapi_fmob_rsp a).
Proof.
  split; [|split; [|split; [|split]]].
  - intros E N.
    assert (In a known_opcodes) as Ha by (apply fmob_known; now left).
    assert (In b known_opcodes) as Hb
      by (apply fmob_known; left; now rewrite <- E).
    assert (forall x, In x known_opcodes -> fmapi_fmob_req x <> FMOB_NULL ->
              find (fun op => fmapi_fmob_req op =? fmapi_fmob_req x) known_opcodes
              = Some x) as Hinv.
    { intros x Hx Nx. unfold known_opcodes in Hx. cbv [In] in Hx.
      repeat (destruct Hx as [<- | Hx];
              [first [ vm_compute; reflexivity
                     | exfalso; apply Nx; reflexivity ]|]).
      contradiction. }
    pose proof (Hinv a Ha N) as Ia.
    assert (fmapi_fmob_req b <> FMOB_NULL) as Nb by (now rewrite <- E).
    pose proof (Hinv b Hb Nb) as Ib.
    rewrite E in Ia. congruence.
  - destruct (in_dec Z.eq_dec a known_opcodes) as [Ha | Ha].
    + unfold known_opcodes in Ha. cbv [In] in Ha.
      repeat (destruct Ha as [<- | Ha]; [vm_compute; intuition discriminate|]).
      contradiction.
    + destruct (fmob_unknown a Ha) as [-> _]. vm_compute. intuition discriminate.
  - destruct (in_dec Z.eq_dec a known_opcodes) as [Ha | Ha].
    + unfold known_opcodes in Ha. cbv [In] in Ha.
      repeat (destruct Ha as [<- | Ha]; [vm_compute; intuition discriminate|]).
      contradiction.
    + destruct (fmob_unknown a Ha) as [_ ->]. vm_compute. intuition discriminate.
  - intros E.
    destruct (in_dec Z.eq_dec a known_opcodes) as [Ha | Ha].
    + unfold known_opcodes in Ha. cbv [In] in Ha.
      repeat (destruct Ha as [<- | Ha];
              [first [ exfalso; vm_compute in E; discriminate E
                     | left; unfold same_struct_commands; in_list
                     | right; reflexivity ]|]).
      contradiction.
    + right. now destruct (fmob_unknown a Ha).
  - unfold same_struct_commands. cbv [In].
    intros H. repeat (destruct H as [<- | H]; [reflexivity|]). contradiction.
Qed.

(** ** The names of the enumerations *)

(** An index within the table reads an entry of the table. *)
Lemma entry_within table i : 0 <= i < Z.of_nat (length table) ->
  entry table i = Name (nth (Z.to_nat i) table EmptyString)
  /\ In (nth (Z.to_nat i) table EmptyString) table.
Proof.
  intros Hi. unfold entry.
  destruct (Z.leb_spec 0 i); [|lia].
  destruct (Z.ltb_spec i (Z.of_nat (length table))); [|lia].
  split; [reflexivity|]. apply nth_In. lia.
Qed.

(** An index outside the table reads past it. *)
Lemma entry_outside table i : i < 0 \/ Z.of_nat (length table) <= i ->
  entry table i = Past_table.
Proof.
  intros Hi. unfold entry.
  destruct (Z.leb_spec 0 i), (Z.ltb_spec i (Z.of_nat (length table)));
    try reflexivity; lia.
Qed.

(** A function that tests the bound of its table. *)
Lemma checked_lookup (f : Z -> name) table max u :
  (forall v, f v = if max <=? v then Null else entry table v) ->
  Z.of_nat (length table) = max ->
  Forall (fun s => s <> EmptyString) table ->
  0 <= u ->
  (max <= u -> f u = Null)
  /\ (u < max -> exists s, f u = Name s /\ s = nth (Z.to_nat u) table EmptyString
                           /\ In s table /\ s <> EmptyString).
Proof.
  intros Hf Hlen Hne Hu. rewrite Hf. split; intros H.
  - apply Z.leb_le in H. now rewrite H.
  - destruct (Z.leb_spec max u); [lia|].
    destruct (entry_within table u) as [He Hin]; [lia|].
    eexists. split; [exact He|]. split; [reflexivity|]. split; [exact Hin|].
    rewrite Forall_forall in Hne. now apply Hne.
Qed.

(** X13.  The thirteen functions that compare their argument with the
    bound of the enumeration never read past their table: the table has
    as many entries as the bound says, the function returns NULL from
    the bound on, and below it the entry of that index, which is not the
    empty string. *)
Theorem checked_tables_in_bounds (u : Z) :
  0 <= u ->
  Forall (fun '(f, table, max) =>
            Z.of_nat (length table) = max
            /\ (max <= u -> f u = Null)
            /\ (u < max ->
                exists s, f u = Name s
                          /\ s = nth (Z.to_nat u) table EmptyString
                          /\ In s table /\ s <> EmptyString))
         checked_tables.
Proof.
  intros Hu. unfold checked_tables.
  repeat (apply Forall_cons;
          [ split; [reflexivity|];
            apply checked_lookup;
            [ reflexivity | reflexivity | repeat constructor; discriminate
            | exact Hu ] |]).
  apply Forall_nil.
Qed.

Lemma checked_tables_in_bounds_witness :
  Forall (fun '(f, table, max) =>
            Z.of_nat (length table) = max
            /\ (max <= 3 -> f 3 = Null)
            /\ (3 < max ->
                exists s, f 3 = Name s
                          /\ s = nth (Z.to_nat 3) table EmptyString
                          /\ In s table /\ s <> EmptyString))
         checked_tables.
Proof. apply (checked_tables_in_bounds 3). lia. Defined.

(** X14.  [fmub] indexes the table of the link speeds: for the three
    unbind options it returns the names "PCIe1", "PCIe2" and "PCIe3" of
    [STR_FMSS], never a name of [STR_FMUB]; from [FMUB_MAX] on it
    returns NULL. *)
Theorem fmub_reads_link_speeds (u : Z) :
  0 <= u ->
  (FMUB_MAX <= u -> fmub u = Null)
  /\ (u < FMUB_MAX ->
      exists s, fmub u = Name s
                /\ s = nth (Z.to_nat u) STR_FMSS EmptyString
                /\ In s STR_FMSS /\ ~ In s STR_FMUB).
Proof.
  intros Hu. split; intros H.
  - unfold fmub. apply Z.leb_le in H. now rewrite H.
  - unfold FMUB_MAX in H.
    assert (u = 0 \/ u = 1 \/ u = 2) as [-> | [-> | ->]] by lia;
      (eexists; split; [reflexivity|]; split; [reflexivity|]; split;
       [ cbn; tauto | cbn; intuition discriminate ]).
Qed.

Lemma fmub_reads_link_speeds_witness :
  (FMUB_MAX <= 0 -> fmub 0 = Null)
  /\ (0 < FMUB_MAX ->
      exists s, fmub 0 = Name s
                /\ s = nth (Z.to_nat 0) STR_FMSS EmptyString
                /\ In s STR_FMSS /\ ~ In s STR_FMUB).
Proof. apply (fmub_reads_link_speeds 0). lia. Defined.

(** X15.  [fmps] names the six port states below [FMPS_MAX]; for
    [FMPS_INVALID] it reads entry [FMPS_MAX] of the table, an empty
    string, and not entry [0x0F]; for every other value it returns
    NULL.  It returns the name "Invalid" for no value. *)
Theorem fmps_names (u : Z) :
  0 <= u ->
  (u < FMPS_MAX ->
     exists s, fmps u = Name s /\ s = nth (Z.to_nat u) STR_FMPS EmptyString
               /\ s <> EmptyString)
  /\ (u = FMPS_INVALID -> fmps u = Name EmptyString)
  /\ (FMPS_MAX <= u -> u <> FMPS_INVALID -> fmps u = Null)
  /\ fmps u <> Name "Invalid"
  /\ nth (Z.to_nat FMPS_INVALID) STR_FMPS EmptyString = "Invalid"%string.
Proof.
  intros Hu. unfold FMPS_MAX, FMPS_INVALID.
  assert (forall v, 6 <= v -> v <> 15 -> fmps v = Null) as Hnull.
  { intros v H6 H15. unfold fmps, FMPS_INVALID, FMPS_MAX.
    destruct (Z.eqb_spec v 15); [contradiction|].
    destruct (Z.leb_spec 6 v); [reflexivity|lia]. }
  repeat split.
  - intros H.
    assert (u = 0 \/ u = 1 \/ u = 2 \/ u = 3 \/ u = 4 \/ u = 5)
      as [-> | [-> | [-> | [-> | [-> | ->]]]]] by lia;
      (eexists; split; [reflexivity|]; split; [reflexivity|discriminate]).
  - intros ->. reflexivity.
  - apply Hnull.
  - destruct (Z.eq_dec u 15) as [-> | H15]; [discriminate|].
    destruct (Z.le_gt_cases 6 u) as [H6 | H6].
    + rewrite Hnull by assumption. discriminate.
    + assert (u = 0 \/ u = 1 \/ u = 2 \/ u = 3 \/ u = 4 \/ u = 5)
        as [-> | [-> | [-> | [-> | [-> | ->]]]]] by lia; discriminate.
Qed.

Lemma fmps_names_witness :
  0 <= FMPS_INVALID /\ fmps FMPS_INVALID = Name EmptyString.
Proof.
  assert (0 <= FMPS_INVALID) as H by (unfold FMPS_INVALID; lia).
  split; [exact H|].
  exact (proj1 (proj2 (fmps_names FMPS_INVALID H)) eq_refl).
Defined.

(** X16.  [fmnw] has no NULL result: for the four link widths it
    returns their names, and for every other value its [default] case
    takes index 4 of a table of four entries, so the read is past the
    table. *)
Theorem fmnw_default_reads_past_table (u : Z) :
  Z.of_nat (length STR_FMNW) = 4
  /\ fmnw u <> Null
  /\ (In u [FMNW_X1; FMNW_X2; FMNW_X4; FMNW_X8] ->
      exists s, fmnw u = Name s /\ In s STR_FMNW)
  /\ (~ In u [FMNW_X1; FMNW_X2; FMNW_X4; FMNW_X8] -> fmnw u = Past_table).
Proof.
  split; [reflexivity|].
  unfold fmnw, FMNW_X1, FMNW_X2, FMNW_X4, FMNW_X8. cbn [In].
  destruct (Z.eqb_spec u 16) as [-> | H1];
    [repeat split; try discriminate; try (intros; eexists; split; [reflexivity|cbn; tauto]);
     intros N; exfalso; apply N; tauto|].
  destruct (Z.eqb_spec u 32) as [-> | H2];
    [repeat split; try discriminate; try (intros; eexists; split; [reflexivity|cbn; tauto]);
     intros N; exfalso; apply N; tauto|].
  destruct (Z.eqb_spec u 64) as [-> | H3];
    [repeat split; try discriminate; try (intros; eexists; split; [reflexivity|cbn; tauto]);
     intros N; exfalso; apply N; tauto|].
  destruct (Z.eqb_spec u 128) as [-> | H4];
    [repeat split; try discriminate; try (intros; eexists; split; [reflexivity|cbn; tauto]);
     intros N; exfalso; apply N; tauto|].
  repeat split; try discriminate.
  intros [H | [H | [H | [H | []]]]]; congruence.
Qed.

(** A function that picks its index in a [switch] over [cases], the
    case of the [k]-th value taking index [k]. *)
Lemma switched_lookup (f : Z -> name) table cases u :
  length cases = length table ->
  (forall k, (k < length cases)%nat ->
     f (nth k cases 0) = entry table (Z.of_nat k)) ->
  (~ In u cases -> f u = Null) ->
  f u <> Past_table
  /\ (f u = Null <-> ~ In u cases)
  /\ (In u cases -> exists s, f u = Name s /\ In s table).
Proof.
  intros Hlen Hcase Hdef.
  assert (In u cases -> exists s, f u = Name s /\ In s table) as Hin.
  { intros H. apply (In_nth _ _ 0) in H. destruct H as (k & Hk & <-).
    rewrite Hcase by assumption.
    destruct (entry_within table (Z.of_nat k)) as [He Hi]; [lia|].
    eexists. split; [exact He | exact Hi]. }
  split; [|split; [|exact Hin]].
  - destruct (in_dec Z.eq_dec u cases) as [H | H].
    + destruct (Hin H) as (s & Hs & _). rewrite Hs. discriminate.
    + rewrite (Hdef H). discriminate.
  - split; [|exact Hdef].
    intros Hn H. destruct (Hin H) as (s & Hs & _). congruence.
Qed.

(** X17.  The five functions that pick the index of the table in a
    [switch] read within their table: each returns a name of its table
    for the values that have a [case], and NULL for every other
    value. *)
Theorem switched_tables_in_bounds (u : Z) :
  Forall (fun '(f, table, cases) =>
            f u <> Past_table
            /\ (f u = Null <-> ~ In u cases)
            /\ (In u cases -> exists s, f u = Name s /\ In s table))
         switched_tables.
Proof.
  unfold switched_tables.
  repeat (apply Forall_cons;
          [ apply switched_lookup;
            [ reflexivity
            | intros k Hk; cbn [length] in Hk;
              repeat (destruct k as [|k]; [reflexivity|]); lia
            | cbn [In]; intros N;
              match goal with |- ?f u = Null => unfold f end;
              repeat match goal with
                     | |- context [u =? ?c] =>
                         destruct (Z.eqb_spec u c);
                         [exfalso; apply N; subst u; tauto|]
                     end;
              reflexivity ] |]).
  apply Forall_nil.
Qed.

(** The group and the index [fmop] takes from an opcode. *)
Lemma fmop_group u : Z.land (Z.shiftr u 8) 0x0F = (u / 2 ^ 8) mod 2 ^ 4.
Proof.
  rewrite Z.shiftr_div_pow2 by lia. now rewrite (land_low _ 4 15) by (reflexivity || lia).
Qed.

Lemma fmop_index u : Z.land u 0x00FF = u mod 2 ^ 8.
Proof. now rewrite (land_low _ 8 255) by (reflexivity || lia). Qed.

(** [fmop] by the group and the index. *)
Lemma fmop_cases u g i :
  (u / 2 ^ 8) mod 2 ^ 4 = g -> u mod 2 ^ 8 = i ->
  fmop u
  = if g =? 1 then (if 4 <=? i then Null else entry STR_FMOP_1 i)
    else if g =? 2 then (if 4 <=? i then Null else entry STR_FMOP_2 i)
    else if g =? 3 then (if 3 <=? i then Null else entry STR_FMOP_3 i)
    else if g =? 4 then (if 10 <=? i then Null else entry STR_FMOP_4 i)
    else Null.
Proof. intros <- <-. unfold fmop. cbv zeta. now rewrite fmop_group, fmop_index. Qed.

(** X18.  [fmop] looks at bits 8 to 11 and bits 0 to 7 of the opcode
    only: it reads within its four tables, names nothing but the low 12
    bits of the 21 opcodes from [0x5100] to [0x5409], and returns NULL
    for the four opcodes below [0x100] that the opcode tables know. *)
Theorem fmop_names (u : Z) :
  fmop u <> Past_table
  /\ fmop (u mod 2 ^ 12) = fmop u
  /\ (fmop u <> Null -> In (0x5000 + u mod 2 ^ 12) known_opcodes)
  /\ (In u known_opcodes -> (fmop u = Null <-> u < 0x100)).
Proof.
  pose proof (Z.mod_pos_bound u (2 ^ 8) ltac:(lia)) as Hi.
  pose proof (Z.mod_pos_bound (u / 2 ^ 8) (2 ^ 4) ltac:(lia)) as Hg.
  assert (u mod 2 ^ 12 = 2 ^ 8 * ((u / 2 ^ 8) mod 2 ^ 4) + u mod 2 ^ 8) as H12.
  { pow2. Z.div_mod_to_equations. lia. }
  split; [|split; [|split]].
  - rewrite (fmop_cases u _ _ eq_refl eq_refl).
    repeat match goal with
           | |- context [?a =? ?b] => destruct (Z.eqb_spec a b)
           | |- context [?a <=? ?b] => destruct (Z.leb_spec a b)
           end; try discriminate;
      match goal with
      | |- entry ?t ?i <> _ =>
          destruct (entry_within t i) as [-> _];
          [ let n := eval vm_compute in (Z.of_nat (length t)) in
            change (Z.of_nat (length t)) with n; pow2; lia
          | discriminate ]
      end.
  - rewrite (fmop_cases (u mod 2 ^ 12) ((u / 2 ^ 8) mod 2 ^ 4) (u mod 2 ^ 8)),
            (fmop_cases u _ _ eq_refl eq_refl);
      [reflexivity | pow2; Z.div_mod_to_equations; lia
                   | pow2; Z.div_mod_to_equations; lia].
  - rewrite (fmop_cases u _ _ eq_refl eq_refl), H12.
    set (g := (u / 2 ^ 8) mod 2 ^ 4) in *. set (i := u mod 2 ^ 8) in *.
    pow2. unfold known_opcodes.
    destruct (Z.eqb_spec g 1) as [-> |];
      [destruct (Z.leb_spec 4 i); [congruence|];
       intros _; assert (i = 0 \/ i = 1 \/ i = 2 \/ i = 3) as Hc by lia;
       clearbody i; cbv [In]; intuition (subst; auto 30)|].
    destruct (Z.eqb_spec g 2) as [-> |];
      [destruct (Z.leb_spec 4 i); [congruence|];
       intros _; assert (i = 0 \/ i = 1 \/ i = 2 \/ i = 3) as Hc by lia;
       clearbody i; cbv [In]; intuition (subst; auto 30)|].
    destruct (Z.eqb_spec g 3) as [-> |];
      [destruct (Z.leb_spec 3 i); [congruence|];
       intros _; assert (i = 0 \/ i = 1 \/ i = 2) as Hc by lia;
       clearbody i; cbv [In]; intuition (subst; auto 30)|].
    destruct (Z.eqb_spec g 4) as [-> |]; [|congruence].
    destruct (Z.leb_spec 10 i); [congruence|].
    intros _.
    assert (i = 0 \/ i = 1 \/ i = 2 \/ i = 3 \/ i = 4 \/ i = 5 \/ i = 6
            \/ i = 7 \/ i = 8 \/ i = 9) as Hc by lia.
    clearbody i; cbv [In]; intuition (subst; auto 30).
  - unfold known_opcodes. cbv [In].
    intros H.
    repeat (destruct H as [<- | H];
            [split; [intros E; vm_compute in E; first [discriminate E | reflexivity]
                    | intros L; vm_compute in L; first [discriminate L | reflexivity]]|]).
    contradiction.
Qed.

